(** * remcap benchmark harness: metrics model, server lifecycle, client loop
      and orchestrator, embedded from the Python sources under [bench/].

    Layout (definitions first, theorems last):
    - [Py]        exceptions and the error monad used for fallible code;
    - [PyFloat]   Python [float] as IEEE 754 binary64 ([SpecFloat]);
    - [Json]      the value trees exchanged with the [json] module;
    - [MemorySample], [ServerMetrics], [ClientMetrics],
      [AggregatedClientMetrics], [BenchmarkResult]   (bench/metrics.py);
    - [RerunServer]                     (bench/backends/rerun/server.py);
    - [ClientPy]                        (bench/backends/rerun/client_py.py);
    - [Runner]                          (bench/runner.py);
    - [Registry]                        (bench/backends/__init__.py);
    - [DataConfig]                      (bench/config.py);
    - [DataGenerators]                  (bench/data_generators.py). *)

From Stdlib Require Import ZArith List String Ascii Bool Lia.
From Stdlib Require Import DecimalString DecimalZ DecimalPos.
From Stdlib Require Import Permutation Sorted.
From Stdlib Require Import QArith Lqa.
From Stdlib Require Import SpecFloat.
From stdpp Require Import base option gmap strings.

Import ListNotations.
Set Warnings "-register-all".
Local Open Scope Z_scope.
Local Open Scope string_scope.
Local Open Scope list_scope.

(* ===================================================================== *)
(** ** Exceptions and the error monad *)
(* ===================================================================== *)

Module Py.

(** The Python exceptions the modelled code can raise, with their message
    where the code builds one. *)
Inductive exn : Type :=
| OverflowError
| ZeroDivisionError
| KeyError (key : string)
| TypeError
| ValueError (msg : string)
| RuntimeError (msg : string)
| FileNotFoundError (path : string)
| OSError (msg : string)
| Exception (msg : string).

(** [str(e)]: the message of an exception. *)
Definition str (e : exn) : string :=
  match e with
  | OverflowError => "int too large to convert to float"
  | ZeroDivisionError => "float division by zero"
  | KeyError key => key
  | TypeError => ""
  | ValueError msg => msg
  | RuntimeError msg => msg
  | FileNotFoundError path => path
  | OSError msg => msg
  | Exception msg => msg
  end.

Inductive result (A : Type) : Type :=
| OK (a : A)
| Raise (e : exn).
Arguments OK {A} a.
Arguments Raise {A} e.

Definition bind {A B} (m : result A) (k : A -> result B) : result B :=
  match m with
  | OK a => k a
  | Raise e => Raise e
  end.

(** [mapM f l]: evaluate [f] on the elements from left to right, stopping
    at the first exception. *)
Fixpoint mapM {A B} (f : A -> result B) (l : list A) : result (list B) :=
  match l with
  | [] => OK []
  | a :: l' =>
      bind (f a) (fun b => bind (mapM f l') (fun bs => OK (b :: bs)))
  end.

End Py.

Import Py.

Notation "'let*' x ':=' m 'in' k" := (Py.bind m (fun x => k))
  (at level 10, x name, m at level 100, k at level 200).

(* ===================================================================== *)
(** ** Python floats *)
(* ===================================================================== *)

Module PyFloat.

(** A Python [float] is an IEEE 754 binary64 number: 53 bits of precision,
    exponent of the infinities 1024. *)
Definition prec : Z := 53.
Definition emax : Z := 1024.

Definition float : Type := spec_float.

Definition zero : float := S754_zero false.

Definition add : float -> float -> float := SFadd prec emax.
Definition sub : float -> float -> float := SFsub prec emax.
Definition mul : float -> float -> float := SFmul prec emax.

(** [x < y], [x <= y] on floats; both are [False] when a NaN is involved. *)
Definition ltb : float -> float -> bool := SFltb.
Definition leb : float -> float -> bool := SFleb.

Definition is_nan (x : float) : bool :=
  match x with S754_nan => true | _ => false end.

(** The float nearest to an integer (round half to even); an infinity when
    the integer is beyond the binary64 range. *)
Definition of_Z (n : Z) : float := binary_normalize prec emax n 0 false.

(** Conversion of a Python [int] operand of a float operation
    ([PyLong_AsDouble]): OverflowError when the integer does not round to a
    finite float. *)
Definition of_int (n : Z) : result float :=
  match of_Z n with
  | S754_infinity _ => Raise OverflowError
  | x => OK x
  end.

(** [x / y] on floats: ZeroDivisionError when the divisor is a zero. *)
Definition truediv (x y : float) : result float :=
  match y with
  | S754_zero _ => Raise ZeroDivisionError
  | _ => OK (SFdiv prec emax x y)
  end.

(** [n / y] for an [int] [n] and a float [y]: the integer is converted
    first, then the floats are divided. *)
Definition int_truediv (n : Z) (y : float) : result float :=
  let* x := of_int n in truediv x y.

(** [int(x)] for a finite float: truncation toward zero.  (Python raises on
    an infinity or a NaN; the callers below only pass finite products of a
    list length, so those cases are mapped to 0.) *)
Definition trunc (x : float) : Z :=
  match x with
  | S754_finite s m e =>
      let a := match e with
               | Zneg p => Z.shiftr (Zpos m) (Zpos p)
               | _ => Z.shiftl (Zpos m) e
               end in
      if s then - a else a
  | _ => 0
  end.

(** The literal [0.99]: the double nearest to 99/100,
    8917127262193582 * 2^-53. *)
Definition lit_0_99 : float :=
  Eval vm_compute in SFdiv prec emax (of_Z 99) (of_Z 100).

(** [sum] of floats the way a [+=] loop from [0.0] computes it. *)
Definition sum (l : list float) : float := fold_left add l zero.

End PyFloat.

Abbreviation float := PyFloat.float.

(* ===================================================================== *)
(** ** Builtins and library functions used by the metrics *)
(* ===================================================================== *)

Module Builtins.

(** [max(x, *l)] keeps the first maximal item: the running maximum is
    replaced only by an item that is strictly greater. *)
Definition max (x : float) (l : list float) : float :=
  fold_left (fun m y => if PyFloat.ltb m y then y else m) l x.

(** [min]: the running minimum is replaced only by a strictly smaller item. *)
Definition min (x : float) (l : list float) : float :=
  fold_left (fun m y => if PyFloat.ltb y m then y else m) l x.

(** [sorted(l)]: a stable ascending sort that compares with [<] only.  On
    NaN-free data every such sort returns the same list as Python's. *)
Fixpoint insert (x : float) (l : list float) : list float :=
  match l with
  | [] => [x]
  | y :: l' => if PyFloat.ltb y x then y :: insert x l' else x :: y :: l'
  end.

Fixpoint sorted (l : list float) : list float :=
  match l with
  | [] => []
  | x :: l' => insert x (sorted l')
  end.

End Builtins.

(** The two functions of Python's [statistics] module the metrics call.
    They are library code outside the repository: the model takes them as
    a parameter.  Both are only called on non-empty data. *)
Record Statistics : Type := {
  mean : list float -> float;
  median : list float -> float;
}.

(* ===================================================================== *)
(** ** JSON values *)
(* ===================================================================== *)

Module Json.

(** What [json.dump] accepts and [json.load] returns.  A dict keeps its
    insertion order, so it is an association list. *)
Inductive t : Type :=
| Null
| Bool (b : bool)
| Int (n : Z)
| Float (f : float)
| Str (s : string)
| List (l : list t)
| Dict (d : list (string * t)).

(** [d.get(key)]: the binding of [key], if any. *)
Fixpoint get (d : list (string * t)) (key : string) : option t :=
  match d with
  | [] => None
  | (k, v) :: d' => if String.eqb k key then Some v else get d' key
  end.

(** [d.get(key, default)]. *)
Definition get_default (d : list (string * t)) (key : string) (default : t) : t :=
  match get d key with
  | Some v => v
  | None => default
  end.

(** [d[key]]: KeyError when the key is absent. *)
Definition item (d : list (string * t)) (key : string) : result t :=
  match get d key with
  | Some v => OK v
  | None => Raise (KeyError key)
  end.

(** Readers for the typed fields of the dataclasses.  The Python code
    stores whatever value the dict holds; the records below are typed, so
    a value of another JSON type than the field's annotation is rejected
    here with TypeError. *)
Definition as_float (j : t) : result float :=
  match j with Float f => OK f | _ => Raise TypeError end.
Definition as_int (j : t) : result Z :=
  match j with Int n => OK n | _ => Raise TypeError end.
Definition as_str (j : t) : result string :=
  match j with Str s => OK s | _ => Raise TypeError end.
Definition as_list (j : t) : result (list t) :=
  match j with List l => OK l | _ => Raise TypeError end.
Definition as_dict (j : t) : result (list (string * t)) :=
  match j with Dict d => OK d | _ => Raise TypeError end.

End Json.

(* ===================================================================== *)
(** ** bench/metrics.py *)
(* ===================================================================== *)

Module MemorySample.

Record t : Type := mk {
  timestamp : float;
  memory_mb : float;
}.

End MemorySample.

Module ServerMetrics.

Record t : Type := mk {
  memory_samples : list MemorySample.t;
  start_time : float;
  end_time : float;
  rrd_file_size_mb : float;
}.

(** [ServerMetrics()]: the dataclass defaults. *)
Definition default : t := mk [] PyFloat.zero PyFloat.zero PyFloat.zero.

Section WithStatistics.
Context (statistics : Statistics).

Definition memory_peak_mb (self : t) : float :=
  match map MemorySample.memory_mb (memory_samples self) with
  | [] => PyFloat.zero
  | x :: l => Builtins.max x l
  end.

Definition memory_avg_mb (self : t) : float :=
  match memory_samples self with
  | [] => PyFloat.zero
  | _ => mean statistics (map MemorySample.memory_mb (memory_samples self))
  end.

Definition duration_sec (self : t) : float :=
  PyFloat.sub (end_time self) (start_time self).

Definition to_dict (self : t) : Json.t :=
  Json.Dict
    [ ("memory_samples",
        Json.List
          (map (fun s => Json.Dict
                  [ ("timestamp", Json.Float (MemorySample.timestamp s));
                    ("memory_mb", Json.Float (MemorySample.memory_mb s)) ])
               (memory_samples self)));
      ("memory_peak_mb", Json.Float (memory_peak_mb self));
      ("memory_avg_mb", Json.Float (memory_avg_mb self));
      ("start_time", Json.Float (start_time self));
      ("end_time", Json.Float (end_time self));
      ("duration_sec", Json.Float (duration_sec self));
      ("rrd_file_size_mb", Json.Float (rrd_file_size_mb self)) ].

End WithStatistics.

(** One turn of the [for sample in ...] loop of [from_dict]. *)
Definition sample_from_dict (sample : Json.t) : result MemorySample.t :=
  let* d := Json.as_dict sample in
  let* ts := Json.item d "timestamp" in
  let* ts := Json.as_float ts in
  let* mb := Json.item d "memory_mb" in
  let* mb := Json.as_float mb in
  OK (MemorySample.mk ts mb).

Definition from_dict (data : list (string * Json.t)) : result t :=
  let* st := Json.as_float (Json.get_default data "start_time" (Json.Float PyFloat.zero)) in
  let* et := Json.as_float (Json.get_default data "end_time" (Json.Float PyFloat.zero)) in
  let* sz := Json.as_float (Json.get_default data "rrd_file_size_mb" (Json.Float PyFloat.zero)) in
  let* samples := Json.as_list (Json.get_default data "memory_samples" (Json.List [])) in
  let* samples := mapM sample_from_dict samples in
  OK (mk samples st et sz).

End ServerMetrics.

(** [data_size: int | str]. *)
Inductive DataSize : Type :=
| SizeInt (n : Z)
| SizeStr (s : string).

Module ClientMetrics.

Record t : Type := mk {
  client_id : string;
  data_type : string;
  data_size : DataSize;
  frequency_hz : float;
  log_count : Z;
  latencies_ms : list float;
  start_time : float;
  end_time : float;
  errors : list string;
}.

(** [ClientMetrics()]: the dataclass defaults. *)
Definition default : t :=
  mk "" "" (SizeInt 0) PyFloat.zero 0 [] PyFloat.zero PyFloat.zero [].

(** [int(len(sorted_latencies) * 0.99)] *)
Definition p99_index (n : nat) : nat :=
  Z.to_nat (PyFloat.trunc (PyFloat.mul (PyFloat.of_Z (Z.of_nat n)) PyFloat.lit_0_99)).

(** The body shared by [latency_p99_ms] and the aggregate: sort, index,
    clamp.  (The caller has checked that the series is not empty.) *)
Definition p99_of (latencies : list float) : float :=
  let sorted_latencies := Builtins.sorted latencies in
  let idx := p99_index (length sorted_latencies) in
  nth (Nat.min idx (length sorted_latencies - 1)) sorted_latencies PyFloat.zero.

Definition latency_p99_ms (self : t) : float :=
  match latencies_ms self with
  | [] => PyFloat.zero
  | _ => p99_of (latencies_ms self)
  end.

Definition latency_max_ms (self : t) : float :=
  match latencies_ms self with
  | [] => PyFloat.zero
  | x :: l => Builtins.max x l
  end.

Definition latency_min_ms (self : t) : float :=
  match latencies_ms self with
  | [] => PyFloat.zero
  | x :: l => Builtins.min x l
  end.

Definition duration_sec (self : t) : float :=
  PyFloat.sub (end_time self) (start_time self).

Definition throughput (self : t) : result float :=
  if PyFloat.leb (duration_sec self) PyFloat.zero then OK PyFloat.zero
  else PyFloat.int_truediv (log_count self) (duration_sec self).

Definition data_size_to_json (s : DataSize) : Json.t :=
  match s with
  | SizeInt n => Json.Int n
  | SizeStr s => Json.Str s
  end.

Definition data_size_of_json (j : Json.t) : result DataSize :=
  match j with
  | Json.Int n => OK (SizeInt n)
  | Json.Str s => OK (SizeStr s)
  | _ => Raise TypeError
  end.

Section WithStatistics.
Context (statistics : Statistics).

Definition latency_mean_ms (self : t) : float :=
  match latencies_ms self with
  | [] => PyFloat.zero
  | _ => mean statistics (latencies_ms self)
  end.

Definition latency_p50_ms (self : t) : float :=
  match latencies_ms self with
  | [] => PyFloat.zero
  | _ => median statistics (latencies_ms self)
  end.

Definition to_dict (self : t) : result Json.t :=
  let* th := throughput self in
  OK (Json.Dict
    [ ("client_id", Json.Str (client_id self));
      ("data_type", Json.Str (data_type self));
      ("data_size", data_size_to_json (data_size self));
      ("frequency_hz", Json.Float (frequency_hz self));
      ("log_count", Json.Int (log_count self));
      ("latencies_ms", Json.List (map Json.Float (latencies_ms self)));
      ("latency_mean_ms", Json.Float (latency_mean_ms self));
      ("latency_p50_ms", Json.Float (latency_p50_ms self));
      ("latency_p99_ms", Json.Float (latency_p99_ms self));
      ("latency_max_ms", Json.Float (latency_max_ms self));
      ("latency_min_ms", Json.Float (latency_min_ms self));
      ("start_time", Json.Float (start_time self));
      ("end_time", Json.Float (end_time self));
      ("duration_sec", Json.Float (duration_sec self));
      ("throughput", Json.Float th);
      ("errors", Json.List (map Json.Str (errors self))) ]).

End WithStatistics.

Definition from_dict (data : list (string * Json.t)) : result t :=
  let* cid := Json.as_str (Json.get_default data "client_id" (Json.Str "")) in
  let* dt := Json.as_str (Json.get_default data "data_type" (Json.Str "")) in
  let* ds := data_size_of_json (Json.get_default data "data_size" (Json.Int 0)) in
  let* fq := Json.as_float (Json.get_default data "frequency_hz" (Json.Float PyFloat.zero)) in
  let* lc := Json.as_int (Json.get_default data "log_count" (Json.Int 0)) in
  let* ls := Json.as_list (Json.get_default data "latencies_ms" (Json.List [])) in
  let* ls := mapM Json.as_float ls in
  let* st := Json.as_float (Json.get_default data "start_time" (Json.Float PyFloat.zero)) in
  let* et := Json.as_float (Json.get_default data "end_time" (Json.Float PyFloat.zero)) in
  let* es := Json.as_list (Json.get_default data "errors" (Json.List [])) in
  let* es := mapM Json.as_str es in
  OK (mk cid dt ds fq lc ls st et es).

End ClientMetrics.

Module AggregatedClientMetrics.

Record t : Type := mk {
  total_log_count : Z;
  total_throughput : float;
  latency_mean_ms : float;
  latency_p50_ms : float;
  latency_p99_ms : float;
  latency_max_ms : float;
  latency_min_ms : float;
  client_count : Z;
}.

(** [AggregatedClientMetrics()]: every field at its zero default. *)
Definition default : t :=
  mk 0 PyFloat.zero PyFloat.zero PyFloat.zero PyFloat.zero PyFloat.zero
     PyFloat.zero 0.

(** The accumulators of the [for client in clients] loop. *)
Record acc : Type := mk_acc {
  all_latencies : list float;
  acc_log_count : Z;
  acc_throughput : float;
}.

Fixpoint accumulate (clients : list ClientMetrics.t) (a : acc) : result acc :=
  match clients with
  | [] => OK a
  | client :: rest =>
      let all := all_latencies a ++ ClientMetrics.latencies_ms client in
      let count := acc_log_count a + ClientMetrics.log_count client in
      let* th := ClientMetrics.throughput client in
      accumulate rest (mk_acc all count (PyFloat.add (acc_throughput a) th))
  end.

Section WithStatistics.
Context (statistics : Statistics).

Definition from_clients (clients : list ClientMetrics.t) : result t :=
  match clients with
  | [] => OK default
  | _ =>
      let* a := accumulate clients (mk_acc [] 0 PyFloat.zero) in
      let result :=
        mk (acc_log_count a) (acc_throughput a)
           PyFloat.zero PyFloat.zero PyFloat.zero PyFloat.zero PyFloat.zero
           (Z.of_nat (length clients)) in
      match all_latencies a with
      | [] => OK result
      | x :: l =>
          OK (mk (total_log_count result) (total_throughput result)
                 (mean statistics (x :: l))
                 (median statistics (x :: l))
                 (ClientMetrics.p99_of (x :: l))
                 (Builtins.max x l)
                 (Builtins.min x l)
                 (client_count result))
      end
  end.

End WithStatistics.

Definition to_dict (self : t) : Json.t :=
  Json.Dict
    [ ("total_log_count", Json.Int (total_log_count self));
      ("total_throughput", Json.Float (total_throughput self));
      ("latency_mean_ms", Json.Float (latency_mean_ms self));
      ("latency_p50_ms", Json.Float (latency_p50_ms self));
      ("latency_p99_ms", Json.Float (latency_p99_ms self));
      ("latency_max_ms", Json.Float (latency_max_ms self));
      ("latency_min_ms", Json.Float (latency_min_ms self));
      ("client_count", Json.Int (client_count self)) ].

End AggregatedClientMetrics.

Module BenchmarkResult.

Record t : Type := mk {
  name : string;
  description : string;
  backend_type : string;
  timestamp : string;
  server_metrics : ServerMetrics.t;
  client_metrics : list ClientMetrics.t;
  config_snapshot : list (string * Json.t);
}.

Section WithLibraries.
Context (statistics : Statistics).
(** [Path(output_dir) / filename] of [pathlib]. *)
Context (joinpath : string -> string -> string).

Definition aggregated_client_metrics (self : t)
  : result AggregatedClientMetrics.t :=
  AggregatedClientMetrics.from_clients statistics (client_metrics self).

Definition to_dict (self : t) : result Json.t :=
  let* cs := mapM (ClientMetrics.to_dict statistics) (client_metrics self) in
  let* agg := aggregated_client_metrics self in
  OK (Json.Dict
    [ ("name", Json.Str (name self));
      ("description", Json.Str (description self));
      ("backend_type", Json.Str (backend_type self));
      ("timestamp", Json.Str (timestamp self));
      ("server_metrics", ServerMetrics.to_dict statistics (server_metrics self));
      ("client_metrics", Json.List cs);
      ("aggregated_client_metrics", AggregatedClientMetrics.to_dict agg);
      ("config_snapshot", Json.Dict (config_snapshot self)) ]).

(** [save]: the files of the host are a finite map from paths to the JSON
    document each one holds ([json.dump] followed by [json.load] returns
    the document it was given).  [ts] is
    [datetime.now().strftime("%Y%m%d_%H%M%S")].  The result is the new
    file system and the path written.  (When [to_dict] raises, Python has
    already created the file, empty; the model keeps the exception only.) *)
Definition save (self : t) (output_dir : string) (ts : string)
    (fs : gmap string Json.t) : result (gmap string Json.t * string) :=
  let filename := name self +:+ "_" +:+ ts +:+ ".json" in
  let filepath := joinpath output_dir filename in
  let* doc := to_dict self in
  OK (<[filepath := doc]> fs, filepath).

Definition load (fs : gmap string Json.t) (path : string) : result t :=
  match fs !! path with
  | None => Raise (FileNotFoundError path)
  | Some doc =>
      let* data := Json.as_dict doc in
      let* nm := Json.item data "name" in
      let* nm := Json.as_str nm in
      let* ds := Json.as_str (Json.get_default data "description" (Json.Str "")) in
      let* bt := Json.item data "backend_type" in
      let* bt := Json.as_str bt in
      let* tsp := Json.item data "timestamp" in
      let* tsp := Json.as_str tsp in
      let* sm := Json.as_dict (Json.get_default data "server_metrics" (Json.Dict [])) in
      let* sm := ServerMetrics.from_dict sm in
      let* cms := Json.as_list (Json.get_default data "client_metrics" (Json.List [])) in
      let* cms := mapM (fun c => let* d := Json.as_dict c in ClientMetrics.from_dict d) cms in
      let* cfg := Json.as_dict (Json.get_default data "config_snapshot" (Json.Dict [])) in
      OK (mk nm ds bt tsp sm cms cfg)
  end.

End WithLibraries.

End BenchmarkResult.

(** [save_client_metrics] / [load_client_metrics]: one metrics document per
    path. *)
Definition save_client_metrics (statistics : Statistics)
    (metrics : ClientMetrics.t) (path : string) (fs : gmap string Json.t)
  : result (gmap string Json.t) :=
  let* doc := ClientMetrics.to_dict statistics metrics in
  OK (<[path := doc]> fs).

Definition load_client_metrics (fs : gmap string Json.t) (path : string)
  : result ClientMetrics.t :=
  match fs !! path with
  | None => Raise (FileNotFoundError path)
  | Some doc => let* data := Json.as_dict doc in ClientMetrics.from_dict data
  end.

(** [str(n)] for an [int]. *)
Definition str_of_int (n : Z) : string := NilZero.string_of_int (Z.to_int n).

(* ===================================================================== *)
(** ** bench/backends/base.py *)
(* ===================================================================== *)

Module ServerConfig.
Record t : Type := mk {
  port : Z;
  memory_sample_interval_ms : Z;
}.
End ServerConfig.

Module ClientConfig.
Record t : Type := mk {
  language : string;
  data_type : string;
  data_size : DataSize;
  frequency_hz : float;
  duration_sec : float;
}.
End ClientConfig.

(* ===================================================================== *)
(** ** bench/backends/rerun/server.py *)
(* ===================================================================== *)

Module RerunServer.

(** What one turn of the sampling loop meets: [process.memory_info()]
    returns a resident size and [time.time()] is read, or the call raises
    [psutil.NoSuchProcess], or it raises another exception. *)
Inductive poll : Type :=
| MemoryInfo (rss : Z) (now : float)
| NoSuchProcess
| OtherException.

(** The operating system as the server object meets it during one run.
    Each field is the outcome of the call named in its comment. *)
Record World : Type := {
  (** [subprocess.Popen(cmd, ...)]: the pid of the [rerun] process *)
  popen : result nat;
  (** [self._proc.poll()] after the warm-up sleep of [start] *)
  poll_after_warmup : option Z;
  (** [self._proc.communicate()]; the captured bytes are UTF-8 text *)
  captured_stdout : string;
  captured_stderr : string;
  (** [time.time()] in [start] *)
  time_at_start : float;
  (** [psutil.Process(pid)] succeeds *)
  psutil_process : bool;
  (** the turns of the sampling loop taken before the thread sees the
      stop event set *)
  sampler_turns : list poll;
  (** [self._proc.poll()] in [is_running] *)
  poll_in_is_running : option Z;
  (** [time.time()] in [stop] *)
  time_at_stop : float;
  (** [self._proc.terminate()] *)
  terminate : result unit;
  (** [self._proc.wait(timeout=5.0)] raises [TimeoutExpired] *)
  wait_times_out : bool;
  (** [self.rrd_file.exists()] and, if so, [self.rrd_file.stat().st_size] *)
  rrd_file_stat : option (result Z);
}.

Inductive event : Type :=
| KillProcessOnPort (port : Z)
| Popen (cmd : list string)
| ThreadStart
| ThreadJoin
| Terminate
| Kill.

(** The attributes of a [RerunServer] object. *)
Record t : Type := mk {
  _proc : option nat;
  _config : option ServerConfig.t;
  _temp_dir : option string;
  _metrics : ServerMetrics.t;
  _monitor_thread : bool;
  _stop_event : bool;
}.

(** [RerunServer()] *)
Definition init : t := mk None None None ServerMetrics.default false false.

Definition set_metrics (self : t) (m : ServerMetrics.t) : t :=
  mk (_proc self) (_config self) (_temp_dir self) m
     (_monitor_thread self) (_stop_event self).

Definition set_proc (self : t) (p : option nat) : t :=
  mk p (_config self) (_temp_dir self) (_metrics self)
     (_monitor_thread self) (_stop_event self).

Definition rrd_file (self : t) : result string :=
  match _temp_dir self with
  | None => Raise (RuntimeError "Server not started")
  | Some d => OK (d +:+ "/benchmark.rrd")
  end.

(** The message of the error [start] raises when the process has exited. *)
Definition start_error (stdout stderr : string) : string :=
  "Rerun server failed to start." +:+ String (ascii_of_nat 10) "stdout: "
    +:+ stdout +:+ String (ascii_of_nat 10) "stderr: " +:+ stderr.

(** [start]: the outcome, the object after the call, the events. *)
Definition start (w : World) (config : ServerConfig.t) (temp_dir : string)
    (self : t) : result unit * t * list event :=
  let self := mk (_proc self) (Some config) (Some temp_dir)
                 ServerMetrics.default (_monitor_thread self) false in
  let ev := [KillProcessOnPort (ServerConfig.port config)] in
  let cmd := ["rerun"; "--serve-grpc"; "--port";
              str_of_int (ServerConfig.port config); "--save";
              temp_dir +:+ "/benchmark.rrd"] in
  match popen w with
  | Raise e => (Raise e, self, ev)
  | OK pid =>
      let self := set_proc self (Some pid) in
      let ev := ev ++ [Popen cmd] in
      match poll_after_warmup w with
      | Some _ =>
          (Raise (RuntimeError
                    (start_error (captured_stdout w) (captured_stderr w))),
           self, ev)
      | None =>
          let m := _metrics self in
          let m := ServerMetrics.mk (ServerMetrics.memory_samples m)
                     (time_at_start w) (ServerMetrics.end_time m)
                     (ServerMetrics.rrd_file_size_mb m) in
          (OK tt,
           mk (_proc self) (_config self) (_temp_dir self) m true
              (_stop_event self),
           ev ++ [ThreadStart])
      end
  end.

(** [rss / (1024 * 1024)] *)
Definition memory_mb_of (rss : Z) : float :=
  SFdiv PyFloat.prec PyFloat.emax (PyFloat.of_Z rss) (PyFloat.of_Z (1024 * 1024)).

(** The [while not self._stop_event.is_set()] loop of [_monitor_memory],
    over the turns it takes; [samples] is the list it appends to. *)
Fixpoint monitor_loop (turns : list poll) (samples : list MemorySample.t)
  : list MemorySample.t :=
  match turns with
  | [] => samples
  | MemoryInfo rss now :: rest =>
      monitor_loop rest (samples ++ [MemorySample.mk now (memory_mb_of rss)])
  | NoSuchProcess :: _ => samples
  | OtherException :: rest => monitor_loop rest samples
  end.

(** [_monitor_memory]: the sample list when the thread ends. *)
Definition _monitor_memory (w : World) (self : t) : list MemorySample.t :=
  let samples := ServerMetrics.memory_samples (_metrics self) in
  match _proc self, _config self with
  | Some _, Some _ =>
      if psutil_process w then monitor_loop (sampler_turns w) samples
      else samples
  | _, _ => samples
  end.

(** [stop].  The sampling thread runs between [start] and the join here
    and nothing reads the samples in between, so its appends are applied
    at the join. *)
Definition stop (w : World) (self : t) : result unit * t * list event :=
  let self := mk (_proc self) (_config self) (_temp_dir self) (_metrics self)
                 (_monitor_thread self) true in
  let '(self, ev) :=
    if _monitor_thread self then
      let m := _metrics self in
      (set_metrics self
         (ServerMetrics.mk (_monitor_memory w self) (ServerMetrics.start_time m)
            (ServerMetrics.end_time m) (ServerMetrics.rrd_file_size_mb m)),
       [ThreadJoin])
    else (self, []) in
  let m := _metrics self in
  let self := set_metrics self
    (ServerMetrics.mk (ServerMetrics.memory_samples m)
       (ServerMetrics.start_time m) (time_at_stop w)
       (ServerMetrics.rrd_file_size_mb m)) in
  let '(r, self, ev) :=
    match _proc self with
    | None => (OK tt, self, ev)
    | Some _ =>
        match terminate w with
        | Raise e => (Raise e, self, ev ++ [Terminate])
        | OK _ =>
            let ev := ev ++ [Terminate] in
            let ev := if wait_times_out w then ev ++ [Kill] else ev in
            (OK tt, set_proc self None, ev)
        end
    end in
  match r with
  | Raise e => (Raise e, self, ev)
  | OK _ =>
      match rrd_file self with
      | Raise e => (Raise e, self, ev)
      | OK _ =>
          match rrd_file_stat w with
          | None => (OK tt, self, ev)
          | Some (Raise e) => (Raise e, self, ev)
          | Some (OK size) =>
              let m := _metrics self in
              (OK tt,
               set_metrics self
                 (ServerMetrics.mk (ServerMetrics.memory_samples m)
                    (ServerMetrics.start_time m) (ServerMetrics.end_time m)
                    (memory_mb_of size)),
               ev)
          end
      end
  end.

Definition get_metrics (self : t) : ServerMetrics.t := _metrics self.

Definition is_running (w : World) (self : t) : bool :=
  match _proc self with
  | None => false
  | Some _ => match poll_in_is_running w with None => true | Some _ => false end
  end.

Definition get_address (self : t) : result string :=
  match _config self with
  | None => Raise (RuntimeError "Server not started")
  | Some c =>
      OK ("rerun+http://127.0.0.1:" +:+ str_of_int (ServerConfig.port c)
            +:+ "/proxy")
  end.

Definition name : string := "rerun".

End RerunServer.

(* ===================================================================== *)
(** ** bench/backends/rerun/client_py.py *)
(* ===================================================================== *)

Module ClientPy.

(** The arithmetic the publish loop does on time values (seconds); the
    client computes on floats ([float_ops]). *)
Record TimeOps (T : Type) : Type := {
  t_add : T -> T -> T;
  t_sub : T -> T -> T;
  (** [n * x] for an [int] [n] *)
  t_scale : Z -> T -> result T;
  (** [x < y] *)
  t_ltb : T -> T -> bool;
  (** [x > 0] *)
  t_pos : T -> bool;
}.
Arguments t_add {T}.
Arguments t_sub {T}.
Arguments t_scale {T}.
Arguments t_ltb {T}.
Arguments t_pos {T}.

Definition float_ops : TimeOps float := {|
  t_add := PyFloat.add;
  t_sub := PyFloat.sub;
  t_scale := fun n x => let* k := PyFloat.of_int n in OK (PyFloat.mul k x);
  t_ltb := PyFloat.ltb;
  t_pos := fun x => PyFloat.ltb PyFloat.zero x;
|}.

(** The outcome of one [rr.log] call: the wall-clock time it took and, if
    it returned, the latency [(end_ns - start_ns) / 1_000_000] measured
    around it; or the exception it raised. *)
Inductive publish (T : Type) : Type :=
| Logged (elapsed : T) (latency_ms : float)
| LogRaises (elapsed : T) (e : exn).
Arguments Logged {T}.
Arguments LogRaises {T}.

(** The process environment of one client. *)
Record World (T : Type) : Type := {
  (** [rr.init] and [rr.connect_grpc] *)
  connect : result unit;
  (** [generate_data(data_type, parsed_size, seed)] *)
  generate_data : Z -> result unit;
  (** [time.time()] when [main] is entered *)
  time_at_entry : T;
  (** [time.time()] after the settle sleep *)
  time_after_settle : T;
  (** the [k]-th [rr.log] call, [k] from 0 *)
  rr_log : nat -> publish T;
  (** the time the [k]-th [time.sleep(d)] of the loop takes, [k] from 0 *)
  sleep : nat -> T -> T;
}.
Arguments connect {T}.
Arguments generate_data {T}.
Arguments time_at_entry {T}.
Arguments time_after_settle {T}.
Arguments rr_log {T}.
Arguments sleep {T}.

(** What the loop does on a tick, for the record: the tick's number after
    the publish, the absolute target it computed, and the sleep requested
    ([None] when it did not sleep). *)
Record tick (T : Type) : Type := mk_tick {
  tick_count : Z;
  tick_target : T;
  tick_now : T;
  tick_sleep : option T;
}.
Arguments mk_tick {T}.
Arguments tick_count {T}.
Arguments tick_target {T}.
Arguments tick_now {T}.
Arguments tick_sleep {T}.

(** The local variables of [main] the loop updates, and the clock. *)
Record loop (T : Type) : Type := mk_loop {
  now : T;
  log_count : Z;
  latencies : list float;
  ticks : list (tick T);
}.
Arguments mk_loop {T}.
Arguments now {T}.
Arguments log_count {T}.
Arguments latencies {T}.
Arguments ticks {T}.

Section PublishLoop.
Context {T : Type} (ops : TimeOps T) (w : World T).
Context (start_time end_time interval : T).

Definition regen_interval : Z := 100.

(** [while time.time() < end_time: ...].  [fuel] bounds the number of
    turns; [None] means the bound was reached before the loop ended. *)
Fixpoint publish_loop (fuel : nat) (s : loop T) : option (result unit * loop T) :=
  match fuel with
  | O => None
  | S fuel' =>
      if t_ltb ops (now s) end_time then
        let regen :=
          if (Z.eqb (log_count s mod regen_interval) 0
              && Z.ltb 0 (log_count s))%bool
          then generate_data w (log_count s) else OK tt in
        match regen with
        | Raise e => Some (Raise e, s)
        | OK _ =>
            match rr_log w (Z.to_nat (log_count s)) with
            | LogRaises elapsed e =>
                Some (Raise e,
                      mk_loop (t_add ops (now s) elapsed) (log_count s)
                              (latencies s) (ticks s))
            | Logged elapsed latency_ms =>
                let now1 := t_add ops (now s) elapsed in
                let latencies1 := latencies s ++ [latency_ms] in
                let count1 := log_count s + 1 in
                match t_scale ops count1 interval with
                | Raise e =>
                    Some (Raise e, mk_loop now1 count1 latencies1 (ticks s))
                | OK offset =>
                    let next_time := t_add ops start_time offset in
                    let sleep_time := t_sub ops next_time now1 in
                    if t_pos ops sleep_time then
                      publish_loop fuel'
                        (mk_loop
                           (t_add ops now1
                              (sleep w (Z.to_nat (log_count s)) sleep_time))
                           count1 latencies1
                           (ticks s ++
                              [mk_tick count1 next_time now1 (Some sleep_time)]))
                    else
                      publish_loop fuel'
                        (mk_loop now1 count1 latencies1
                           (ticks s ++ [mk_tick count1 next_time now1 None]))
                end
            end
        end
      else Some (OK tt, s)
  end.

End PublishLoop.

(** ["x" in size.lower()] *)
Fixpoint has_x (size : string) : bool :=
  match size with
  | EmptyString => false
  | String c rest =>
      (Ascii.eqb c "x" || Ascii.eqb c "X" || has_x rest)%bool
  end.

(** How a run of [main] ends: the exception that leaves it, if any; the
    calls to [save_client_metrics] it made, in order, each with the path
    and the metrics object at the time of the call; and the loop's locals
    when it ended (if the loop was entered). *)
Record outcome : Type := mk_outcome {
  exit : result unit;
  saved : list (string * ClientMetrics.t);
  locals : option (loop float);
}.

Section Main.
(** [int(size)]: the builtin, ValueError on a malformed literal. *)
Context (int_of_str : string -> result Z).
Context (w : World float).

Definition with_times (m : ClientMetrics.t) (st et : float) : ClientMetrics.t :=
  ClientMetrics.mk (ClientMetrics.client_id m) (ClientMetrics.data_type m)
    (ClientMetrics.data_size m) (ClientMetrics.frequency_hz m)
    (ClientMetrics.log_count m) (ClientMetrics.latencies_ms m)
    st et (ClientMetrics.errors m).

(** The [except Exception as e] block. *)
Definition on_exception (m : ClientMetrics.t) (e : exn) (t_now : float)
  : ClientMetrics.t :=
  ClientMetrics.mk (ClientMetrics.client_id m) (ClientMetrics.data_type m)
    (ClientMetrics.data_size m) (ClientMetrics.frequency_hz m)
    (ClientMetrics.log_count m) (ClientMetrics.latencies_ms m)
    (ClientMetrics.start_time m) t_now
    (ClientMetrics.errors m ++ [Py.str e]).

(** The three assignments after the loop. *)
Definition on_completion (m : ClientMetrics.t) (s : loop float)
  : ClientMetrics.t :=
  ClientMetrics.mk (ClientMetrics.client_id m) (ClientMetrics.data_type m)
    (ClientMetrics.data_size m) (ClientMetrics.frequency_hz m)
    (log_count s) (latencies s)
    (ClientMetrics.start_time m) (now s)
    (ClientMetrics.errors m).

Definition main (fuel : nat) (server data_type size : string)
    (frequency duration : float) (metrics_file client_id : string)
  : option outcome :=
  let parsed :=
    if (String.eqb data_type "image" && has_x size)%bool then OK (SizeStr size)
    else let* n := int_of_str size in OK (SizeInt n) in
  match parsed with
  | Raise e => Some (mk_outcome (Raise e) [] None)
  | OK parsed_size =>
      let metrics :=
        ClientMetrics.mk client_id data_type parsed_size frequency 0 []
          PyFloat.zero PyFloat.zero [] in
      (* try: *)
      match connect w with
      | Raise e =>
          let metrics := on_exception metrics e (time_at_entry w) in
          Some (mk_outcome (OK tt) [(metrics_file, metrics)] None)
      | OK _ =>
          match PyFloat.truediv (PyFloat.of_Z 1) frequency with
          | Raise e =>
              let metrics := on_exception metrics e (time_after_settle w) in
              Some (mk_outcome (OK tt) [(metrics_file, metrics)] None)
          | OK interval =>
              match generate_data w 0 with
              | Raise e =>
                  let metrics := on_exception metrics e (time_after_settle w) in
                  Some (mk_outcome (OK tt) [(metrics_file, metrics)] None)
              | OK _ =>
                  let start_time := time_after_settle w in
                  let end_time := PyFloat.add start_time duration in
                  let metrics := with_times metrics start_time PyFloat.zero in
                  match publish_loop float_ops w start_time end_time interval
                          fuel (mk_loop start_time 0 [] []) with
                  | None => None
                  | Some (Raise e, s) =>
                      let metrics := on_exception metrics e (now s) in
                      Some (mk_outcome (OK tt) [(metrics_file, metrics)] (Some s))
                  | Some (OK _, s) =>
                      let metrics := on_completion metrics s in
                      Some (mk_outcome (OK tt) [(metrics_file, metrics)] (Some s))
                  end
              end
          end
      end
  end.

End Main.

End ClientPy.

(* ===================================================================== *)
(** ** bench/config.py *)
(* ===================================================================== *)

Module BenchmarkConfig.

(** [DataConfig] *)
Record data_config : Type := mk_data {
  type : string;
  size : DataSize;
}.

(** [ClientConfig] of config.py: one client group. *)
Record client_group : Type := mk_group {
  language : string;
  count : Z;
  data : data_config;
  frequency_hz : float;
}.

(** [BenchmarkConfig], with the nested [backend] and [metrics] models
    flattened into their fields. *)
Record t : Type := mk {
  name : string;
  description : string;
  duration_sec : float;
  backend_type : string;
  backend_server_port : Z;
  clients : list client_group;
  metrics_server_memory_sample_interval_ms : Z;
  metrics_output_dir : string;
}.

(** The field constraints pydantic enforces when a configuration is
    loaded ([Literal], [ge], [gt], [min_length]). *)
Definition valid_group (g : client_group) : Prop :=
  In (language g) ["python"; "cpp"; "rust"] /\
  1 <= count g /\
  In (type (data g)) ["points3d"; "image"; "text"; "mesh"] /\
  PyFloat.ltb PyFloat.zero (frequency_hz g) = true.

Definition valid (c : t) : Prop :=
  PyFloat.ltb PyFloat.zero (duration_sec c) = true /\
  In (backend_type c) ["rerun"; "foxglove"] /\
  1 <= backend_server_port c <= 65535 /\
  clients c <> [] /\
  Forall valid_group (clients c) /\
  10 <= metrics_server_memory_sample_interval_ms c.

(** [model_dump()]: the nested dict of the configuration. *)
Definition group_dump (g : client_group) : Json.t :=
  Json.Dict
    [ ("language", Json.Str (language g));
      ("count", Json.Int (count g));
      ("data", Json.Dict
         [ ("type", Json.Str (type (data g)));
           ("size", ClientMetrics.data_size_to_json (size (data g))) ]);
      ("frequency_hz", Json.Float (frequency_hz g)) ].

Definition model_dump (c : t) : list (string * Json.t) :=
  [ ("name", Json.Str (name c));
    ("description", Json.Str (description c));
    ("duration_sec", Json.Float (duration_sec c));
    ("backend", Json.Dict
       [ ("type", Json.Str (backend_type c));
         ("server", Json.Dict [ ("port", Json.Int (backend_server_port c)) ]) ]);
    ("clients", Json.List (map group_dump (clients c)));
    ("metrics", Json.Dict
       [ ("server", Json.Dict
            [ ("memory_sample_interval_ms",
               Json.Int (metrics_server_memory_sample_interval_ms c)) ]);
         ("output_dir", Json.Str (metrics_output_dir c)) ]) ].

(** [get_total_client_count] *)
Definition get_total_client_count (c : t) : Z :=
  fold_right Z.add 0 (map count (clients c)).

End BenchmarkConfig.

(* ===================================================================== *)
(** ** bench/backends/__init__.py and bench/backends/rerun/__init__.py *)
(* ===================================================================== *)

Module Backends.

(** What [run_benchmark] uses of a [BaseBackend].  Every registered
    backend creates a [RerunServer]; a client is identified by its
    language. *)
Record Backend : Type := {
  name : string;
  supported_languages : list string;
  create_client : string -> result string;
}.

Definition RerunBackend : Backend := {|
  name := "rerun";
  supported_languages := ["python"];
  create_client := fun language =>
    if String.eqb language "python" then OK "python"
    else Raise (ValueError ("Unsupported language for Rerun: " +:+ language
                            +:+ ". Supported: ['python']"));
|}.

(** The registry after the module is imported. *)
Definition BACKENDS : gmap string Backend := {[ "rerun" := RerunBackend ]}.

Definition get_backend (name : string) : result Backend :=
  match BACKENDS !! name with
  | None =>
      Raise (ValueError ("Unknown backend: " +:+ name +:+ ". Available: rerun"))
  | Some b => OK b
  end.

End Backends.

(* ===================================================================== *)
(** ** bench/runner.py *)
(* ===================================================================== *)

Module Runner.

Record World : Type := {
  (** the operating system as the server object meets it *)
  server_world : RerunServer.World;
  (** [tempfile.mkdtemp()] *)
  mkdtemp : string;
  (** [datetime.now().isoformat()] when the result object is created *)
  now_isoformat : string;
  (** [subprocess.Popen] in [RerunPythonClient.start], for the client
      numbered [k]: the process is spawned, or the call raises *)
  client_popen : nat -> result unit;
  (** the metrics files present once the clients have exited *)
  files : gmap string Json.t;
}.

Inductive event : Type :=
| Mkdtemp (dir : string)
| Server (e : RerunServer.event)
| Warning (language backend_name : string)
| ClientStart (client_id : string) (config : ClientConfig.t)
              (server_addr metrics_file : string)
| ClientWait (client_id : string)
| Rmtree (dir : string)
| KeepTmpdir (dir : string).

(** The state [run_benchmark] threads: the server object and what the
    run has done so far.  It survives an exception. *)
Record state : Type := mk_state {
  server : RerunServer.t;
  trace : list event;
}.

Definition M (A : Type) : Type := state -> result A * state.

Definition ret {A} (a : A) : M A := fun s => (OK a, s).
Definition raise {A} (e : exn) : M A := fun s => (Raise e, s).
Definition bind {A B} (m : M A) (k : A -> M B) : M B :=
  fun s => match m s with
           | (OK a, s') => k a s'
           | (Raise e, s') => (Raise e, s')
           end.
Definition lift {A} (r : result A) : M A := fun s => (r, s).
Definition emit (e : event) : M unit :=
  fun s => (OK tt, mk_state (server s) (trace s ++ [e])).

(** [try: body finally: final].  An exception of [final] replaces the
    outcome of [body]. *)
Definition try_finally {A} (body : M A) (final : M unit) : M A :=
  fun s => match body s with
           | (r, s1) =>
               match final s1 with
               | (Raise e, s2) => (Raise e, s2)
               | (OK _, s2) => (r, s2)
               end
           end.

(** A call of a server method: the object is updated, its events are
    appended. *)
Definition call (f : RerunServer.t -> result unit * RerunServer.t * list RerunServer.event)
  : M unit :=
  fun s => match f (server s) with
           | (r, srv, evs) => (r, mk_state srv (trace s ++ map Server evs))
           end.

Notation "'do' x '<-' m ';' k" := (bind m (fun x => k))
  (at level 10, x name, m at level 100, k at level 200).
Notation "'do' '_' '<-' m ';' k" := (bind m (fun _ => k))
  (at level 10, m at level 100, k at level 200).

(** [ServerConfig.from_config(config.backend, config.metrics)] *)
Definition server_config_of (config : BenchmarkConfig.t) : ServerConfig.t :=
  ServerConfig.mk (BenchmarkConfig.backend_server_port config)
    (BenchmarkConfig.metrics_server_memory_sample_interval_ms config).

(** [ClientConfig.from_config(client_group, config.duration_sec)] *)
Definition client_config_of (g : BenchmarkConfig.client_group)
    (duration_sec : float) : ClientConfig.t :=
  ClientConfig.mk (BenchmarkConfig.language g)
    (BenchmarkConfig.type (BenchmarkConfig.data g))
    (BenchmarkConfig.size (BenchmarkConfig.data g))
    (BenchmarkConfig.frequency_hz g) duration_sec.

(** An entry of [client_procs]: the process handle (the position of the
    [Popen] among the client starts), the metrics file, the client id. *)
Definition client_proc : Type := (nat * string * string)%type.

(** [client.start(client_config, server_addr, metrics_file, client_id)]:
    the [Popen] of [RerunPythonClient.start].  An exception of the spawn
    is not handled there; it leaves the launch loop. *)
Definition client_start (popen : nat -> result unit) (client_idx : nat)
    (client_id : string) (client_config : ClientConfig.t)
    (server_addr metrics_file : string) : M unit :=
  fun s => match popen client_idx with
           | OK _ =>
               emit (ClientStart client_id client_config server_addr
                       metrics_file) s
           | Raise e => (Raise e, s)
           end.

(** [for i in range(client_group.count): ...] *)
Fixpoint start_instances (popen : nat -> result unit) (n : nat)
    (client_config : ClientConfig.t)
    (server_addr tmpdir : string) (client_procs : list client_proc)
    (client_idx : nat) : M (list client_proc * nat) :=
  match n with
  | O => ret (client_procs, client_idx)
  | S n' =>
      let client_id := "client_" +:+ str_of_int (Z.of_nat client_idx) in
      let metrics_file := tmpdir +:+ "/" +:+ client_id +:+ "_metrics.json" in
      do _ <- client_start popen client_idx client_id client_config
                server_addr metrics_file;
      start_instances popen n' client_config server_addr tmpdir
        (client_procs ++ [(client_idx, metrics_file, client_id)])
        (S client_idx)
  end.

(** [for client_group in config.clients: ...] *)
Fixpoint launch (popen : nat -> result unit)
    (backend : Backends.Backend) (duration_sec : float)
    (groups : list BenchmarkConfig.client_group)
    (server_addr tmpdir : string) (client_procs : list client_proc)
    (client_idx : nat) : M (list client_proc * nat) :=
  match groups with
  | [] => ret (client_procs, client_idx)
  | client_group :: rest =>
      if existsb (String.eqb (BenchmarkConfig.language client_group))
           (Backends.supported_languages backend)
      then
        do _ <- lift (Backends.create_client backend
                        (BenchmarkConfig.language client_group));
        do r <- start_instances popen
                  (Z.to_nat (BenchmarkConfig.count client_group))
                  (client_config_of client_group duration_sec)
                  server_addr tmpdir client_procs client_idx;
        launch popen backend duration_sec rest server_addr tmpdir
          (fst r) (snd r)
      else
        do _ <- emit (Warning (BenchmarkConfig.language client_group)
                              (Backends.name backend));
        launch popen backend duration_sec rest server_addr tmpdir
          client_procs client_idx
  end.

(** [for proc, _, client_id in client_procs: proc.wait()] *)
Fixpoint wait_all (client_procs : list client_proc) : M unit :=
  match client_procs with
  | [] => ret tt
  | (_, _, client_id) :: rest =>
      do _ <- emit (ClientWait client_id); wait_all rest
  end.

(** [for _, metrics_file, _ in client_procs: if metrics_file.exists(): ...] *)
Fixpoint collect (fs : gmap string Json.t) (client_procs : list client_proc)
    (client_metrics : list ClientMetrics.t) : result (list ClientMetrics.t) :=
  match client_procs with
  | [] => OK client_metrics
  | (_, metrics_file, _) :: rest =>
      match fs !! metrics_file with
      | None => collect fs rest client_metrics
      | Some _ =>
          let* m := load_client_metrics fs metrics_file in
          collect fs rest (client_metrics ++ [m])
      end
  end.

Section RunBenchmark.
Context (w : World).

(** The body of the inner [try]: from the liveness check to the end of
    the waits.  It returns [client_procs]. *)
Definition supervise (config : BenchmarkConfig.t) (backend : Backends.Backend)
    (tmpdir : string) : M (list client_proc) :=
  fun s =>
    (if RerunServer.is_running (server_world w) (server s) then
       do server_addr <- lift (RerunServer.get_address (server s));
       do r <- launch (client_popen w) backend
                 (BenchmarkConfig.duration_sec config)
                 (BenchmarkConfig.clients config) server_addr tmpdir [] 0%nat;
       match fst r with
       | [] => raise (RuntimeError "No clients started")
       | client_procs => do _ <- wait_all client_procs; ret client_procs
       end
     else raise (RuntimeError "Server failed to start")) s.

(** The body of the outer [try]. *)
Definition benchmark_body (config : BenchmarkConfig.t)
    (backend : Backends.Backend) (result : BenchmarkResult.t) (tmpdir : string)
  : M BenchmarkResult.t :=
  do _ <- call (RerunServer.start (server_world w) (server_config_of config) tmpdir);
  do client_procs <-
    try_finally (supervise config backend tmpdir)
                (call (RerunServer.stop (server_world w)));
  fun s =>
    (do client_metrics <- lift (collect (files w) client_procs
                                  (BenchmarkResult.client_metrics result));
     ret (BenchmarkResult.mk (BenchmarkResult.name result)
            (BenchmarkResult.description result)
            (BenchmarkResult.backend_type result)
            (BenchmarkResult.timestamp result)
            (RerunServer.get_metrics (server s))
            client_metrics
            (BenchmarkResult.config_snapshot result))) s.

(** [run_benchmark(config, keep_tmpdir)], from a fresh server object and
    an empty trace: the result or the exception that leaves the function,
    and the final state. *)
Definition run_benchmark (config : BenchmarkConfig.t) (keep_tmpdir : bool)
  : result BenchmarkResult.t * state :=
  let s0 := mk_state RerunServer.init [] in
  match Backends.get_backend (BenchmarkConfig.backend_type config) with
  | Raise e => (Raise e, s0)
  | OK backend =>
      let result :=
        BenchmarkResult.mk (BenchmarkConfig.name config)
          (BenchmarkConfig.description config)
          (BenchmarkConfig.backend_type config)
          (now_isoformat w) ServerMetrics.default []
          (BenchmarkConfig.model_dump config) in
      let tmpdir := mkdtemp w in
      (do _ <- emit (Mkdtemp tmpdir);
       try_finally (benchmark_body config backend result tmpdir)
         (emit (if keep_tmpdir then KeepTmpdir tmpdir else Rmtree tmpdir))) s0
  end.

End RunBenchmark.

End Runner.

(* ===================================================================== *)
(** * Predicates and example data used in the statements *)
(* ===================================================================== *)

(** A client whose [log_count] is beyond the range of a float, over a
    duration of one second. *)
Definition huge_count_client : ClientMetrics.t :=
  ClientMetrics.mk "client_0" "text" (SizeInt 1) PyFloat.zero (2 ^ 1024) []
    PyFloat.zero (PyFloat.of_Z 1) [].

(** Ten messages in two seconds: five per second. *)
Definition ten_in_two_seconds : ClientMetrics.t :=
  ClientMetrics.mk "client_0" "text" (SizeInt 1) PyFloat.zero 10 []
    PyFloat.zero (PyFloat.of_Z 2) [].

Definition not_nan (x : float) : Prop := PyFloat.is_nan x = false.
Definition le (x y : float) : Prop := PyFloat.leb x y = true.

(** The series 1.0, 2.0, ..., 100.0. *)
Definition one_to_hundred : list float :=
  map (fun k => PyFloat.of_Z (Z.of_nat k)) (seq 1 100).

Definition with_latencies (l : list float) : ClientMetrics.t :=
  ClientMetrics.mk "client_0" "text" (SizeInt 1) PyFloat.zero
    (Z.of_nat (length l)) l PyFloat.zero PyFloat.zero [].

(** [floor(0.99 * n)] in exact arithmetic. *)
Definition nearest_rank_index (n : nat) : nat :=
  Z.to_nat (99 * Z.of_nat n / 100).

(** A client's own rate as the specification words it: [log_count]
    divided by the client's own duration, and [0.0] when that duration is
    not positive.  It is written on the float operations, without the
    code's [throughput]. *)
Definition own_rate (c : ClientMetrics.t) : float :=
  let duration :=
    PyFloat.sub (ClientMetrics.end_time c) (ClientMetrics.start_time c) in
  if PyFloat.leb duration PyFloat.zero then PyFloat.zero
  else SFdiv PyFloat.prec PyFloat.emax
         (PyFloat.of_Z (ClientMetrics.log_count c)) duration.

(** The nearest-rank p99 of a non-empty series: the item of the ascending
    sort at the index [floor(0.99 * n)], clamped to [n - 1]. *)
Definition nearest_rank_p99 (l : list float) : float :=
  let n := length l in
  nth (Nat.min (nearest_rank_index n) (n - 1)) (Builtins.sorted l) PyFloat.zero.

(** The aggregate as the specification words it: sums over the clients,
    statistics of the concatenated latency series.  It is compared with
    [from_clients] below. *)
Definition aggregate_by_sums (statistics : Statistics)
    (clients : list ClientMetrics.t) : AggregatedClientMetrics.t :=
  let merged := concat (map ClientMetrics.latencies_ms clients) in
  AggregatedClientMetrics.mk
    (fold_right Z.add 0 (map ClientMetrics.log_count clients))
    (PyFloat.sum (map own_rate clients))
    (match merged with [] => PyFloat.zero | _ => mean statistics merged end)
    (match merged with [] => PyFloat.zero | _ => median statistics merged end)
    (match merged with [] => PyFloat.zero | _ => nearest_rank_p99 merged end)
    (match merged with [] => PyFloat.zero | x :: l => Builtins.max x l end)
    (match merged with [] => PyFloat.zero | x :: l => Builtins.min x l end)
    (Z.of_nat (length clients)).

(** A bit as an integer. *)
Definition b2z (b : bool) : Z := if b then 1 else 0.

(** Rounding to nearest, ties to even, of [m0 / 2^k]. *)
Definition rne (m0 k : Z) : Z :=
  let q := m0 / 2 ^ k in
  match Z.compare (2 * (m0 mod 2 ^ k)) (2 ^ k) with
  | Lt => q
  | Gt => q + 1
  | Eq => if Z.even q then q else q + 1
  end.

(** The mantissa of the double [0.99]. *)
Definition mantissa_0_99 : Z := 8917127262193582.

(** A stand-in for the [statistics] module, to evaluate examples: the
    median as Python computes it, and the mean as the float sum over the
    float length. *)
Definition example_median (data : list float) : float :=
  let s := Builtins.sorted data in
  let n := length s in
  if Nat.odd n then nth (n / 2) s PyFloat.zero
  else SFdiv PyFloat.prec PyFloat.emax
         (PyFloat.add (nth (n / 2 - 1) s PyFloat.zero) (nth (n / 2) s PyFloat.zero))
         (PyFloat.of_Z 2).

Definition example_statistics : Statistics := {|
  mean := fun data =>
    SFdiv PyFloat.prec PyFloat.emax (PyFloat.sum data)
      (PyFloat.of_Z (Z.of_nat (length data)));
  median := example_median;
|}.

(** A result with one memory sample and one client, and a path join for
    relative file names. *)
Definition example_result : BenchmarkResult.t :=
  BenchmarkResult.mk "run" "two seconds" "rerun" "2026-01-01T00:00:00"
    (ServerMetrics.mk [MemorySample.mk (PyFloat.of_Z 1) (PyFloat.of_Z 50)]
       PyFloat.zero (PyFloat.of_Z 3) (PyFloat.of_Z 2))
    [ten_in_two_seconds]
    [("name", Json.Str "run")].

Definition example_joinpath (dir file : string) : string :=
  dir +:+ "/" +:+ file.

(** The values [time.time()] returns in the turns of the sampling loop
    that reach it, in order. *)
Fixpoint readings (turns : list RerunServer.poll) : list float :=
  match turns with
  | [] => []
  | RerunServer.MemoryInfo _ now :: rest => now :: readings rest
  | _ :: rest => readings rest
  end.

(** The clock does not step back between two readings. *)
Definition nondecreasing (ts : list float) : Prop :=
  forall i j ti tj, (i < j)%nat ->
    nth_error ts i = Some ti -> nth_error ts j = Some tj -> le ti tj.

(** The sample sequence of a server object that is started and then
    stopped. *)
Definition samples_of_run (w : RerunServer.World) (config : ServerConfig.t)
    (temp_dir : string) : list MemorySample.t :=
  let '(_, started, _) := RerunServer.start w config temp_dir RerunServer.init in
  let '(_, stopped, _) := RerunServer.stop w started in
  ServerMetrics.memory_samples (RerunServer.get_metrics stopped).

(** A server that runs through three sampling turns, one of which fails,
    and stops in time. *)
Definition example_server_world : RerunServer.World := {|
  RerunServer.popen := OK 4242%nat;
  RerunServer.poll_after_warmup := None;
  RerunServer.captured_stdout := "";
  RerunServer.captured_stderr := "";
  RerunServer.time_at_start := PyFloat.of_Z 100;
  RerunServer.psutil_process := true;
  RerunServer.sampler_turns :=
    [ RerunServer.MemoryInfo 52428800 (PyFloat.of_Z 100);
      RerunServer.OtherException;
      RerunServer.MemoryInfo 62914560 (PyFloat.of_Z 101) ];
  RerunServer.poll_in_is_running := None;
  RerunServer.time_at_stop := PyFloat.of_Z 102;
  RerunServer.terminate := OK tt;
  RerunServer.wait_times_out := false;
  RerunServer.rrd_file_stat := Some (OK 1048576);
|}.

Definition example_server_config : ServerConfig.t := ServerConfig.mk 9876 100.

(** The same server on a host whose wall clock is set back by a second
    between two sampling turns. *)
Definition clock_set_back_world : RerunServer.World := {|
  RerunServer.popen := OK 4242%nat;
  RerunServer.poll_after_warmup := None;
  RerunServer.captured_stdout := "";
  RerunServer.captured_stderr := "";
  RerunServer.time_at_start := PyFloat.of_Z 100;
  RerunServer.psutil_process := true;
  RerunServer.sampler_turns :=
    [ RerunServer.MemoryInfo 52428800 (PyFloat.of_Z 101);
      RerunServer.MemoryInfo 62914560 (PyFloat.of_Z 100) ];
  RerunServer.poll_in_is_running := None;
  RerunServer.time_at_stop := PyFloat.of_Z 102;
  RerunServer.terminate := OK tt;
  RerunServer.wait_times_out := false;
  RerunServer.rrd_file_stat := Some (OK 1048576);
|}.

(** The line feed of the f-strings. *)
Definition LF : string := String (ascii_of_nat 10) "".

(** The events of a trace that start a client process. *)
Definition is_client_start (e : Runner.event) : bool :=
  match e with Runner.ClientStart _ _ _ _ => true | _ => false end.

Definition client_starts (trace : list Runner.event) : list Runner.event :=
  List.filter is_client_start trace.

(** What ends every trace once the temporary directory exists. *)
Definition cleanup (keep_tmpdir : bool) (tmpdir : string) : Runner.event :=
  if keep_tmpdir then Runner.KeepTmpdir tmpdir else Runner.Rmtree tmpdir.

(** *** What a run does, in closed form (for the statements about
    [run_benchmark]) *)

(** [client_group.language in backend.supported_languages()] *)
Definition supported (b : Backends.Backend) (g : BenchmarkConfig.client_group)
  : bool :=
  existsb (String.eqb (BenchmarkConfig.language g))
          (Backends.supported_languages b).

(** The sum of [count] over the groups whose language is supported. *)
Fixpoint supported_count (b : Backends.Backend)
    (groups : list BenchmarkConfig.client_group) : Z :=
  match groups with
  | [] => 0
  | g :: rest =>
      if supported b g then BenchmarkConfig.count g + supported_count b rest
      else supported_count b rest
  end.

Definition client_id_of (i : nat) : string :=
  "client_" +:+ str_of_int (Z.of_nat i).

Definition metrics_file_of (tmpdir : string) (i : nat) : string :=
  tmpdir +:+ "/" +:+ client_id_of i +:+ "_metrics.json".

(** The entries of [client_procs] and the starts of [n] instances
    numbered from [idx]. *)
Definition instance_procs (tmpdir : string) (idx n : nat)
  : list Runner.client_proc :=
  map (fun i => (i, metrics_file_of tmpdir i, client_id_of i)) (seq idx n).

Definition instance_starts (c : ClientConfig.t) (server_addr tmpdir : string)
    (idx n : nat) : list Runner.event :=
  map (fun i => Runner.ClientStart (client_id_of i) c server_addr
                  (metrics_file_of tmpdir i))
      (seq idx n).

(** The processes and the events of a launch loop none of whose spawns
    fails. *)
Fixpoint launch_procs (b : Backends.Backend)
    (groups : list BenchmarkConfig.client_group) (tmpdir : string) (idx : nat)
  : list Runner.client_proc :=
  match groups with
  | [] => []
  | g :: rest =>
      if supported b g then
        let n := Z.to_nat (BenchmarkConfig.count g) in
        instance_procs tmpdir idx n ++ launch_procs b rest tmpdir (idx + n)
      else launch_procs b rest tmpdir idx
  end.

Fixpoint launch_events (b : Backends.Backend) (duration_sec : float)
    (groups : list BenchmarkConfig.client_group)
    (server_addr tmpdir : string) (idx : nat) : list Runner.event :=
  match groups with
  | [] => []
  | g :: rest =>
      if supported b g then
        let n := Z.to_nat (BenchmarkConfig.count g) in
        instance_starts (Runner.client_config_of g duration_sec)
          server_addr tmpdir idx n
        ++ launch_events b duration_sec rest server_addr tmpdir (idx + n)
      else
        Runner.Warning (BenchmarkConfig.language g) (Backends.name b)
        :: launch_events b duration_sec rest server_addr tmpdir idx
  end.

(** The server object once [start] has returned. *)
Definition started (sw : RerunServer.World) (config : ServerConfig.t)
    (temp_dir : string) (pid : nat) : RerunServer.t :=
  RerunServer.mk (Some pid) (Some config) (Some temp_dir)
    (ServerMetrics.mk [] (RerunServer.time_at_start sw) PyFloat.zero
       PyFloat.zero)
    true false.

(** How [stop] ends on a started server, and what it does. *)
Definition stop_result (sw : RerunServer.World) : result unit :=
  match RerunServer.terminate sw with
  | Raise e => Raise e
  | OK _ =>
      match RerunServer.rrd_file_stat sw with
      | Some (Raise e) => Raise e
      | _ => OK tt
      end
  end.

Definition stop_events (sw : RerunServer.World) : list RerunServer.event :=
  [RerunServer.ThreadJoin; RerunServer.Terminate]
  ++ match RerunServer.terminate sw with
     | OK _ => if RerunServer.wait_times_out sw then [RerunServer.Kill] else []
     | Raise _ => []
     end.

(** The address clients are given, whether the server still runs at the
    liveness check of [run_benchmark], and the outcome and the events of
    the supervised part of a run (from that check to the end of the
    waits). *)
Definition server_addr_of (config : BenchmarkConfig.t) : string :=
  "rerun+http://127.0.0.1:"
    +:+ str_of_int (BenchmarkConfig.backend_server_port config) +:+ "/proxy".

Definition alive (sw : RerunServer.World) : bool :=
  match RerunServer.poll_in_is_running sw with None => true | Some _ => false end.

Definition procs_of (w : Runner.World) (config : BenchmarkConfig.t)
  : list Runner.client_proc :=
  launch_procs Backends.RerunBackend (BenchmarkConfig.clients config)
    (Runner.mkdtemp w) 0.

Definition waits (client_procs : list Runner.client_proc) : list Runner.event :=
  map (fun p : Runner.client_proc => Runner.ClientWait (snd p)) client_procs.

(** The first spawn that fails among the clients numbered [idx], ...,
    [idx + n - 1], with its exception. *)
Fixpoint first_failure (popen : nat -> result unit) (idx n : nat)
  : option (nat * exn) :=
  match n with
  | O => None
  | S n' =>
      match popen idx with
      | Raise e => Some (idx, e)
      | OK _ => first_failure popen (S idx) n'
      end
  end.

(** The events that come before the client start numbered [k] (from 0). *)
Fixpoint before_start (k : nat) (events : list Runner.event)
  : list Runner.event :=
  match events with
  | [] => []
  | e :: rest =>
      if is_client_start e then
        match k with
        | O => []
        | S k' => e :: before_start k' rest
        end
      else e :: before_start k rest
  end.

(** The spawn at which the launch loop of a run fails, if any. *)
Definition spawn_failure (w : Runner.World) (config : BenchmarkConfig.t)
  : option (nat * exn) :=
  first_failure (Runner.client_popen w) 0 (length (procs_of w config)).

Definition supervised_events (w : Runner.World) (config : BenchmarkConfig.t)
  : list Runner.event :=
  if alive (Runner.server_world w) then
    let launched :=
      launch_events Backends.RerunBackend (BenchmarkConfig.duration_sec config)
        (BenchmarkConfig.clients config) (server_addr_of config)
        (Runner.mkdtemp w) 0 in
    match spawn_failure w config with
    | Some (k, _) => before_start k launched
    | None => launched ++ waits (procs_of w config)
    end
  else [].

Definition supervised_result (w : Runner.World) (config : BenchmarkConfig.t)
  : result (list Runner.client_proc) :=
  if alive (Runner.server_world w) then
    match spawn_failure w config with
    | Some (_, e) => Raise e
    | None =>
        match procs_of w config with
        | [] => Raise (RuntimeError "No clients started")
        | client_procs => OK client_procs
        end
    end
  else Raise (RuntimeError "Server failed to start").

(** The events of a run whose server started. *)
Definition started_trace (w : Runner.World) (config : BenchmarkConfig.t)
    (keep_tmpdir : bool) : list Runner.event :=
  [ Runner.Mkdtemp (Runner.mkdtemp w);
    Runner.Server (RerunServer.KillProcessOnPort
                     (BenchmarkConfig.backend_server_port config));
    Runner.Server (RerunServer.Popen
                     [ "rerun"; "--serve-grpc"; "--port";
                       str_of_int (BenchmarkConfig.backend_server_port config);
                       "--save"; Runner.mkdtemp w +:+ "/benchmark.rrd" ]);
    Runner.Server RerunServer.ThreadStart ]
  ++ supervised_events w config
  ++ map Runner.Server (stop_events (Runner.server_world w))
  ++ [cleanup keep_tmpdir (Runner.mkdtemp w)].

(** The events of a trace that come from the server object. *)
Definition is_server_event (e : Runner.event) : bool :=
  match e with Runner.Server _ => true | _ => false end.

Definition server_events (trace : list Runner.event) : list Runner.event :=
  List.filter is_server_event trace.

(** Two python clients and a rust client against a server on port 9876,
    for one second. *)
Definition example_config : BenchmarkConfig.t :=
  BenchmarkConfig.mk "demo" "" (PyFloat.of_Z 1) "rerun" 9876
    [ BenchmarkConfig.mk_group "python" 2
        (BenchmarkConfig.mk_data "points3d" (SizeInt 100)) (PyFloat.of_Z 10);
      BenchmarkConfig.mk_group "rust" 1
        (BenchmarkConfig.mk_data "text" (SizeInt 16)) (PyFloat.of_Z 10) ]
    100 "./results".

(** A host on which the server runs and stops cleanly, and no client left
    a metrics file. *)
Definition example_world : Runner.World := {|
  Runner.server_world := example_server_world;
  Runner.mkdtemp := "/tmp/bench";
  Runner.now_isoformat := "2026-01-01T00:00:00";
  Runner.client_popen := fun _ => OK tt;
  Runner.files := ∅;
|}.

(** The same host as [example_world], except that the process has no file
    descriptor left for the pipes of a second client. *)
Definition spawn_failing_world : Runner.World := {|
  Runner.server_world := example_server_world;
  Runner.mkdtemp := "/tmp/bench";
  Runner.now_isoformat := "2026-01-01T00:00:00";
  Runner.client_popen := fun k =>
    if (k <? 1)%nat then OK tt
    else Raise (OSError "[Errno 24] Too many open files");
  Runner.files := ∅;
|}.

(** The same host, except that the server exits during its warm-up with
    a message on stderr. *)
Definition crashing_world : Runner.World := {|
  Runner.server_world := {|
    RerunServer.popen := OK 4242%nat;
    RerunServer.poll_after_warmup := Some 1;
    RerunServer.captured_stdout := "";
    RerunServer.captured_stderr := "Error: address in use";
    RerunServer.time_at_start := PyFloat.of_Z 100;
    RerunServer.psutil_process := true;
    RerunServer.sampler_turns := [];
    RerunServer.poll_in_is_running := Some 1;
    RerunServer.time_at_stop := PyFloat.of_Z 102;
    RerunServer.terminate := OK tt;
    RerunServer.wait_times_out := false;
    RerunServer.rrd_file_stat := None;
  |};
  Runner.mkdtemp := "/tmp/bench";
  Runner.now_isoformat := "2026-01-01T00:00:00";
  Runner.client_popen := fun _ => OK tt;
  Runner.files := ∅;
|}.

(** The same host as [example_world], except that [stat] of the recording
    fails while the server is stopped. *)
Definition stat_failing_world : Runner.World := {|
  Runner.server_world := {|
    RerunServer.popen := OK 4242%nat;
    RerunServer.poll_after_warmup := None;
    RerunServer.captured_stdout := "";
    RerunServer.captured_stderr := "";
    RerunServer.time_at_start := PyFloat.of_Z 100;
    RerunServer.psutil_process := true;
    RerunServer.sampler_turns := [];
    RerunServer.poll_in_is_running := None;
    RerunServer.time_at_stop := PyFloat.of_Z 102;
    RerunServer.terminate := OK tt;
    RerunServer.wait_times_out := false;
    RerunServer.rrd_file_stat := Some (Raise (OSError "stat: benchmark.rrd"));
  |};
  Runner.mkdtemp := "/tmp/bench";
  Runner.now_isoformat := "2026-01-01T00:00:00";
  Runner.client_popen := fun _ => OK tt;
  Runner.files := ∅;
|}.

(** *** The client: example environments *)

(** A stand-in for the builtin [int] on decimal literals. *)
Definition example_int_of_str (s : string) : result Z :=
  match NilZero.int_of_string s with
  | Some i => OK (Z.of_int i)
  | None => Raise (ValueError ("invalid literal for int() with base 10: " +:+ s))
  end.

Definition half : float :=
  Eval vm_compute in SFdiv PyFloat.prec PyFloat.emax (PyFloat.of_Z 1) (PyFloat.of_Z 2).

(** [1.0 / 10.0], the interval at 10 Hz: the float nearest to a tenth. *)
Definition tenth : float :=
  Eval vm_compute in SFdiv PyFloat.prec PyFloat.emax (PyFloat.of_Z 1) (PyFloat.of_Z 10).

(** A client whose first two [rr.log] calls take no time and whose third
    one raises; sleeps last as long as asked. *)
Definition third_publish_fails : ClientPy.World float := {|
  ClientPy.connect := OK tt;
  ClientPy.generate_data := fun _ => OK tt;
  ClientPy.time_at_entry := PyFloat.of_Z 999;
  ClientPy.time_after_settle := PyFloat.of_Z 1000;
  ClientPy.rr_log := fun k =>
    if (k <? 2)%nat then ClientPy.Logged PyFloat.zero half
    else ClientPy.LogRaises PyFloat.zero (Exception "connection lost");
  ClientPy.sleep := fun _ d => d;
|}.

(** A client each of whose [rr.log] calls takes half a second. *)
Definition slow_publish : ClientPy.World float := {|
  ClientPy.connect := OK tt;
  ClientPy.generate_data := fun _ => OK tt;
  ClientPy.time_at_entry := PyFloat.of_Z 999;
  ClientPy.time_after_settle := PyFloat.of_Z 1000;
  ClientPy.rr_log := fun _ => ClientPy.Logged half (PyFloat.of_Z 500);
  ClientPy.sleep := fun _ d => d;
|}.

(** A client started on 4 November 2025 whose [rr.log] calls take no
    time and whose sleeps last as long as asked. *)
Definition steady_world : ClientPy.World float := {|
  ClientPy.connect := OK tt;
  ClientPy.generate_data := fun _ => OK tt;
  ClientPy.time_at_entry := PyFloat.of_Z 1762214399;
  ClientPy.time_after_settle := PyFloat.of_Z 1762214400;
  ClientPy.rr_log := fun _ => ClientPy.Logged PyFloat.zero half;
  ClientPy.sleep := fun _ d => d;
|}.

(** The same client on a host whose sleeps last [419430 * 2^-22] s, just
    under a tenth of a second, longer than asked. *)
Definition late_sleep_world : ClientPy.World float := {|
  ClientPy.connect := OK tt;
  ClientPy.generate_data := fun _ => OK tt;
  ClientPy.time_at_entry := PyFloat.of_Z 1762214399;
  ClientPy.time_after_settle := PyFloat.of_Z 1762214400;
  ClientPy.rr_log := fun _ => ClientPy.Logged PyFloat.zero half;
  ClientPy.sleep := fun _ d =>
    PyFloat.add d
      (SFdiv PyFloat.prec PyFloat.emax (PyFloat.of_Z 419430)
         (PyFloat.of_Z 4194304));
|}.

(** *** The client: the schedule *)

(** A tick is on the absolute schedule when its target is
    [start_time + count * interval] and the sleep it asked for is the
    remaining delta to that target, asked only when positive. *)
Definition on_schedule {T : Type} (ops : ClientPy.TimeOps T)
    (start_time interval : T) (t : ClientPy.tick T) : Prop :=
  exists offset,
    ClientPy.t_scale ops (ClientPy.tick_count t) interval = OK offset /\
    ClientPy.tick_target t = ClientPy.t_add ops start_time offset /\
    ClientPy.tick_sleep t
    = (let delta := ClientPy.t_sub ops (ClientPy.tick_target t)
                      (ClientPy.tick_now t) in
       if ClientPy.t_pos ops delta then Some delta else None).

(** The loop's record is in step with its counter: one tick and one
    latency per publish, the ticks numbered 1, 2, ... *)
Definition in_step {T : Type} (s : ClientPy.loop T) : Prop :=
  0 <= ClientPy.log_count s /\
  map ClientPy.tick_count (ClientPy.ticks s)
  = map Z.of_nat (seq 1 (Z.to_nat (ClientPy.log_count s))) /\
  length (ClientPy.latencies s) = Z.to_nat (ClientPy.log_count s).

(** *** The client: durations and clock readings *)

(** A float that is a number: a zero or a finite float. *)
Definition is_finite (x : float) : bool :=
  match x with
  | S754_zero _ | S754_finite _ _ _ => true
  | _ => false
  end.

(** The number a finite float stands for, [m * 2^e] with its sign. *)
Definition float_value (x : float) : Q :=
  match x with
  | S754_finite s m e =>
      let a := match e with
               | Zneg p => (Zpos m # Pos.pow 2 p)%Q
               | _ => inject_Z (Zpos m * 2 ^ e)
               end in
      if s then (- a)%Q else a
  | _ => 0%Q
  end.

(** A clock reading from [2^30] up to [2^31 - 2] seconds after the epoch
    (from January 2004 to January 2038): a float [m * 2^-22] with a
    mantissa of 53 bits. *)
Definition in_epoch (t : float) : Prop :=
  exists m : positive,
    t = S754_finite false m (-22) /\ 2 ^ 52 <= Zpos m < 2 ^ 53 - 2 ^ 23.

(** The environment of the statement on the number of publishes: every
    [rr.log] call returns, within a tenth of a second, and every sleep
    lasts at least as long as asked and at most a tenth of a second
    longer. *)
Definition punctual (w : ClientPy.World float) : Prop :=
  (forall k, exists elapsed latency_ms,
     ClientPy.rr_log w k = ClientPy.Logged elapsed latency_ms /\
     is_finite elapsed = true /\
     (0 <= float_value elapsed)%Q /\ (float_value elapsed <= 1 # 10)%Q) /\
  (forall k d, is_finite d = true -> (0 < float_value d)%Q ->
     is_finite (ClientPy.sleep w k d) = true /\
     (float_value d <= float_value (ClientPy.sleep w k d))%Q /\
     (float_value (ClientPy.sleep w k d) <= float_value d + (1 # 10))%Q).

(* ===================================================================== *)
(** * The rest of the modules: further functions and predicates *)
(* ===================================================================== *)

(** ** bench/metrics.py: [save_server_metrics] / [load_server_metrics] *)

(** [ServerMetrics.to_dict] cannot raise, so the write always happens. *)
Definition save_server_metrics (statistics : Statistics)
    (metrics : ServerMetrics.t) (path : string) (fs : gmap string Json.t)
  : gmap string Json.t :=
  <[path := ServerMetrics.to_dict statistics metrics]> fs.

Definition load_server_metrics (fs : gmap string Json.t) (path : string)
  : result ServerMetrics.t :=
  match fs !! path with
  | None => Raise (FileNotFoundError path)
  | Some doc => let* data := Json.as_dict doc in ServerMetrics.from_dict data
  end.

(** The keys [ClientMetrics.from_dict] and [ServerMetrics.from_dict] read. *)
Definition client_fields : list string :=
  [ "client_id"; "data_type"; "data_size"; "frequency_hz"; "log_count";
    "latencies_ms"; "start_time"; "end_time"; "errors" ].

Definition server_fields : list string :=
  [ "start_time"; "end_time"; "rrd_file_size_mb"; "memory_samples" ].

(** A float that is not below zero (a NaN is not). *)
Definition not_negative (x : float) : Prop := PyFloat.ltb x PyFloat.zero = false.

(** A float that carries the sign [s], or a NaN. *)
Definition signed (s : bool) (x : float) : Prop :=
  match x with
  | S754_zero s' | S754_infinity s' | S754_finite s' _ _ => s' = s
  | S754_nan => True
  end.

(** ** bench/backends/__init__.py: the registry as a value *)

Module Registry.

(** [BACKENDS]: a dict keeps the order in which its keys were first
    inserted. *)
Definition t : Type := list (string * Backends.Backend).

Fixpoint lookup (reg : t) (name : string) : option Backends.Backend :=
  match reg with
  | [] => None
  | (k, v) :: rest => if String.eqb k name then Some v else lookup rest name
  end.

(** [BACKENDS[name] = backend_cls]: a new key goes last, a known key keeps
    its place and takes the new value. *)
Fixpoint register_backend (name : string) (backend_cls : Backends.Backend)
    (reg : t) : t :=
  match reg with
  | [] => [(name, backend_cls)]
  | (k, v) :: rest =>
      if String.eqb k name then (k, backend_cls) :: rest
      else (k, v) :: register_backend name backend_cls rest
  end.

(** [list_backends] *)
Definition list_backends (reg : t) : list string := map fst reg.

(** [sep.join(l)] *)
Fixpoint join (sep : string) (l : list string) : string :=
  match l with
  | [] => ""
  | s :: rest =>
      match rest with
      | [] => s
      | _ => s +:+ sep +:+ join sep rest
      end
  end.

Definition get_backend (reg : t) (name : string) : result Backends.Backend :=
  match lookup reg name with
  | None =>
      let available :=
        match join ", " (list_backends reg) with
        | EmptyString => "none"
        | s => s
        end in
      Raise (ValueError ("Unknown backend: " +:+ name +:+ ". Available: "
                         +:+ available))
  | Some b => OK b
  end.

(** The registry once the package is imported: [BACKENDS = {}], then
    [register_backend("rerun", RerunBackend)]. *)
Definition after_import : t :=
  register_backend "rerun" Backends.RerunBackend [].

End Registry.

(** ** bench/config.py: [DataConfig] *)

Module DataConfig.

(** [str.lower] on ASCII text. *)
Definition lower_ascii (c : ascii) : ascii :=
  let n := nat_of_ascii c in
  if ((65 <=? n) && (n <=? 90))%nat then ascii_of_nat (n + 32) else c.

Fixpoint lower (s : string) : string :=
  match s with
  | EmptyString => EmptyString
  | String c rest => String (lower_ascii c) (lower rest)
  end.

(** [c in s] for a character [c] *)
Fixpoint contains (c : ascii) (s : string) : bool :=
  match s with
  | EmptyString => false
  | String c' rest => (Ascii.eqb c' c || contains c rest)%bool
  end.

(** [s.split(sep)] for a one-character separator: the pieces between the
    occurrences of [sep]; one piece more than there are occurrences. *)
Fixpoint split (sep : ascii) (s : string) : list string :=
  match s with
  | EmptyString => [EmptyString]
  | String c rest =>
      if Ascii.eqb c sep then EmptyString :: split sep rest
      else match split sep rest with
           | [] => [String c EmptyString]
           | piece :: pieces => String c piece :: pieces
           end
  end.

Section WithInt.
(** [int(s)]: the builtin, ValueError on a malformed literal. *)
Context (int_of_str : string -> result Z).

(** [validate_size].  The check of the two dimensions sits inside the
    [try] whose handler catches ValueError. *)
Definition validate_size (v : DataSize) : result DataSize :=
  match v with
  | SizeStr s =>
      if negb (contains "x" (lower s)) then
        Raise (ValueError ("Image size must be in format 'WxH', got: " +:+ s))
      else
        match split "x" (lower s) with
        | [p0; p1] =>
            let body :=
              let* w := int_of_str p0 in
              let* h := int_of_str p1 in
              if (Z.leb w 0 || Z.leb h 0)%bool
              then Raise (ValueError "Width and height must be positive")
              else OK tt in
            match body with
            | Raise (ValueError _) =>
                Raise (ValueError ("Invalid image size format: " +:+ s))
            | Raise e => Raise e
            | OK _ => OK v
            end
        | _ =>
            Raise (ValueError ("Image size must be in format 'WxH', got: " +:+ s))
        end
  | SizeInt n =>
      if Z.leb n 0 then Raise (ValueError "Size must be positive") else OK v
  end.

(** [get_image_dimensions].  [parts[1]] raises IndexError when the size
    holds no separator. *)
Definition get_image_dimensions (d : BenchmarkConfig.data_config)
  : result (Z * Z) :=
  match BenchmarkConfig.size d with
  | SizeInt _ =>
      Raise (ValueError "Image size must be a string in format 'WxH'")
  | SizeStr s =>
      let parts := split "x" (lower s) in
      let* w := int_of_str (nth 0 parts EmptyString) in
      match nth_error parts 1 with
      | None => Raise (Exception "list index out of range")
      | Some p1 => let* h := int_of_str p1 in OK (w, h)
      end
  end.

End WithInt.

End DataConfig.

(** ** bench/data_generators.py *)

Module DataGenerators.

(** The generator [generate_data] hands over to, with its arguments.  The
    arrays the generators draw from [np.random] are not modelled. *)
Inductive call : Type :=
| Points3d (num_points : Z)
| Image (width height : Z)
| Text (length : Z)
| Mesh (num_vertices : Z).

(** The [indices] list of [generate_mesh], before the reshape. *)
Definition mesh_indices (num_triangles : Z) : list Z :=
  flat_map (fun i => [i; i + 1; i + 2])
           (map Z.of_nat (seq 0 (Z.to_nat num_triangles))).

(** [np.array(indices).reshape(-1, 3)]: the rows of three. *)
Fixpoint reshape3 (l : list Z) : list (Z * Z * Z) :=
  match l with
  | a :: b :: c :: rest => (a, b, c) :: reshape3 rest
  | _ => []
  end.

(** [generate_mesh]: the number of vertices it draws and the
    [triangle_indices] it builds. *)
Definition generate_mesh (num_vertices : Z) : Z * list (Z * Z * Z) :=
  let num_vertices := if Z.ltb num_vertices 3 then 3 else num_vertices in
  let num_triangles := Z.max 1 (num_vertices - 2) in
  (num_vertices, reshape3 (mesh_indices num_triangles)).

Section WithInt.
Context (int_of_str : string -> result Z).

(** [int(size)] where the size is a string, the size itself otherwise. *)
Definition int_size (size : DataSize) : result Z :=
  match size with
  | SizeStr s => int_of_str s
  | SizeInt n => OK n
  end.

Definition generate_data (data_type : string) (size : DataSize)
  : result call :=
  if String.eqb data_type "points3d" then
    let* n := int_size size in OK (Points3d n)
  else if String.eqb data_type "image" then
    match size with
    | SizeStr s =>
        let parts := DataConfig.split "x" (DataConfig.lower s) in
        let* width := int_of_str (nth 0 parts EmptyString) in
        match nth_error parts 1 with
        | None => Raise (Exception "list index out of range")
        | Some p1 => let* height := int_of_str p1 in OK (Image width height)
        end
    | SizeInt n => OK (Image n n)
    end
  else if String.eqb data_type "text" then
    let* n := int_size size in OK (Text n)
  else if String.eqb data_type "mesh" then
    let* n := int_size size in OK (Mesh n)
  else Raise (ValueError ("Unknown data type: " +:+ data_type)).

End WithInt.

End DataGenerators.

(** ** Predicates for the statements about the orchestrator *)

(** The id of a client start, of a client wait. *)
Definition start_id (e : Runner.event) : option string :=
  match e with Runner.ClientStart id _ _ _ => Some id | _ => None end.

Definition wait_id (e : Runner.event) : option string :=
  match e with Runner.ClientWait id => Some id | _ => None end.

(** The metrics file a client start names. *)
Definition start_file (e : Runner.event) : option string :=
  match e with Runner.ClientStart _ _ _ file => Some file | _ => None end.

(** [metrics_file.exists()] *)
Definition present (fs : gmap string Json.t) (p : Runner.client_proc) : bool :=
  match fs !! snd (fst p) with Some _ => true | None => false end.

(** An event that removes the temporary directory. *)
Definition is_rmtree (e : Runner.event) : bool :=
  match e with Runner.Rmtree _ => true | _ => false end.

(** A host on which the [rerun] executable cannot be spawned. *)
Definition no_rerun_world : Runner.World := {|
  Runner.server_world := {|
    RerunServer.popen := Raise (FileNotFoundError "rerun");
    RerunServer.poll_after_warmup := None;
    RerunServer.captured_stdout := "";
    RerunServer.captured_stderr := "";
    RerunServer.time_at_start := PyFloat.of_Z 100;
    RerunServer.psutil_process := true;
    RerunServer.sampler_turns := [];
    RerunServer.poll_in_is_running := None;
    RerunServer.time_at_stop := PyFloat.of_Z 102;
    RerunServer.terminate := OK tt;
    RerunServer.wait_times_out := false;
    RerunServer.rrd_file_stat := None;
  |};
  Runner.mkdtemp := "/tmp/bench";
  Runner.now_isoformat := "2026-01-01T00:00:00";
  Runner.client_popen := fun _ => OK tt;
  Runner.files := ∅;
|}.

(** ** Predicates for the statements about the traces *)

(** The items of a list on which [f] is defined, in order. *)
Definition choose {A B : Type} (f : A -> option B) (l : list A) : list B :=
  flat_map (fun a => match f a with Some b => [b] | None => [] end) l.

(** The ids of the clients a trace starts, and of those it waits for. *)
Definition started_ids (trace : list Runner.event) : list string :=
  choose start_id trace.

Definition waited_ids (trace : list Runner.event) : list string :=
  choose wait_id trace.

(** The configuration [example_config], asking for the other backend
    that the configuration schema admits. *)
Definition foxglove_config : BenchmarkConfig.t :=
  BenchmarkConfig.mk "demo" "" (PyFloat.of_Z 1) "foxglove" 9876
    (BenchmarkConfig.clients example_config) 100 "./results".

(** A host on which the server starts and is gone by the time
    [run_benchmark] checks that it runs. *)
Definition dying_world : Runner.World := {|
  Runner.server_world := {|
    RerunServer.popen := OK 4242%nat;
    RerunServer.poll_after_warmup := None;
    RerunServer.captured_stdout := "";
    RerunServer.captured_stderr := "";
    RerunServer.time_at_start := PyFloat.of_Z 100;
    RerunServer.psutil_process := true;
    RerunServer.sampler_turns := [RerunServer.NoSuchProcess];
    RerunServer.poll_in_is_running := Some 1;
    RerunServer.time_at_stop := PyFloat.of_Z 102;
    RerunServer.terminate := OK tt;
    RerunServer.wait_times_out := false;
    RerunServer.rrd_file_stat := None;
  |};
  Runner.mkdtemp := "/tmp/bench";
  Runner.now_isoformat := "2026-01-01T00:00:00";
  Runner.client_popen := fun _ => OK tt;
  Runner.files := ∅;
|}.

(* ===================================================================== *)
(** * Properties *)
(* ===================================================================== *)

(** ** Floats: comparison facts used below *)

Lemma SFcompare_antisym (x y : float) (c : comparison) :
  SFcompare x y = Some c -> SFcompare y x = Some (CompOpp c).
Proof.
  destruct x as [sx|sx| |sx mx ex], y as [sy|sy| |sy my ey]; simpl;
    try discriminate;
    try (destruct sx; try destruct sy; intros [= <-]; reflexivity).
  change (Pos.compare_cont Eq mx my) with (Pos.compare mx my).
  change (Pos.compare_cont Eq my mx) with (Pos.compare my mx).
  rewrite (Z.compare_antisym ex ey), (Pos.compare_antisym mx my).
  destruct sx, sy; intros [= <-]; try reflexivity;
    destruct (ex ?= ey)%Z; simpl; try reflexivity;
    destruct (mx ?= my)%positive; reflexivity.
Qed.

Lemma SFcompare_total (x y : float) :
  PyFloat.is_nan x = false -> PyFloat.is_nan y = false ->
  exists c, SFcompare x y = Some c.
Proof.
  destruct x as [sx|sx| |sx mx ex], y as [sy|sy| |sy my ey]; simpl;
    try discriminate; intros _ _; eauto.
Qed.

(** [not (y < x)] gives [x <= y] when neither is a NaN. *)
Lemma ltb_false_leb (x y : float) :
  PyFloat.is_nan x = false -> PyFloat.is_nan y = false ->
  PyFloat.ltb y x = false -> PyFloat.leb x y = true.
Proof.
  intros Hx Hy. unfold PyFloat.ltb, PyFloat.leb, SFltb, SFleb.
  destruct (SFcompare_total y x Hy Hx) as [c Hc].
  rewrite Hc, (SFcompare_antisym _ _ _ Hc).
  destruct c; simpl; congruence.
Qed.

Lemma ltb_true_leb (x y : float) :
  PyFloat.ltb x y = true -> PyFloat.leb x y = true.
Proof.
  unfold PyFloat.ltb, PyFloat.leb, SFltb, SFleb.
  destruct (SFcompare x y) as [[]|]; congruence.
Qed.

(** A float that is not [<= 0] is not a zero: the guard of [throughput]
    excludes both zeros as divisors. *)
Lemma leb_zero_false_nonzero (d : float) :
  PyFloat.leb d PyFloat.zero = false ->
  forall x, PyFloat.truediv x d = OK (SFdiv PyFloat.prec PyFloat.emax x d).
Proof.
  destruct d as [s|s| |s m e]; simpl; try reflexivity.
  destruct s; discriminate.
Qed.

(** ** Floats: rounding *)

Lemma digits2_pos_bounds (p : positive) :
  2 ^ (Zpos (digits2_pos p) - 1) <= Zpos p < 2 ^ Zpos (digits2_pos p).
Proof.
  induction p as [p IH|p IH|]; cbn [digits2_pos].
  - rewrite Pos2Z.inj_succ.
    replace (Z.succ (Zpos (digits2_pos p)) - 1) with (Z.succ (Zpos (digits2_pos p) - 1)) by lia.
    rewrite !Z.pow_succ_r by lia. lia.
  - rewrite Pos2Z.inj_succ.
    replace (Z.succ (Zpos (digits2_pos p)) - 1) with (Z.succ (Zpos (digits2_pos p) - 1)) by lia.
    rewrite !Z.pow_succ_r by lia. lia.
  - cbn. lia.
Qed.

Lemma digits2_pos_unique (p : positive) (d : Z) :
  2 ^ (d - 1) <= Zpos p < 2 ^ d -> Zpos (digits2_pos p) = d.
Proof.
  intros [Hlo Hhi]. pose proof (digits2_pos_bounds p) as [Hlo' Hhi'].
  assert (0 < d).
  { destruct (Z.lt_ge_cases 0 d) as [|Hd]; [assumption|].
    exfalso. destruct (Z.eq_dec d 0) as [->|]; [cbn in Hhi; lia|].
    rewrite Z.pow_neg_r in Hhi by lia. lia. }
  set (D := Zpos (digits2_pos p)) in *.
  destruct (Z.lt_trichotomy D d) as [Hlt|[Heq|Hgt]]; [|exact Heq|].
  - exfalso. assert (2 ^ D <= 2 ^ (d - 1)) by (apply Z.pow_le_mono_r; lia). lia.
  - exfalso. assert (2 ^ d <= 2 ^ (D - 1)) by (apply Z.pow_le_mono_r; lia). lia.
Qed.

Lemma iter_xO_spec (q p : positive) :
  Zpos (Pos.iter xO p q) = Zpos p * 2 ^ Zpos q.
Proof.
  induction q as [|q IH] using Pos.peano_ind.
  - cbn. lia.
  - rewrite Pos.iter_succ, Pos2Z.inj_succ, Z.pow_succ_r by lia.
    rewrite Pos2Z.inj_xO, IH. lia.
Qed.

Lemma iter_pos_nat {A} (f : A -> A) (p : positive) (x : A) :
  SpecFloat.iter_pos f p x = Nat.iter (Pos.to_nat p) f x.
Proof.
  revert x. induction p as [p IH|p IH|]; intros x; cbn [SpecFloat.iter_pos].
  - rewrite !IH, Pos2Nat.inj_xI.
    replace (S (2 * Pos.to_nat p)) with (Pos.to_nat p + (Pos.to_nat p + 1))%nat by lia.
    rewrite !Nat.iter_add. reflexivity.
  - rewrite !IH, Pos2Nat.inj_xO.
    replace (2 * Pos.to_nat p)%nat with (Pos.to_nat p + Pos.to_nat p)%nat by lia.
    rewrite Nat.iter_add. reflexivity.
  - reflexivity.
Qed.

(** One right shift of a non-negative mantissa. *)
Lemma shr_1_spec (m : Z) (r s : bool) :
  0 <= m ->
  shr_1 (Build_shr_record m r s)
  = Build_shr_record (Z.div2 m) (Z.odd m) (r || s).
Proof.
  intros Hm. destruct m as [|[p|p|]|p]; try lia; reflexivity.
Qed.

(** [k] right shifts: the quotient by [2^k], and the position of the
    remainder with respect to half of [2^k]. *)
Lemma iter_shr_spec (k : nat) (m0 : Z) :
  0 <= m0 ->
  let mrs := Nat.iter k shr_1 (Build_shr_record m0 false false) in
  shr_m mrs = m0 / 2 ^ Z.of_nat k /\
  exists low,
    2 * (m0 mod 2 ^ Z.of_nat k) = b2z (shr_r mrs) * 2 ^ Z.of_nat k + low /\
    0 <= low < 2 ^ Z.of_nat k /\
    (shr_s mrs = true <-> low <> 0).
Proof.
  intros Hm. cbv zeta. induction k as [|k IH].
  - cbn. rewrite Z.div_1_r, Z.mod_1_r. split; [reflexivity|].
    exists 0. repeat split; try lia; discriminate.
  - rewrite Nat.iter_succ. destruct IH as (Hq & low & Hrem & Hlow & Hs).
    destruct (Nat.iter k shr_1 (Build_shr_record m0 false false))
      as [m r s] eqn:E. cbn [shr_m shr_r shr_s] in *.
    assert (Hpow : 0 < 2 ^ Z.of_nat k) by (apply Z.pow_pos_nonneg; lia).
    assert (Hm' : 0 <= m) by (rewrite Hq; apply Z.div_pos; lia).
    rewrite (shr_1_spec m r s Hm'). cbn [shr_m shr_r shr_s].
    rewrite Nat2Z.inj_succ, Z.pow_succ_r by lia.
    assert (Hdm : m = 2 * Z.div2 m + b2z (Z.odd m)).
    { rewrite (Z.div2_odd m) at 1. unfold b2z, Z.b2z. reflexivity. }
    assert (Hb : 0 <= b2z (Z.odd m) <= 1)
      by (unfold b2z; destruct (Z.odd m); lia).
    assert (Hm0 : m0 = 2 ^ Z.of_nat k * m + m0 mod 2 ^ Z.of_nat k)
      by (rewrite Hq; apply Z.div_mod; lia).
    assert (Hr0 : 0 <= m0 mod 2 ^ Z.of_nat k < 2 ^ Z.of_nat k)
      by (apply Z.mod_pos_bound; lia).
    assert (Hdiv : m0 / (2 * 2 ^ Z.of_nat k) = Z.div2 m).
    { symmetry. apply Z.div_unique with
        (r := 2 ^ Z.of_nat k * b2z (Z.odd m) + m0 mod 2 ^ Z.of_nat k); nia. }
    assert (Hmod : m0 mod (2 * 2 ^ Z.of_nat k)
                   = 2 ^ Z.of_nat k * b2z (Z.odd m) + m0 mod 2 ^ Z.of_nat k).
    { symmetry. apply Z.mod_unique with (q := Z.div2 m); nia. }
    split; [symmetry; exact Hdiv|].
    exists (b2z r * 2 ^ Z.of_nat k + low).
    rewrite Hmod. repeat split.
    + unfold b2z in *. destruct (Z.odd m), r; nia.
    + unfold b2z. destruct r; nia.
    + unfold b2z in *. destruct r; nia.
    + intros Hrs. unfold b2z. destruct r; cbn in Hrs; [nia|].
      apply Hs in Hrs. lia.
    + intros Hne. unfold b2z in Hne. destruct r; [reflexivity|].
      cbn. apply Hs. lia.
Qed.

Lemma round_shr (k : nat) (m0 : Z) :
  0 <= m0 ->
  let mrs := Nat.iter k shr_1 (Build_shr_record m0 false false) in
  round_nearest_even (shr_m mrs) (loc_of_shr_record mrs) = rne m0 (Z.of_nat k).
Proof.
  intros Hm. cbv zeta.
  destruct (iter_shr_spec k m0 Hm) as (Hq & low & Hrem & Hlow & Hs).
  destruct (Nat.iter k shr_1 (Build_shr_record m0 false false)) as [m r s].
  cbn [shr_m shr_r shr_s] in *. unfold rne. rewrite <- Hq, Hrem.
  unfold b2z. destruct r, s; cbn [loc_of_shr_record round_nearest_even].
  - assert (low <> 0) by (apply Hs; reflexivity).
    destruct (Z.compare_spec (1 * 2 ^ Z.of_nat k + low) (2 ^ Z.of_nat k));
      first [reflexivity | lia].
  - assert (low = 0).
    { destruct (Z.eq_dec low 0); [assumption|].
      assert (false = true) by (apply Hs; assumption). discriminate. }
    subst low.
    destruct (Z.compare_spec (1 * 2 ^ Z.of_nat k + 0) (2 ^ Z.of_nat k));
      first [reflexivity | lia].
  - assert (low <> 0) by (apply Hs; reflexivity).
    destruct (Z.compare_spec (0 * 2 ^ Z.of_nat k + low) (2 ^ Z.of_nat k));
      first [reflexivity | lia].
  - assert (low = 0).
    { destruct (Z.eq_dec low 0); [assumption|].
      assert (false = true) by (apply Hs; assumption). discriminate. }
    subst low.
    destruct (Z.compare_spec (0 * 2 ^ Z.of_nat k + 0) (2 ^ Z.of_nat k));
      first [reflexivity | lia].
Qed.

Lemma shr_nat (mrs : shr_record) (e n : Z) :
  0 <= n -> shr mrs e n = (Nat.iter (Z.to_nat n) shr_1 mrs, e + n).
Proof.
  intros Hn. unfold shr. destruct n as [|p|p]; try lia.
  - cbn. rewrite Z.add_0_r. reflexivity.
  - rewrite iter_pos_nat. reflexivity.
Qed.

Lemma shr_fexp_spec (m e D : Z) :
  Zdigits2 m = D -> 53 <= D -> -1074 <= D + e - 53 ->
  shr_fexp 53 1024 m e loc_Exact
  = (Nat.iter (Z.to_nat (D - 53)) shr_1 (Build_shr_record m false false),
     e + (D - 53)).
Proof.
  intros Hd HD He. unfold shr_fexp, fexp, emin. rewrite Hd.
  cbn [shr_record_of_loc].
  replace (Z.max (D + e - 53) (3 - 1024 - 53) - e) with (D - 53) by lia.
  apply shr_nat. lia.
Qed.

Lemma Zdigits2_unique (m d : Z) :
  0 < m -> 2 ^ (d - 1) <= m < 2 ^ d -> Zdigits2 m = d.
Proof.
  intros Hm H. destruct m as [|p|p]; try lia.
  cbn [Zdigits2]. apply digits2_pos_unique, H.
Qed.

Lemma rne_bounds (m0 k D : Z) :
  0 <= k -> D = 53 + k -> 2 ^ (D - 1) <= m0 < 2 ^ D ->
  2 ^ 52 <= rne m0 k <= 2 ^ 53.
Proof.
  intros Hk -> [Hlo Hhi].
  replace (53 + k - 1) with (52 + k) in Hlo by lia.
  rewrite Z.pow_add_r in Hlo, Hhi by lia.
  assert (Hpow : 0 < 2 ^ k) by (apply Z.pow_pos_nonneg; lia).
  assert (Hq1 : 2 ^ 52 <= m0 / 2 ^ k) by (apply Z.div_le_lower_bound; lia).
  assert (Hq2 : m0 / 2 ^ k < 2 ^ 53) by (apply Z.div_lt_upper_bound; lia).
  unfold rne. destruct (Z.compare _ _); try destruct (Z.even _); lia.
Qed.

Lemma binary_round_aux_spec (m0 e D : Z) :
  0 < m0 -> 2 ^ (D - 1) <= m0 < 2 ^ D -> 53 <= D ->
  -1074 <= D + e - 53 -> D + e - 52 <= 971 ->
  binary_round_aux 53 1024 false m0 e loc_Exact
  = if Z.ltb (rne m0 (D - 53)) (2 ^ 53)
    then S754_finite false (Z.to_pos (rne m0 (D - 53))) (e + (D - 53))
    else S754_finite false (Z.to_pos (2 ^ 52)) (e + (D - 53) + 1).
Proof.
  intros Hm Hb HD He1 He2. unfold binary_round_aux.
  rewrite (shr_fexp_spec m0 e D (Zdigits2_unique _ _ Hm Hb) HD He1).
  pose proof (round_shr (Z.to_nat (D - 53)) m0 (Z.lt_le_incl _ _ Hm)) as Hr.
  cbv zeta in Hr. rewrite Z2Nat.id in Hr by lia. rewrite Hr.
  pose proof (rne_bounds m0 (D - 53) D ltac:(lia) ltac:(lia) Hb) as [Hr1 Hr2].
  set (m1 := rne m0 (D - 53)) in *.
  destruct (Z.ltb_spec m1 (2 ^ 53)) as [Hlt|Hge].
  - rewrite (shr_fexp_spec m1 (e + (D - 53)) 53); try lia.
    2:{ apply Zdigits2_unique; [lia|]. cbn [Z.sub]. lia. }
    rewrite Z.sub_diag, Z.add_0_r. change (Z.to_nat 0) with 0%nat.
    unfold Nat.iter. cbn [nat_rect shr_m].
    destruct m1 as [|p|p] eqn:E; try lia.
    destruct (Z.leb_spec (e + (D - 53)) (1024 - 53)); [reflexivity|lia].
  - assert (H53 : m1 = 2 ^ 53) by lia.
    rewrite (shr_fexp_spec m1 (e + (D - 53)) 54); try lia.
    2:{ apply Zdigits2_unique; [lia|]. rewrite H53. cbn. lia. }
    rewrite H53. change (54 - 53) with 1. change (Z.to_nat 1) with 1%nat.
    change (2 ^ 53) with 9007199254740992.
    unfold Nat.iter. cbn [nat_rect shr_1 shr_m].
    destruct (Z.leb_spec (e + (D - 53) + 1) (1024 - 53)); [reflexivity|lia].
Qed.

Lemma digits_positive (n d : Z) : 0 < n -> n < 2 ^ d -> 0 < d.
Proof.
  intros Hn Hb. destruct (Z.lt_ge_cases 0 d); [assumption|]. exfalso.
  destruct (Z.eq_dec d 0) as [->|]; [cbn in Hb; lia|].
  rewrite Z.pow_neg_r in Hb by lia. lia.
Qed.

Lemma rne_exact (m : Z) : rne m 0 = m.
Proof.
  unfold rne. rewrite Z.pow_0_r, Z.mod_1_r, Z.div_1_r. reflexivity.
Qed.

(** The float nearest to an integer below [2^53] is the integer itself,
    with its mantissa normalised to 53 bits. *)
Lemma of_Z_spec (n d : Z) :
  0 < n -> 2 ^ (d - 1) <= n < 2 ^ d -> d <= 53 ->
  PyFloat.of_Z n = S754_finite false (Z.to_pos (n * 2 ^ (53 - d))) (d - 53).
Proof.
  intros Hn Hb Hd. destruct n as [|p|p]; try lia.
  unfold PyFloat.of_Z, PyFloat.prec, PyFloat.emax, binary_normalize,
    binary_round, shl_align, fexp, emin.
  rewrite (digits2_pos_unique p d Hb).
  assert (H0 : 0 < d) by (apply (digits_positive (Zpos p)); lia).
  replace (Z.max (d + 0 - 53) (3 - 1024 - 53) - 0) with (d - 53) by lia.
  replace (Z.max (d + 0 - 53) (3 - 1024 - 53)) with (d - 53) by lia.
  assert (Hpow : 0 < 2 ^ (53 - d)) by (apply Z.pow_pos_nonneg; lia).
  assert (Hm : 2 ^ (53 - 1) <= Zpos p * 2 ^ (53 - d) < 2 ^ 53).
  { assert (Hlow : 2 ^ (53 - 1) = 2 ^ (d - 1) * 2 ^ (53 - d))
      by (rewrite <- Z.pow_add_r by lia; f_equal; lia).
    assert (Hhigh : 2 ^ 53 = 2 ^ d * 2 ^ (53 - d))
      by (rewrite <- Z.pow_add_r by lia; f_equal; lia).
    rewrite Hlow, Hhigh. split.
    - apply Z.mul_le_mono_nonneg_r; lia.
    - apply Z.mul_lt_mono_pos_r; lia. }
  destruct (d - 53) as [|q|q] eqn:E; try lia.
  - assert (d = 53) by lia. subst d. rewrite Z.sub_diag, Z.pow_0_r, Z.mul_1_r in *.
    rewrite (binary_round_aux_spec (Zpos p) 0 53); try lia.
    rewrite Z.sub_diag, rne_exact.
    destruct (Z.ltb_spec (Zpos p) (2 ^ 53)); [|lia].
    rewrite Z.add_0_r. reflexivity.
  - assert (Hq : 53 - d = Zpos q) by lia.
    rewrite Hq in *.
    rewrite (binary_round_aux_spec (Zpos (Pos.iter xO p q)) (Z.neg q) 53);
      rewrite ?iter_xO_spec; try lia.
    rewrite Z.sub_diag, rne_exact.
    destruct (Z.ltb_spec (Zpos p * 2 ^ Zpos q) (2 ^ 53)); [|lia].
    rewrite Z.add_0_r. reflexivity.
Qed.

(** Every count below [2^53] converts to a float. *)
Lemma of_int_counts (n : Z) :
  0 <= n < 2 ^ 53 -> exists x, PyFloat.of_int n = OK x.
Proof.
  intros [H0 Hn]. unfold PyFloat.of_int.
  destruct (Z.eq_dec n 0) as [->|Hne]; [eexists; reflexivity|].
  assert (Hpos : 0 < n) by lia.
  pose proof (Z.log2_spec n Hpos) as Hb.
  assert (Hd : Z.log2 n < 53) by (apply Z.log2_lt_pow2; lia).
  rewrite (of_Z_spec n (Z.succ (Z.log2 n)) Hpos); [eexists; reflexivity| |lia].
  replace (Z.succ (Z.log2 n) - 1) with (Z.log2 n) by lia. exact Hb.
Qed.

(** ** bench/metrics.py: [ClientMetrics.throughput] *)

(** C10, as stated, fails: the duration is positive, yet [throughput]
    raises (OverflowError, from the conversion of [log_count] to a float)
    instead of returning the quotient. *)
Lemma throughput_raises_on_huge_count :
  PyFloat.leb (ClientMetrics.duration_sec huge_count_client) PyFloat.zero = false /\
  ClientMetrics.throughput huge_count_client = Raise OverflowError /\
  ~ (exists f, ClientMetrics.throughput huge_count_client = OK f).
Proof.
  assert (H : ClientMetrics.throughput huge_count_client = Raise OverflowError)
    by (vm_compute; reflexivity).
  split; [vm_compute; reflexivity|]. split; [exact H|].
  intros [f Hf]. rewrite H in Hf. discriminate.
Qed.

(** C10, amended: [throughput] never divides by zero; it returns [0.0]
    whenever the duration is [<= 0]; otherwise, when [log_count] converts
    to a float [x], it returns [x] divided by the duration; and it
    returns a float for every [log_count] from 0 up to [2^53]. *)
Theorem throughput_guarded (m : ClientMetrics.t) :
  ClientMetrics.throughput m <> Raise ZeroDivisionError /\
  (PyFloat.leb (ClientMetrics.duration_sec m) PyFloat.zero = true ->
   ClientMetrics.throughput m = OK PyFloat.zero) /\
  (forall x,
     PyFloat.leb (ClientMetrics.duration_sec m) PyFloat.zero = false ->
     PyFloat.of_int (ClientMetrics.log_count m) = OK x ->
     ClientMetrics.throughput m
     = OK (SFdiv PyFloat.prec PyFloat.emax x (ClientMetrics.duration_sec m))) /\
  (0 <= ClientMetrics.log_count m < 2 ^ 53 ->
   exists f, ClientMetrics.throughput m = OK f).
Proof.
  unfold ClientMetrics.throughput, PyFloat.int_truediv.
  destruct (PyFloat.leb (ClientMetrics.duration_sec m) PyFloat.zero) eqn:Hle.
  - split; [discriminate|]. split; [reflexivity|]. split; [discriminate|].
    intros _. eexists. reflexivity.
  - split; [|split; [discriminate|split]].
    + destruct (PyFloat.of_int (ClientMetrics.log_count m)) as [x|e] eqn:Hx;
        cbn [Py.bind].
      * rewrite (leb_zero_false_nonzero _ Hle). discriminate.
      * unfold PyFloat.of_int in Hx.
        destruct (PyFloat.of_Z (ClientMetrics.log_count m)); congruence.
    + intros x _ Hx. rewrite Hx. cbn [Py.bind].
      apply leb_zero_false_nonzero, Hle.
    + intros Hc. destruct (of_int_counts _ Hc) as [x ->]. cbn [Py.bind].
      rewrite (leb_zero_false_nonzero _ Hle). eexists. reflexivity.
Qed.

Lemma throughput_guarded_witness :
  ClientMetrics.throughput ten_in_two_seconds = OK (PyFloat.of_Z 5).
Proof.
  destruct (throughput_guarded ten_in_two_seconds) as (_ & _ & H & _).
  rewrite (H (PyFloat.of_Z 10)); vm_compute; reflexivity.
Defined.

(** ** bench/metrics.py: persisted form and reload *)

Lemma mapM_as_float_Float (l : list float) :
  mapM Json.as_float (map Json.Float l) = OK l.
Proof. induction l as [|x l IH]; simpl; [|rewrite IH]; reflexivity. Qed.

Lemma mapM_as_str_Str (l : list string) :
  mapM Json.as_str (map Json.Str l) = OK l.
Proof. induction l as [|x l IH]; simpl; [|rewrite IH]; reflexivity. Qed.

Lemma data_size_roundtrip (d : DataSize) :
  ClientMetrics.data_size_of_json (ClientMetrics.data_size_to_json d) = OK d.
Proof. destruct d; reflexivity. Qed.

Lemma samples_roundtrip (samples : list MemorySample.t) :
  mapM ServerMetrics.sample_from_dict
    (map (fun s => Json.Dict
            [ ("timestamp", Json.Float (MemorySample.timestamp s));
              ("memory_mb", Json.Float (MemorySample.memory_mb s)) ])
         samples)
  = OK samples.
Proof.
  induction samples as [|[ts mb] l IH]; [reflexivity|].
  cbn [map mapM]. rewrite IH. reflexivity.
Qed.

Lemma server_metrics_roundtrip (statistics : Statistics) (sm : ServerMetrics.t) :
  (let* d := Json.as_dict (ServerMetrics.to_dict statistics sm) in
   ServerMetrics.from_dict d) = OK sm.
Proof.
  destruct sm as [samples st et sz].
  unfold ServerMetrics.to_dict, ServerMetrics.from_dict.
  cbn [Json.as_dict Py.bind Json.get_default Json.get String.eqb Ascii.eqb
       Bool.eqb Json.as_float Json.as_list ServerMetrics.memory_samples
       ServerMetrics.start_time ServerMetrics.end_time
       ServerMetrics.rrd_file_size_mb].
  rewrite samples_roundtrip. reflexivity.
Qed.

Lemma client_metrics_roundtrip (statistics : Statistics) (c : ClientMetrics.t)
    (doc : Json.t) :
  ClientMetrics.to_dict statistics c = OK doc ->
  (let* d := Json.as_dict doc in ClientMetrics.from_dict d) = OK c.
Proof.
  destruct c as [cid dt ds fq lc ls st et es].
  unfold ClientMetrics.to_dict.
  destruct (ClientMetrics.throughput _) as [th|e]; [|discriminate].
  intros [= <-].
  unfold ClientMetrics.from_dict.
  cbn [Json.as_dict Py.bind Json.get_default Json.get String.eqb Ascii.eqb
       Bool.eqb Json.as_float Json.as_list Json.as_str Json.as_int
       ClientMetrics.client_id ClientMetrics.data_type ClientMetrics.data_size
       ClientMetrics.frequency_hz ClientMetrics.log_count
       ClientMetrics.latencies_ms ClientMetrics.start_time
       ClientMetrics.end_time ClientMetrics.errors].
  rewrite data_size_roundtrip, mapM_as_float_Float, mapM_as_str_Str.
  reflexivity.
Qed.

Lemma client_list_roundtrip (statistics : Statistics)
    (cs : list ClientMetrics.t) (docs : list Json.t) :
  mapM (ClientMetrics.to_dict statistics) cs = OK docs ->
  mapM (fun c => let* d := Json.as_dict c in ClientMetrics.from_dict d) docs
  = OK cs.
Proof.
  revert docs. induction cs as [|c cs IH]; intros docs; simpl.
  - intros [= <-]. reflexivity.
  - destruct (ClientMetrics.to_dict statistics c) as [doc|e] eqn:Hc;
      [|discriminate]. simpl.
    destruct (mapM (ClientMetrics.to_dict statistics) cs) as [docs'|e] eqn:Hcs;
      [|discriminate]. simpl.
    intros [= <-]. simpl.
    rewrite (client_metrics_roundtrip _ _ _ Hc). simpl.
    rewrite (IH _ eq_refl). reflexivity.
Qed.

(** C3: when [save] has written a result, [load] of the path it returned
    gives the result back: the same [server_metrics] (samples, start and end
    times, artifact size), the same [client_metrics] records and the same
    [config_snapshot]. *)
Theorem save_load_roundtrip (statistics : Statistics)
    (joinpath : string -> string -> string) (r : BenchmarkResult.t)
    (output_dir ts : string) (fs fs' : gmap string Json.t) (path : string) :
  BenchmarkResult.save statistics joinpath r output_dir ts fs = OK (fs', path) ->
  exists r',
    BenchmarkResult.load fs' path = OK r' /\
    BenchmarkResult.server_metrics r' = BenchmarkResult.server_metrics r /\
    BenchmarkResult.client_metrics r' = BenchmarkResult.client_metrics r /\
    BenchmarkResult.config_snapshot r' = BenchmarkResult.config_snapshot r /\
    r' = r.
Proof.
  unfold BenchmarkResult.save.
  destruct (BenchmarkResult.to_dict statistics r) as [doc|e] eqn:Hdoc;
    [|discriminate].
  cbn [Py.bind]. intros [= <- <-].
  exists r.
  assert (Hload : BenchmarkResult.load
                    (<[joinpath output_dir
                         (BenchmarkResult.name r +:+ "_" +:+ ts +:+ ".json") := doc]> fs)
                    (joinpath output_dir
                       (BenchmarkResult.name r +:+ "_" +:+ ts +:+ ".json")) = OK r).
  { unfold BenchmarkResult.load. rewrite lookup_insert_eq.
    unfold BenchmarkResult.to_dict in Hdoc.
    destruct (mapM (ClientMetrics.to_dict statistics)
                (BenchmarkResult.client_metrics r)) as [cs|e] eqn:Hcs;
      [|discriminate].
    cbn [Py.bind] in Hdoc.
    destruct (BenchmarkResult.aggregated_client_metrics statistics r)
      as [agg|e]; [|discriminate].
    cbn [Py.bind] in Hdoc. injection Hdoc as <-.
    cbn [Json.as_dict Py.bind Json.item Json.get_default Json.get String.eqb
         Ascii.eqb Bool.eqb Json.as_str Json.as_list].
    pose proof (server_metrics_roundtrip statistics
                  (BenchmarkResult.server_metrics r)) as Hsm.
    unfold ServerMetrics.to_dict in Hsm |- *.
    cbn [Json.as_dict Py.bind] in Hsm |- *.
    rewrite Hsm. cbn [Py.bind].
    rewrite (client_list_roundtrip _ _ _ Hcs). cbn [Py.bind].
    destruct r; reflexivity. }
  rewrite Hload. repeat split; reflexivity.
Qed.

Lemma save_load_roundtrip_witness :
  exists fs' path,
    BenchmarkResult.save example_statistics example_joinpath example_result
      "results" "20260101_000000" ∅ = OK (fs', path) /\
    BenchmarkResult.load fs' path = OK example_result.
Proof.
  pose proof (save_load_roundtrip example_statistics example_joinpath
                example_result "results" "20260101_000000" ∅) as H.
  unfold BenchmarkResult.save in *.
  destruct (BenchmarkResult.to_dict example_statistics example_result)
    as [doc|e] eqn:E; [|vm_compute in E; discriminate].
  cbn [Py.bind] in *.
  eexists _, _. split; [reflexivity|].
  destruct (H _ _ eq_refl) as (r' & Hl & _ & _ & _ & ->). exact Hl.
Defined.

(** ** bench/metrics.py: the p99 latency *)

Lemma insert_Permutation (x : float) (l : list float) :
  Permutation (x :: l) (Builtins.insert x l).
Proof.
  induction l as [|y l IH]; simpl; [reflexivity|].
  destruct (PyFloat.ltb y x); [|reflexivity].
  rewrite perm_swap. apply perm_skip, IH.
Qed.

Lemma sorted_Permutation (l : list float) : Permutation l (Builtins.sorted l).
Proof.
  induction l as [|x l IH]; simpl; [reflexivity|].
  rewrite <- insert_Permutation. apply perm_skip, IH.
Qed.

Lemma sorted_length (l : list float) : length (Builtins.sorted l) = length l.
Proof. symmetry. apply Permutation_length, sorted_Permutation. Qed.

Lemma insert_Sorted (x : float) (l : list float) :
  not_nan x -> Forall not_nan l -> Sorted le l -> Sorted le (Builtins.insert x l).
Proof.
  intros Hx Hl Hs. induction Hs as [|y l Hs IH Hd]; simpl.
  - repeat constructor.
  - inversion Hl as [|? ? Hy Hl']; subst.
    destruct (PyFloat.ltb y x) eqn:E.
    + constructor; [apply IH, Hl'|].
      destruct l as [|z l]; simpl.
      * constructor. apply ltb_true_leb, E.
      * destruct (PyFloat.ltb z x).
        -- inversion Hd; subst. constructor. assumption.
        -- constructor. apply ltb_true_leb, E.
    + constructor; [constructor; assumption|].
      constructor. apply ltb_false_leb; assumption.
Qed.

Lemma sorted_Sorted (l : list float) :
  Forall not_nan l -> Sorted le (Builtins.sorted l).
Proof.
  induction 1 as [|x l Hx Hl IH]; simpl; [constructor|].
  apply insert_Sorted; [assumption| |assumption].
  eapply Permutation_Forall; [apply sorted_Permutation|assumption].
Qed.


(** *** The index [int(n * 0.99)], on floats *)

Lemma lit_0_99_mantissa :
  PyFloat.lit_0_99 = S754_finite false (Z.to_pos mantissa_0_99) (-53).
Proof. reflexivity. Qed.

Lemma shift_carry (j : Z) :
  2 <= j -> 2 ^ 52 / 2 ^ (j - 1) = 2 ^ 53 / 2 ^ j.
Proof.
  intros Hj. replace j with ((j - 1) + 1) at 2 by lia.
  rewrite Z.pow_add_r by lia. change (2 ^ 53) with (2 ^ 52 * 2 ^ 1).
  rewrite Z.div_mul_cancel_r; [reflexivity| |lia].
  apply Z.pow_nonzero; lia.
Qed.

(** [int(n * 0.99)] in terms of the rounded product of the mantissas. *)
Lemma index_spec (n d D : Z) :
  0 < n -> 2 ^ (d - 1) <= n < 2 ^ d -> d <= 51 ->
  2 ^ (D - 1) <= n * 2 ^ (53 - d) * mantissa_0_99 < 2 ^ D -> 105 <= D <= 106 ->
  PyFloat.trunc (PyFloat.mul (PyFloat.of_Z n) PyFloat.lit_0_99)
  = rne (n * 2 ^ (53 - d) * mantissa_0_99) (D - 53) / 2 ^ (159 - d - D).
Proof.
  intros Hn Hb Hd HP HD.
  assert (H0 : 0 < d) by (apply (digits_positive n); lia).
  rewrite (of_Z_spec n d Hn Hb) by lia.
  assert (Hpow : 0 < 2 ^ (53 - d)) by (apply Z.pow_pos_nonneg; lia).
  unfold PyFloat.mul, PyFloat.lit_0_99, SFmul, PyFloat.prec, PyFloat.emax.
  cbn [xorb].
  assert (Hprod : Zpos (Z.to_pos (n * 2 ^ (53 - d)) * 8917127262193582)
                  = n * 2 ^ (53 - d) * mantissa_0_99).
  { rewrite Pos2Z.inj_mul, Z2Pos.id by lia. reflexivity. }
  rewrite Hprod.
  rewrite (binary_round_aux_spec _ (d - 53 + -53) D); try lia.
  set (m1 := rne (n * 2 ^ (53 - d) * mantissa_0_99) (D - 53)).
  pose proof (rne_bounds (n * 2 ^ (53 - d) * mantissa_0_99) (D - 53) D
                ltac:(lia) ltac:(lia) HP) as [Hm1 Hm2].
  fold m1 in Hm1, Hm2.
  assert (H52 : 0 < 2 ^ 52) by (apply Z.pow_pos_nonneg; lia).
  destruct (Z.ltb_spec m1 (2 ^ 53)) as [Hlt|Hge]; unfold PyFloat.trunc.
  - destruct (d - 53 + -53 + (D - 53)) as [|q|q] eqn:E; try lia.
    rewrite Z2Pos.id by lia. rewrite Z.shiftr_div_pow2 by lia.
    do 2 f_equal. lia.
  - assert (m1 = 2 ^ 53) by lia.
    destruct (d - 53 + -53 + (D - 53) + 1) as [|q|q] eqn:E; try lia.
    rewrite Z2Pos.id by lia. rewrite Z.shiftr_div_pow2 by lia.
    rewrite H. rewrite <- shift_carry by lia. do 2 f_equal. lia.
Qed.

Lemma div_between (a b c : Z) : 0 < b -> b * c <= a < b * (c + 1) -> a / b = c.
Proof.
  intros Hb H. symmetry. apply Z.div_unique with (r := a - b * c); lia.
Qed.

(** The closed powers of two of a goal, evaluated. *)
Ltac eval_pow2 :=
  repeat match goal with
         | |- context [2 ^ ?e] =>
             let v := eval vm_compute in (2 ^ e) in change (2 ^ e) with v
         | H : context [2 ^ ?e] |- _ =>
             let v := eval vm_compute in (2 ^ e) in change (2 ^ e) with v in H
         end.

(** One digit count [d] and one product size: name the quotients and the
    remainders, split on the position of the remainder, and leave linear
    arithmetic. *)
Ltac round_case :=
  unfold rne, mantissa_0_99; eval_pow2;
  match goal with
  | |- context [Z.compare (2 * (?P mod ?K)) ?K] =>
      let q := fresh "q" in let r := fresh "r" in
      pose proof (Z.div_mod P K ltac:(lia));
      pose proof (Z.mod_pos_bound P K ltac:(lia));
      set (q := P / K) in *; set (r := P mod K) in *;
      match goal with
      | |- _ = ?N / 100 =>
          let t := fresh "t" in let u := fresh "u" in
          pose proof (Z.div_mod N 100 ltac:(lia));
          pose proof (Z.mod_pos_bound N 100 ltac:(lia));
          set (t := N / 100) in *; set (u := N mod 100) in *
      end;
      destruct (Z.compare_spec (2 * r) K);
      [destruct (Z.even q)| |];
      apply div_between; lia
  end.

Ltac digit_case n d :=
  let HP := fresh "HP" in
  assert (HP : 2 ^ 104 <= n * 2 ^ (53 - d) * mantissa_0_99 < 2 ^ 106)
    by (unfold mantissa_0_99; eval_pow2; lia);
  destruct (Z.lt_ge_cases (n * 2 ^ (53 - d) * mantissa_0_99) (2 ^ 105));
  [ rewrite (index_spec n d 105)
      by (try (unfold mantissa_0_99 in *; eval_pow2; lia))
  | rewrite (index_spec n d 106)
      by (try (unfold mantissa_0_99 in *; eval_pow2; lia)) ];
  round_case.

(** The digit counts from [k] on, one by one. *)
Ltac all_digits n d k :=
  first
    [ exfalso; lia
    | destruct (Z.eq_dec d k) as [->|?];
      [ digit_case n k
      | let k' := eval vm_compute in (k + 1) in all_digits n d k' ] ].

(** [int(n * 0.99)], computed on floats, is [floor(99 n / 100)] for every
    length below [2^47]. *)
Lemma float_index_floor (n : Z) :
  0 <= n < 2 ^ 47 ->
  PyFloat.trunc (PyFloat.mul (PyFloat.of_Z n) PyFloat.lit_0_99) = 99 * n / 100.
Proof.
  intros [H0 Hn]. destruct (Z.eq_dec n 0) as [->|Hne]; [reflexivity|].
  assert (Hpos : 0 < n) by lia.
  pose proof (Z.log2_spec n Hpos) as Hb.
  assert (Hd : Z.log2 n < 47) by (apply Z.log2_lt_pow2; lia).
  pose proof (Z.log2_nonneg n) as Hd0.
  set (d := Z.succ (Z.log2 n)) in *.
  replace (Z.log2 n) with (d - 1) in Hb, Hd, Hd0 by (unfold d; lia).
  clearbody d. clear H0 Hne.
  all_digits n d 1.
Qed.

(** A length beyond that range on which the product rounds up across an
    integer. *)
Lemma float_index_beyond :
  PyFloat.trunc (PyFloat.mul (PyFloat.of_Z 150000000000001) PyFloat.lit_0_99)
  = 99 * 150000000000001 / 100 + 1.
Proof. vm_compute. reflexivity. Qed.

Lemma p99_index_floor (n : nat) :
  Z.of_nat n < 2 ^ 47 ->
  ClientMetrics.p99_index n = nearest_rank_index n.
Proof.
  intros Hn. unfold ClientMetrics.p99_index, nearest_rank_index.
  f_equal. apply float_index_floor. lia.
Qed.

Lemma nearest_rank_index_lt (n : nat) :
  (0 < n)%nat -> (nearest_rank_index n <= n - 1)%nat.
Proof.
  intros Hn. unfold nearest_rank_index.
  assert (99 * Z.of_nat n / 100 < Z.of_nat n)
    by (apply Z.div_lt_upper_bound; lia).
  assert (0 <= 99 * Z.of_nat n / 100) by (apply Z.div_pos; lia).
  lia.
Qed.

(** C2: the p99 of an empty series is 0; the p99 of a non-empty series of
    [n] latencies is the item of the ascending sort (a permutation of the
    series, ordered by [<=] when the series holds no NaN) at the index
    [int(n * 0.99)] clamped to [n - 1], and that index is
    [floor(99 n / 100)] (for every length below [2^47]; the clamp never
    cuts it); the p99 of 1, 2, ..., 100 is 100. *)
Theorem latency_p99_nearest_rank (m : ClientMetrics.t) :
  let l := ClientMetrics.latencies_ms m in
  let n := length l in
  (l = [] -> ClientMetrics.latency_p99_ms m = PyFloat.zero) /\
  (l <> [] ->
     Permutation l (Builtins.sorted l) /\
     (Forall not_nan l -> Sorted le (Builtins.sorted l)) /\
     ClientMetrics.latency_p99_ms m
     = nth (Nat.min (ClientMetrics.p99_index n) (n - 1)) (Builtins.sorted l)
           PyFloat.zero /\
     In (ClientMetrics.latency_p99_ms m) l /\
     (nearest_rank_index n <= n - 1)%nat /\
     (Z.of_nat n < 2 ^ 47 ->
      ClientMetrics.p99_index n = nearest_rank_index n)) /\
  ClientMetrics.latency_p99_ms (with_latencies one_to_hundred) = PyFloat.of_Z 100 /\
  ClientMetrics.latency_p99_ms (with_latencies []) = PyFloat.zero.
Proof.
  intros l n. split; [|split; [|split; [vm_compute; reflexivity|reflexivity]]].
  - unfold ClientMetrics.latency_p99_ms. fold l. intros ->. reflexivity.
  - intros Hne.
    assert (H0 : (0 < n)%nat)
      by (unfold n; destruct l; [congruence|simpl; lia]).
    assert (Hp : ClientMetrics.latency_p99_ms m
                 = nth (Nat.min (ClientMetrics.p99_index n) (n - 1))
                       (Builtins.sorted l) PyFloat.zero).
    { unfold ClientMetrics.latency_p99_ms, ClientMetrics.p99_of. fold l.
      destruct l as [|x l'] eqn:El; [congruence|].
      rewrite sorted_length. reflexivity. }
    split; [apply sorted_Permutation|].
    split; [apply sorted_Sorted|].
    split; [exact Hp|].
    split; [|split; [apply nearest_rank_index_lt, H0|apply p99_index_floor]].
    rewrite Hp. eapply Permutation_in; [symmetry; apply sorted_Permutation|].
    apply nth_In. rewrite sorted_length. fold n. lia.
Qed.

Lemma latency_p99_nearest_rank_witness :
  one_to_hundred <> [] /\
  Z.of_nat (length one_to_hundred) < 2 ^ 47 /\
  ClientMetrics.p99_index (length one_to_hundred)
  = nearest_rank_index (length one_to_hundred).
Proof.
  split; [discriminate|]. split; [reflexivity|].
  destruct (latency_p99_nearest_rank (with_latencies one_to_hundred))
    as (_ & H & _).
  destruct H as (_ & _ & _ & _ & _ & Hi); [discriminate|].
  apply Hi. reflexivity.
Defined.

(** ** bench/metrics.py: [AggregatedClientMetrics.from_clients] *)

Lemma accumulate_sums (clients : list ClientMetrics.t)
    (a : AggregatedClientMetrics.acc) :
  AggregatedClientMetrics.accumulate clients a =
  let* throughputs := mapM ClientMetrics.throughput clients in
  OK (AggregatedClientMetrics.mk_acc
        (AggregatedClientMetrics.all_latencies a
           ++ concat (map ClientMetrics.latencies_ms clients))
        (AggregatedClientMetrics.acc_log_count a
           + fold_right Z.add 0 (map ClientMetrics.log_count clients))
        (fold_left PyFloat.add throughputs
           (AggregatedClientMetrics.acc_throughput a))).
Proof.
  revert a. induction clients as [|c cs IH]; intros a; simpl.
  - rewrite app_nil_r, Z.add_0_r. destruct a; reflexivity.
  - destruct (ClientMetrics.throughput c) as [th|e]; simpl; [|reflexivity].
    rewrite IH. simpl.
    destruct (mapM ClientMetrics.throughput cs) as [ths|e]; simpl; [|reflexivity].
    rewrite <- app_assoc, Z.add_assoc. reflexivity.
Qed.

Lemma throughput_own_rate (c : ClientMetrics.t) (x : float) :
  PyFloat.of_int (ClientMetrics.log_count c) = OK x ->
  ClientMetrics.throughput c = OK (own_rate c).
Proof.
  intros Hx. unfold ClientMetrics.throughput, own_rate,
    ClientMetrics.duration_sec, PyFloat.int_truediv.
  destruct (PyFloat.leb (PyFloat.sub (ClientMetrics.end_time c)
                           (ClientMetrics.start_time c)) PyFloat.zero) eqn:Hle;
    [reflexivity|].
  rewrite Hx. cbn [Py.bind]. rewrite (leb_zero_false_nonzero _ Hle).
  unfold PyFloat.of_int in Hx.
  destruct (PyFloat.of_Z (ClientMetrics.log_count c)); try discriminate;
    injection Hx as <-; reflexivity.
Qed.

Lemma mapM_map {A B : Type} (f : A -> result B) (g : A -> B) (l : list A) :
  Forall (fun a => f a = OK (g a)) l -> mapM f l = OK (map g l).
Proof.
  induction 1 as [|a l Ha _ IH]; [reflexivity|].
  cbn [mapM map]. rewrite Ha. cbn [Py.bind]. rewrite IH. reflexivity.
Qed.

Lemma mapM_Raise {A B : Type} (f : A -> result B) (l : list A) (e : exn) :
  mapM f l = Raise e -> Exists (fun a => f a = Raise e) l.
Proof.
  induction l as [|a l IH]; [discriminate|].
  cbn [mapM]. destruct (f a) as [b|e'] eqn:Ha; cbn [Py.bind].
  - destruct (mapM f l) as [bs|e'']; [discriminate|].
    cbn [Py.bind]. intros [= ->]. right. apply IH. reflexivity.
  - intros [= ->]. left. exact Ha.
Qed.

Lemma p99_of_nearest_rank (l : list float) :
  Z.of_nat (length l) < 2 ^ 47 ->
  ClientMetrics.p99_of l = nearest_rank_p99 l.
Proof.
  intros Hn. unfold ClientMetrics.p99_of, nearest_rank_p99.
  rewrite sorted_length, (p99_index_floor _ Hn). reflexivity.
Qed.

(** C1, as stated, fails: on a list one of whose clients has a
    [log_count] beyond the range of a float, over a positive duration,
    [from_clients] raises OverflowError and returns no aggregate. *)
Lemma from_clients_raises_on_huge_count :
  PyFloat.leb (ClientMetrics.duration_sec huge_count_client) PyFloat.zero = false /\
  AggregatedClientMetrics.from_clients example_statistics
    [ten_in_two_seconds; huge_count_client]
  = Raise OverflowError /\
  ~ (exists a,
       AggregatedClientMetrics.from_clients example_statistics
         [ten_in_two_seconds; huge_count_client] = OK a).
Proof.
  assert (H : AggregatedClientMetrics.from_clients example_statistics
                [ten_in_two_seconds; huge_count_client] = Raise OverflowError)
    by (vm_compute; reflexivity).
  split; [vm_compute; reflexivity|]. split; [exact H|].
  intros [a Ha]. rewrite H in Ha. discriminate.
Qed.

(** C1, amended: on every list of clients whose [log_count]s lie between
    0 and [2^53] (and whose latencies number fewer than [2^47]),
    [from_clients] returns the aggregate of the specification:
    [total_log_count] the sum of the clients' [log_count];
    [total_throughput] the sum, from 0.0, of each client's own rate,
    [log_count] divided by that client's own duration (0.0 when the
    duration is not positive); [client_count] the length of the list; the
    mean, the median, the nearest-rank p99, the maximum and the minimum
    those of the concatenated latency series, 0.0 when it is empty.  On
    the empty list the result is the all-zero aggregate.  The only error
    [from_clients] raises is OverflowError, and only on a client of
    positive duration whose [log_count] does not convert to a float. *)
Theorem from_clients_aggregates (statistics : Statistics)
    (clients : list ClientMetrics.t) :
  (Forall (fun c => 0 <= ClientMetrics.log_count c < 2 ^ 53) clients ->
   Z.of_nat (length (concat (map ClientMetrics.latencies_ms clients))) < 2 ^ 47 ->
   AggregatedClientMetrics.from_clients statistics clients
   = OK (aggregate_by_sums statistics clients)) /\
  AggregatedClientMetrics.from_clients statistics []
  = OK (AggregatedClientMetrics.mk 0 PyFloat.zero PyFloat.zero PyFloat.zero
          PyFloat.zero PyFloat.zero PyFloat.zero 0) /\
  (forall e,
     AggregatedClientMetrics.from_clients statistics clients = Raise e ->
     e = OverflowError /\
     Exists (fun c =>
               PyFloat.leb (PyFloat.sub (ClientMetrics.end_time c)
                              (ClientMetrics.start_time c)) PyFloat.zero = false /\
               PyFloat.of_int (ClientMetrics.log_count c) = Raise OverflowError)
            clients).
Proof.
  split; [|split; [reflexivity|]].
  - intros Hc Hn. destruct clients as [|c cs]; [reflexivity|].
    unfold AggregatedClientMetrics.from_clients, aggregate_by_sums.
    rewrite accumulate_sums.
    rewrite (mapM_map ClientMetrics.throughput own_rate).
    2:{ eapply List.Forall_impl; [|exact Hc]. intros c' Hc'.
        destruct (of_int_counts _ Hc') as [x Hx].
        exact (throughput_own_rate c' x Hx). }
    cbn [Py.bind AggregatedClientMetrics.all_latencies
         AggregatedClientMetrics.acc_log_count
         AggregatedClientMetrics.acc_throughput app
         AggregatedClientMetrics.total_log_count
         AggregatedClientMetrics.total_throughput
         AggregatedClientMetrics.client_count].
    destruct (concat (map ClientMetrics.latencies_ms (c :: cs))) as [|x l] eqn:E;
      [reflexivity|].
    rewrite (p99_of_nearest_rank (x :: l) Hn). reflexivity.
  - intros e He. destruct clients as [|c cs]; [discriminate|].
    unfold AggregatedClientMetrics.from_clients in He.
    rewrite accumulate_sums in He.
    destruct (mapM ClientMetrics.throughput (c :: cs)) as [ths|e'] eqn:Hm.
    + cbn [Py.bind AggregatedClientMetrics.all_latencies app] in He.
      destruct (concat (map ClientMetrics.latencies_ms (c :: cs)));
        discriminate.
    + cbn [Py.bind] in He. injection He as ->.
      apply mapM_Raise in Hm.
      assert (Hth : forall c', ClientMetrics.throughput c' = Raise e ->
                e = OverflowError /\
                PyFloat.leb (PyFloat.sub (ClientMetrics.end_time c')
                               (ClientMetrics.start_time c')) PyFloat.zero = false /\
                PyFloat.of_int (ClientMetrics.log_count c') = Raise OverflowError).
      { intros c'. unfold ClientMetrics.throughput, ClientMetrics.duration_sec,
          PyFloat.int_truediv.
        destruct (PyFloat.leb _ PyFloat.zero) eqn:Hle; [discriminate|].
        destruct (PyFloat.of_int (ClientMetrics.log_count c')) as [x|e'] eqn:Hx;
          cbn [Py.bind].
        - rewrite (leb_zero_false_nonzero _ Hle). discriminate.
        - intros [= ->]. unfold PyFloat.of_int in Hx.
          destruct (PyFloat.of_Z (ClientMetrics.log_count c')); try discriminate.
          injection Hx as <-. auto. }
      split.
      * apply Exists_exists in Hm. destruct Hm as (c' & _ & Hc').
        apply (Hth c' Hc').
      * apply Exists_exists in Hm. destruct Hm as (c' & Hin & Hc').
        apply Exists_exists. exists c'. split; [exact Hin|].
        apply (Hth c' Hc').
Qed.

Lemma from_clients_aggregates_witness :
  AggregatedClientMetrics.from_clients example_statistics
    [ten_in_two_seconds; with_latencies one_to_hundred]
  = OK (aggregate_by_sums example_statistics
          [ten_in_two_seconds; with_latencies one_to_hundred]).
Proof.
  destruct (from_clients_aggregates example_statistics
              [ten_in_two_seconds; with_latencies one_to_hundred]) as (H & _).
  apply H.
  - repeat constructor; cbn; lia.
  - vm_compute. reflexivity.
Defined.

(** ** bench/backends/rerun/server.py: the memory sampler *)

(** The loop appends, after the samples it was given, one sample per
    reading, for a prefix of the readings. *)
Lemma monitor_loop_timestamps (turns : list RerunServer.poll)
    (samples : list MemorySample.t) :
  exists rest,
    readings turns
    = skipn (length samples)
        (map MemorySample.timestamp (RerunServer.monitor_loop turns samples))
      ++ rest /\
    firstn (length samples) (RerunServer.monitor_loop turns samples) = samples.
Proof.
  revert samples. induction turns as [|t turns IH]; intros samples.
  - exists []. simpl. rewrite firstn_all. split; [|reflexivity].
    rewrite <- (length_map MemorySample.timestamp), skipn_all. reflexivity.
  - destruct t as [rss now| |]; simpl.
    + destruct (IH (samples ++ [MemorySample.mk now (RerunServer.memory_mb_of rss)]))
        as (rest & Hr & Hf).
      exists rest. rewrite length_app in Hr, Hf. simpl in Hr, Hf.
      set (out := RerunServer.monitor_loop turns _) in *.
      assert (Hout : out = samples
                       ++ MemorySample.mk now (RerunServer.memory_mb_of rss)
                       :: skipn (length samples + 1) out).
      { rewrite <- (firstn_skipn (length samples + 1) out) at 1.
        rewrite Hf, <- app_assoc. reflexivity. }
      split.
      * rewrite Hr. rewrite Hout at 2.
        rewrite map_app, skipn_app, length_map, Nat.sub_diag.
        rewrite <- (length_map MemorySample.timestamp samples) at 2.
        rewrite skipn_all. simpl. rewrite <- skipn_map. reflexivity.
      * rewrite Hout, firstn_app, Nat.sub_diag, firstn_all. simpl.
        apply app_nil_r.
    + exists (readings turns). rewrite firstn_all. split; [|reflexivity].
      rewrite <- (length_map MemorySample.timestamp), skipn_all. reflexivity.
    + apply IH.
Qed.

Lemma nondecreasing_prefix (ts rest : list float) :
  nondecreasing (ts ++ rest) -> nondecreasing ts.
Proof.
  intros H i j ti tj Hij Hi Hj.
  apply (H i j); [exact Hij| |];
    rewrite nth_error_app1; try assumption;
    apply nth_error_Some; congruence.
Qed.

Lemma samples_of_run_cases (w : RerunServer.World) (config : ServerConfig.t)
    (temp_dir : string) :
  samples_of_run w config temp_dir = [] \/
  samples_of_run w config temp_dir
  = RerunServer.monitor_loop (RerunServer.sampler_turns w) [].
Proof.
  unfold samples_of_run, RerunServer.start, RerunServer.stop,
    RerunServer._monitor_memory, RerunServer.rrd_file.
  destruct (RerunServer.popen w) as [pid|e];
    destruct (RerunServer.poll_after_warmup w) as [code|];
    destruct (RerunServer.psutil_process w);
    destruct (RerunServer.terminate w);
    destruct (RerunServer.wait_times_out w);
    destruct (RerunServer.rrd_file_stat w) as [[size|e']|];
    simpl; auto.
Qed.

(** C9, as stated, fails: the sampler stamps each sample with
    [time.time()], the wall clock; when that clock is set back between two
    turns, the sample appended first carries the later timestamp. *)
Lemma sampler_timestamps_step_back :
  map MemorySample.timestamp
    (samples_of_run clock_set_back_world example_server_config "/tmp/bench")
  = [PyFloat.of_Z 101; PyFloat.of_Z 100] /\
  PyFloat.leb (PyFloat.of_Z 101) (PyFloat.of_Z 100) = false /\
  ~ (forall i j si sj, (i < j)%nat ->
       nth_error (samples_of_run clock_set_back_world example_server_config
                    "/tmp/bench") i = Some si ->
       nth_error (samples_of_run clock_set_back_world example_server_config
                    "/tmp/bench") j = Some sj ->
       le (MemorySample.timestamp si) (MemorySample.timestamp sj)).
Proof.
  split; [reflexivity|]. split; [reflexivity|].
  intros H.
  specialize (H 0%nat 1%nat
                (MemorySample.mk (PyFloat.of_Z 101)
                   (RerunServer.memory_mb_of 52428800))
                (MemorySample.mk (PyFloat.of_Z 100)
                   (RerunServer.memory_mb_of 62914560))
                ltac:(lia) eq_refl eq_refl).
  discriminate H.
Qed.

(** C9, amended: the timestamps of the samples of one sampler run are, in
    the order of the appends, the readings [time.time()] gave in the
    sampling turns, one sample per reading and none left out before the
    last one; so they are non-decreasing whenever the wall clock did not
    step back between those readings. *)
Theorem sampler_timestamps_follow_clock (w : RerunServer.World)
    (config : ServerConfig.t) (temp_dir : string) :
  (exists later,
     readings (RerunServer.sampler_turns w)
     = map MemorySample.timestamp (samples_of_run w config temp_dir) ++ later) /\
  (nondecreasing (readings (RerunServer.sampler_turns w)) ->
   forall i j si sj, (i < j)%nat ->
     nth_error (samples_of_run w config temp_dir) i = Some si ->
     nth_error (samples_of_run w config temp_dir) j = Some sj ->
     le (MemorySample.timestamp si) (MemorySample.timestamp sj)).
Proof.
  assert (Hpre : exists later,
             readings (RerunServer.sampler_turns w)
             = map MemorySample.timestamp (samples_of_run w config temp_dir)
               ++ later).
  { destruct (samples_of_run_cases w config temp_dir) as [E|E]; rewrite E.
    - eexists. reflexivity.
    - destruct (monitor_loop_timestamps (RerunServer.sampler_turns w) [])
        as (rest & Hr & _).
      simpl in Hr. rewrite skipn_O in Hr. exists rest. exact Hr. }
  split; [exact Hpre|].
  intros Hclock i j si sj Hij Hi Hj.
  destruct Hpre as (later & Hr). rewrite Hr in Hclock.
  apply nondecreasing_prefix in Hclock.
  apply (Hclock i j); [exact Hij| |];
    rewrite nth_error_map; [rewrite Hi|rewrite Hj]; reflexivity.
Qed.

Lemma sampler_timestamps_follow_clock_witness :
  map MemorySample.timestamp
    (samples_of_run example_server_world example_server_config "/tmp/bench")
  = [PyFloat.of_Z 100; PyFloat.of_Z 101] /\
  le (PyFloat.of_Z 100) (PyFloat.of_Z 101).
Proof.
  split; [reflexivity|].
  destruct (sampler_timestamps_follow_clock example_server_world
              example_server_config "/tmp/bench") as [_ H].
  apply H with (i := 0%nat) (j := 1%nat)
               (si := MemorySample.mk (PyFloat.of_Z 100)
                        (RerunServer.memory_mb_of 52428800))
               (sj := MemorySample.mk (PyFloat.of_Z 101)
                        (RerunServer.memory_mb_of 62914560));
    [|lia|reflexivity|reflexivity].
  intros [|[|i]] [|[|j]] ti tj Hij Hi Hj; try lia;
    try (destruct i; discriminate); try (destruct j; discriminate).
  injection Hi as <-. injection Hj as <-. reflexivity.
Defined.

(** ** bench/runner.py and the server's [start] *)

Lemma append_assoc (s1 s2 s3 : string) :
  (s1 +:+ s2) +:+ s3 = s1 +:+ (s2 +:+ s3).
Proof.
  induction s1 as [|c s1 IH]; [reflexivity|].
  change (String c ((s1 +:+ s2) +:+ s3) = String c (s1 +:+ (s2 +:+ s3))).
  f_equal. exact IH.
Qed.

Lemma get_backend_rerun :
  Backends.get_backend "rerun" = OK Backends.RerunBackend.
Proof.
  unfold Backends.get_backend, Backends.BACKENDS.
  rewrite lookup_singleton_eq. reflexivity.
Qed.

Lemma start_exited (sw : RerunServer.World) (config : ServerConfig.t)
    (temp_dir : string) (self : RerunServer.t) (pid : nat) (code : Z) :
  RerunServer.popen sw = OK pid ->
  RerunServer.poll_after_warmup sw = Some code ->
  exists self',
    RerunServer.start sw config temp_dir self
    = (Raise (RuntimeError
                (RerunServer.start_error (RerunServer.captured_stdout sw)
                   (RerunServer.captured_stderr sw))),
       self',
       [ RerunServer.KillProcessOnPort (ServerConfig.port config);
         RerunServer.Popen
           [ "rerun"; "--serve-grpc"; "--port";
             str_of_int (ServerConfig.port config); "--save";
             temp_dir +:+ "/benchmark.rrd" ] ]).
Proof.
  intros Hp Hx. unfold RerunServer.start. rewrite Hp, Hx.
  eexists. reflexivity.
Qed.

(** C5: when the server process has exited by the liveness check of
    [start], [start] raises an error whose message carries the captured
    stdout and stderr as they are (so a non-empty stderr is carried
    non-empty), [run_benchmark] ends with that error, and the run starts
    no client: after the temporary directory is made, it only reclaims the
    port, spawns the server and cleans up. *)
Theorem server_exit_during_warmup (w : Runner.World)
    (config : BenchmarkConfig.t) (keep_tmpdir : bool) (pid : nat) (code : Z) :
  let sw := Runner.server_world w in
  let message :=
    "Rerun server failed to start." +:+ LF +:+ "stdout: "
      +:+ RerunServer.captured_stdout sw +:+ LF +:+ "stderr: "
      +:+ RerunServer.captured_stderr sw in
  BenchmarkConfig.backend_type config = "rerun" ->
  RerunServer.popen sw = OK pid ->
  RerunServer.poll_after_warmup sw = Some code ->
  (forall server_config temp_dir self,
     fst (fst (RerunServer.start sw server_config temp_dir self))
     = Raise (RuntimeError message)) /\
  fst (Runner.run_benchmark w config keep_tmpdir) = Raise (RuntimeError message) /\
  client_starts (Runner.trace (snd (Runner.run_benchmark w config keep_tmpdir)))
  = [] /\
  Runner.trace (snd (Runner.run_benchmark w config keep_tmpdir))
  = [ Runner.Mkdtemp (Runner.mkdtemp w);
      Runner.Server (RerunServer.KillProcessOnPort
                       (BenchmarkConfig.backend_server_port config));
      Runner.Server (RerunServer.Popen
                       [ "rerun"; "--serve-grpc"; "--port";
                         str_of_int (BenchmarkConfig.backend_server_port config);
                         "--save"; Runner.mkdtemp w +:+ "/benchmark.rrd" ]);
      cleanup keep_tmpdir (Runner.mkdtemp w) ] /\
  (RerunServer.captured_stderr sw <> "" ->
   exists head c tail, message = head +:+ String c tail /\
     String c tail = RerunServer.captured_stderr sw).
Proof.
  intros sw message Hb Hp Hx.
  assert (Hstart : forall server_config temp_dir self,
             fst (fst (RerunServer.start sw server_config temp_dir self))
             = Raise (RuntimeError message)).
  { intros sc td self.
    destruct (start_exited sw sc td self pid code Hp Hx) as [self' ->].
    reflexivity. }
  assert (Hrun : exists srv,
             Runner.run_benchmark w config keep_tmpdir
             = (Raise (RuntimeError message),
                Runner.mk_state srv
                  [ Runner.Mkdtemp (Runner.mkdtemp w);
                    Runner.Server (RerunServer.KillProcessOnPort
                                     (BenchmarkConfig.backend_server_port config));
                    Runner.Server (RerunServer.Popen
                       [ "rerun"; "--serve-grpc"; "--port";
                         str_of_int (BenchmarkConfig.backend_server_port config);
                         "--save"; Runner.mkdtemp w +:+ "/benchmark.rrd" ]);
                    cleanup keep_tmpdir (Runner.mkdtemp w) ])).
  { unfold Runner.run_benchmark. rewrite Hb, get_backend_rerun.
    unfold Runner.benchmark_body, Runner.try_finally, Runner.bind,
      Runner.call, Runner.emit. cbn [Runner.server Runner.trace app].
    fold sw.
    destruct (start_exited sw (Runner.server_config_of config)
                (Runner.mkdtemp w) RerunServer.init pid code Hp Hx)
      as [self' ->].
    exists self'. unfold cleanup. destruct keep_tmpdir; reflexivity. }
  destruct Hrun as [srv Hrun].
  split; [exact Hstart|]. rewrite Hrun. cbn [fst snd Runner.trace].
  split; [reflexivity|]. split; [destruct keep_tmpdir; reflexivity|].
  split; [reflexivity|].
  intros Hne. destruct (RerunServer.captured_stderr sw) as [|c tail] eqn:E;
    [congruence|].
  exists ("Rerun server failed to start." +:+ LF +:+ "stdout: "
          +:+ RerunServer.captured_stdout sw +:+ LF +:+ "stderr: "), c, tail.
  split; [|reflexivity]. unfold message.
  rewrite !append_assoc. reflexivity.
Qed.

(** *** The launch loop *)

Lemma first_failure_app (popen : nat -> result unit) (idx n m : nat) :
  first_failure popen idx (n + m)
  = match first_failure popen idx n with
    | Some r => Some r
    | None => first_failure popen (idx + n) m
    end.
Proof.
  revert idx. induction n as [|n IH]; intros idx.
  - cbn. rewrite Nat.add_0_r. reflexivity.
  - cbn [Nat.add first_failure]. destruct (popen idx); [|reflexivity].
    rewrite IH. replace (S idx + n)%nat with (idx + S n)%nat by lia.
    reflexivity.
Qed.

Lemma first_failure_Some (popen : nat -> result unit) (idx n k : nat) (e : exn) :
  first_failure popen idx n = Some (k, e) ->
  (idx <= k < idx + n)%nat /\ popen k = Raise e /\
  forall j, (idx <= j < k)%nat -> popen j = OK tt.
Proof.
  revert idx. induction n as [|n IH]; intros idx; [discriminate|].
  cbn [first_failure]. destruct (popen idx) as [[]|e'] eqn:E.
  - intros H. destruct (IH _ H) as (Hk & He & Hj).
    split; [lia|]. split; [exact He|].
    intros j Hjk. destruct (Nat.eq_dec j idx) as [->|Hne]; [exact E|].
    apply Hj. lia.
  - intros [= <- <-]. split; [lia|]. split; [exact E|]. intros j Hj. lia.
Qed.

Lemma first_failure_None (popen : nat -> result unit) (idx n : nat) :
  (forall j, (idx <= j < idx + n)%nat -> popen j = OK tt) ->
  first_failure popen idx n = None.
Proof.
  revert idx. induction n as [|n IH]; intros idx H; [reflexivity|].
  cbn [first_failure]. rewrite (H idx) by lia. apply IH.
  intros j Hj. apply H. lia.
Qed.

Lemma before_start_instance_starts (c : ClientConfig.t)
    (server_addr tmpdir : string) (idx n k : nat) (rest : list Runner.event) :
  before_start k (instance_starts c server_addr tmpdir idx n ++ rest)
  = if (k <? n)%nat then instance_starts c server_addr tmpdir idx k
    else instance_starts c server_addr tmpdir idx n
         ++ before_start (k - n) rest.
Proof.
  unfold instance_starts. revert idx k.
  induction n as [|n IH]; intros idx k.
  - cbn. rewrite Nat.sub_0_r. reflexivity.
  - cbn [seq map app before_start is_client_start]. destruct k as [|k].
    + reflexivity.
    + rewrite IH. change (S k <? S n)%nat with (k <? n)%nat.
      destruct (k <? n)%nat; reflexivity.
Qed.

Lemma start_instances_spec (popen : nat -> result unit) (n : nat)
    (c : ClientConfig.t)
    (server_addr tmpdir : string) (client_procs : list Runner.client_proc)
    (idx : nat) (s : Runner.state) :
  Runner.start_instances popen n c server_addr tmpdir client_procs idx s
  = match first_failure popen idx n with
    | None =>
        (OK (client_procs ++ instance_procs tmpdir idx n, (idx + n)%nat),
         Runner.mk_state (Runner.server s)
           (Runner.trace s ++ instance_starts c server_addr tmpdir idx n))
    | Some (k, e) =>
        (Raise e,
         Runner.mk_state (Runner.server s)
           (Runner.trace s
            ++ instance_starts c server_addr tmpdir idx (k - idx)))
    end.
Proof.
  revert client_procs idx s. induction n as [|n IH]; intros procs idx s.
  - cbn. rewrite !app_nil_r, Nat.add_0_r. destruct s; reflexivity.
  - cbn [Runner.start_instances first_failure].
    unfold Runner.bind, Runner.client_start.
    destruct (popen idx) as [[]|e] eqn:E.
    + unfold Runner.emit. rewrite IH. cbn [Runner.server Runner.trace].
      destruct (first_failure popen (S idx) n) as [[k e]|] eqn:F.
      * destruct (first_failure_Some _ _ _ _ _ F) as (Hk & _).
        replace (k - idx)%nat with (S (k - S idx)) by lia.
        unfold instance_starts. cbn [seq map].
        rewrite <- !app_assoc. reflexivity.
      * unfold instance_procs, instance_starts. cbn [seq map].
        rewrite <- !app_assoc. cbn [app].
        replace (S idx + n)%nat with (idx + S n)%nat by lia. reflexivity.
    + rewrite Nat.sub_diag. unfold instance_starts. cbn [seq map].
      rewrite app_nil_r. destruct s; reflexivity.
Qed.

Lemma length_instance_procs (tmpdir : string) (idx n : nat) :
  length (instance_procs tmpdir idx n) = n.
Proof. unfold instance_procs. rewrite length_map, length_seq. reflexivity. Qed.

(** The launch loop, in closed form: it runs to its end when no spawn
    fails, and stops at the first spawn that does. *)
Lemma launch_spec (popen : nat -> result unit) (duration_sec : float)
    (groups : list BenchmarkConfig.client_group) (server_addr tmpdir : string)
    (client_procs : list Runner.client_proc) (idx : nat) (s : Runner.state) :
  Runner.launch popen Backends.RerunBackend duration_sec groups server_addr
    tmpdir client_procs idx s
  = match first_failure popen idx
            (length (launch_procs Backends.RerunBackend groups tmpdir idx)) with
    | None =>
        (OK (client_procs ++ launch_procs Backends.RerunBackend groups tmpdir idx,
             (idx + length (launch_procs Backends.RerunBackend groups tmpdir idx))%nat),
         Runner.mk_state (Runner.server s)
           (Runner.trace s
            ++ launch_events Backends.RerunBackend duration_sec groups
                 server_addr tmpdir idx))
    | Some (k, e) =>
        (Raise e,
         Runner.mk_state (Runner.server s)
           (Runner.trace s
            ++ before_start (k - idx)
                 (launch_events Backends.RerunBackend duration_sec groups
                    server_addr tmpdir idx)))
    end.
Proof.
  revert client_procs idx s.
  induction groups as [|g rest IH]; intros procs idx s.
  - cbn. rewrite !app_nil_r, Nat.add_0_r. destruct s; reflexivity.
  - cbn [Runner.launch launch_procs launch_events]. unfold supported.
    destruct (existsb (String.eqb (BenchmarkConfig.language g))
                (Backends.supported_languages Backends.RerunBackend)) eqn:E.
    + assert (Hc : Backends.create_client Backends.RerunBackend
                     (BenchmarkConfig.language g) = OK "python").
      { cbn in E |- *. rewrite orb_false_r in E. rewrite E. reflexivity. }
      unfold Runner.bind at 1. unfold Runner.lift. rewrite Hc.
      unfold Runner.bind at 1. rewrite start_instances_spec.
      set (n := Z.to_nat (BenchmarkConfig.count g)).
      rewrite length_app, length_instance_procs, first_failure_app.
      destruct (first_failure popen idx n) as [[k e]|] eqn:F.
      * destruct (first_failure_Some _ _ _ _ _ F) as (Hk & _).
        rewrite before_start_instance_starts.
        destruct (Nat.ltb_spec (k - idx) n); [reflexivity|lia].
      * cbn [fst snd]. rewrite IH. cbn [Runner.server Runner.trace].
        destruct (first_failure popen (idx + n)
                    (length (launch_procs Backends.RerunBackend rest tmpdir
                               (idx + n)))) as [[k e]|] eqn:F'.
        -- destruct (first_failure_Some _ _ _ _ _ F') as (Hk & _).
           rewrite before_start_instance_starts.
           destruct (Nat.ltb_spec (k - idx) n); [lia|].
           replace (k - idx - n)%nat with (k - (idx + n))%nat by lia.
           rewrite <- !app_assoc. reflexivity.
        -- rewrite <- !app_assoc, Nat.add_assoc. reflexivity.
    + unfold Runner.bind at 1. unfold Runner.emit. rewrite IH.
      cbn [Runner.server Runner.trace before_start is_client_start].
      destruct (first_failure popen idx
                  (length (launch_procs Backends.RerunBackend rest tmpdir idx)))
        as [[k e]|]; rewrite <- !app_assoc; reflexivity.
Qed.

Lemma client_starts_app (t1 t2 : list Runner.event) :
  client_starts (t1 ++ t2) = client_starts t1 ++ client_starts t2.
Proof. apply List.filter_app. Qed.

Lemma client_starts_instance_starts (c : ClientConfig.t)
    (server_addr tmpdir : string) (idx n : nat) :
  client_starts (instance_starts c server_addr tmpdir idx n)
  = instance_starts c server_addr tmpdir idx n.
Proof.
  unfold instance_starts. revert idx.
  induction n as [|n IH]; intros idx; [reflexivity|].
  cbn [seq map]. unfold client_starts in *. cbn [List.filter is_client_start].
  f_equal. apply IH.
Qed.

(** The launch loop starts as many clients as the supported groups ask
    for, and enters as many processes in [client_procs]. *)
Lemma launch_counts (duration_sec : float)
    (groups : list BenchmarkConfig.client_group) (server_addr tmpdir : string)
    (idx : nat) :
  Forall (fun g => 0 <= BenchmarkConfig.count g) groups ->
  Z.of_nat (length (client_starts
                      (launch_events Backends.RerunBackend duration_sec groups
                         server_addr tmpdir idx)))
  = supported_count Backends.RerunBackend groups /\
  Z.of_nat (length (launch_procs Backends.RerunBackend groups tmpdir idx))
  = supported_count Backends.RerunBackend groups.
Proof.
  intros H. revert idx. induction H as [|g rest Hg _ IH]; intros idx.
  - split; reflexivity.
  - cbn [launch_events launch_procs supported_count].
    destruct (supported Backends.RerunBackend g).
    + rewrite client_starts_app, client_starts_instance_starts, !length_app.
      unfold instance_starts, instance_procs.
      rewrite !length_map, !length_seq, !Nat2Z.inj_add, Z2Nat.id by exact Hg.
      destruct (IH (idx + Z.to_nat (BenchmarkConfig.count g))%nat) as [-> ->].
      split; reflexivity.
    + unfold client_starts. cbn [List.filter is_client_start]. apply IH.
Qed.



(** *** The server's [start] and [stop] on a live process *)

Lemma start_running (sw : RerunServer.World) (config : ServerConfig.t)
    (temp_dir : string) (pid : nat) :
  RerunServer.popen sw = OK pid ->
  RerunServer.poll_after_warmup sw = None ->
  RerunServer.start sw config temp_dir RerunServer.init
  = (OK tt, started sw config temp_dir pid,
     [ RerunServer.KillProcessOnPort (ServerConfig.port config);
       RerunServer.Popen
         [ "rerun"; "--serve-grpc"; "--port";
           str_of_int (ServerConfig.port config); "--save";
           temp_dir +:+ "/benchmark.rrd" ];
       RerunServer.ThreadStart ]).
Proof.
  intros Hp Hx. unfold RerunServer.start. rewrite Hp, Hx. reflexivity.
Qed.

Lemma stop_started (sw : RerunServer.World) (config : ServerConfig.t)
    (temp_dir : string) (pid : nat) :
  exists stopped,
    RerunServer.stop sw (started sw config temp_dir pid)
    = (stop_result sw, stopped, stop_events sw) /\
    ServerMetrics.end_time (RerunServer.get_metrics stopped)
    = RerunServer.time_at_stop sw.
Proof.
  unfold RerunServer.stop, started, stop_result, stop_events, RerunServer.rrd_file.
  cbn [RerunServer._monitor_thread RerunServer._proc RerunServer._temp_dir
       RerunServer._metrics RerunServer.set_metrics RerunServer.set_proc
       RerunServer._config RerunServer._stop_event].
  destruct (RerunServer.terminate sw) as [[]|e];
    [destruct (RerunServer.wait_times_out sw);
     destruct (RerunServer.rrd_file_stat sw) as [[size|e]|]|];
    eexists; split; reflexivity.
Qed.

(** *** A run whose server started *)

Lemma wait_all_spec (client_procs : list Runner.client_proc) (s : Runner.state) :
  Runner.wait_all client_procs s
  = (OK tt, Runner.mk_state (Runner.server s)
              (Runner.trace s ++ waits client_procs)).
Proof.
  revert s. induction client_procs as [|[[proc file] id] rest IH]; intros s.
  - cbn. rewrite app_nil_r. destruct s; reflexivity.
  - cbn [Runner.wait_all]. unfold Runner.bind, Runner.emit. rewrite IH.
    cbn [Runner.server Runner.trace waits map snd].
    rewrite <- app_assoc. reflexivity.
Qed.

Lemma supervise_spec (w : Runner.World) (config : BenchmarkConfig.t)
    (pid : nat) (trace : list Runner.event) :
  let srv := started (Runner.server_world w) (Runner.server_config_of config)
               (Runner.mkdtemp w) pid in
  Runner.supervise w config Backends.RerunBackend (Runner.mkdtemp w)
    (Runner.mk_state srv trace)
  = (supervised_result w config,
     Runner.mk_state srv (trace ++ supervised_events w config)).
Proof.
  intros srv. unfold Runner.supervise, supervised_result, supervised_events,
    RerunServer.is_running, alive.
  cbn [Runner.server srv started RerunServer._proc].
  destruct (RerunServer.poll_in_is_running (Runner.server_world w));
    [cbn; rewrite app_nil_r; reflexivity|].
  unfold Runner.bind at 1. unfold Runner.lift.
  assert (Haddr : RerunServer.get_address srv = OK (server_addr_of config))
    by reflexivity.
  rewrite Haddr. unfold Runner.bind at 1.
  rewrite launch_spec. unfold spawn_failure. fold (procs_of w config).
  destruct (first_failure (Runner.client_popen w) 0 (length (procs_of w config)))
    as [[k e]|].
  - rewrite Nat.sub_0_r. reflexivity.
  - cbn [fst app Runner.server Runner.trace].
    destruct (procs_of w config) as [|p ps] eqn:E.
    + unfold Runner.raise. cbn [waits map]. rewrite app_nil_r. reflexivity.
    + unfold Runner.bind, Runner.ret. rewrite wait_all_spec.
      cbn [Runner.server Runner.trace]. rewrite <- app_assoc. reflexivity.
Qed.

Lemma run_benchmark_started (w : Runner.World) (config : BenchmarkConfig.t)
    (keep_tmpdir : bool) (pid : nat) :
  let sw := Runner.server_world w in
  BenchmarkConfig.backend_type config = "rerun" ->
  RerunServer.popen sw = OK pid ->
  RerunServer.poll_after_warmup sw = None ->
  exists stopped,
    Runner.run_benchmark w config keep_tmpdir
    = (match stop_result sw with
       | Raise e => Raise e
       | OK _ =>
           match supervised_result w config with
           | Raise e => Raise e
           | OK client_procs =>
               let* client_metrics :=
                 Runner.collect (Runner.files w) client_procs [] in
               OK (BenchmarkResult.mk (BenchmarkConfig.name config)
                     (BenchmarkConfig.description config) "rerun"
                     (Runner.now_isoformat w)
                     (RerunServer.get_metrics stopped) client_metrics
                     (BenchmarkConfig.model_dump config))
           end
       end,
       Runner.mk_state stopped (started_trace w config keep_tmpdir)) /\
    ServerMetrics.end_time (RerunServer.get_metrics stopped)
    = RerunServer.time_at_stop sw.
Proof.
  intros sw Hb Hp Hx.
  destruct (stop_started sw (Runner.server_config_of config)
              (Runner.mkdtemp w) pid) as (stopped & Hstop & Hend).
  exists stopped. split; [|exact Hend].
  unfold Runner.run_benchmark. rewrite Hb, get_backend_rerun.
  unfold Runner.benchmark_body.
  unfold Runner.bind at 1. unfold Runner.emit at 1.
  unfold Runner.try_finally at 1.
  unfold Runner.bind at 1. unfold Runner.call at 1.
  cbn [Runner.server Runner.trace app]. fold sw.
  rewrite (start_running sw _ _ pid Hp Hx).
  unfold Runner.bind at 1. unfold Runner.try_finally at 1.
  cbn [map app].
  rewrite (supervise_spec w config pid).
  unfold Runner.call. cbn [Runner.server Runner.trace]. fold sw.
  rewrite Hstop. unfold started_trace. fold sw.
  destruct (stop_result sw) as [[]|e].
  - destruct (supervised_result w config) as [procs|e].
    + unfold Runner.bind, Runner.lift, Runner.ret, Runner.emit.
      cbn [BenchmarkResult.client_metrics BenchmarkResult.name
           BenchmarkResult.description BenchmarkResult.backend_type
           BenchmarkResult.timestamp BenchmarkResult.config_snapshot
           Runner.server Runner.trace].
      destruct (Runner.collect (Runner.files w) procs []) as [cms|e];
        cbn [Py.bind Runner.server Runner.trace];
        rewrite <- !app_assoc; reflexivity.
    + unfold Runner.emit. cbn [Runner.server Runner.trace].
      rewrite <- !app_assoc. reflexivity.
  - unfold Runner.emit. cbn [Runner.server Runner.trace].
    rewrite <- !app_assoc. reflexivity.
Qed.

Lemma server_exit_during_warmup_witness :
  fst (Runner.run_benchmark crashing_world example_config false)
  = Raise (RuntimeError
             ("Rerun server failed to start." +:+ LF +:+ "stdout: " +:+ LF
                +:+ "stderr: Error: address in use")) /\
  client_starts
    (Runner.trace (snd (Runner.run_benchmark crashing_world example_config false)))
  = [].
Proof.
  destruct (server_exit_during_warmup crashing_world example_config false
              4242%nat 1 eq_refl eq_refl eq_refl) as (_ & Hr & Hc & _).
  split; [exact Hr|exact Hc].
Defined.

Lemma client_starts_waits (client_procs : list Runner.client_proc) :
  client_starts (waits client_procs) = [].
Proof. induction client_procs as [|p l IH]; [reflexivity|exact IH]. Qed.

Lemma client_starts_server (evs : list RerunServer.event) :
  client_starts (map Runner.Server evs) = [].
Proof. induction evs as [|e l IH]; [reflexivity|exact IH]. Qed.

Lemma client_starts_cleanup (keep_tmpdir : bool) (tmpdir : string) :
  client_starts [cleanup keep_tmpdir tmpdir] = [].
Proof. destruct keep_tmpdir; reflexivity. Qed.

Lemma valid_counts (config : BenchmarkConfig.t) :
  BenchmarkConfig.valid config ->
  Forall (fun g => 0 <= BenchmarkConfig.count g) (BenchmarkConfig.clients config).
Proof.
  intros (_ & _ & _ & _ & H & _). eapply List.Forall_impl; [|exact H].
  intros g (_ & Hc & _). lia.
Qed.

Lemma first_failure_at (popen : nat -> result unit) (idx n k : nat) (e : exn) :
  (idx <= k < idx + n)%nat -> popen k = Raise e ->
  (forall j, (idx <= j < k)%nat -> popen j = OK tt) ->
  first_failure popen idx n = Some (k, e).
Proof.
  revert idx. induction n as [|n IH]; intros idx Hk He Hj; [lia|].
  cbn [first_failure]. destruct (Nat.eq_dec k idx) as [->|Hne].
  - rewrite He. reflexivity.
  - rewrite (Hj idx) by lia. apply IH; [lia|exact He|].
    intros j Hjk. apply Hj. lia.
Qed.

(** The events before the start numbered [k] hold the first [k] starts,
    and nothing that the whole list does not hold. *)
Lemma client_starts_before_start (k : nat) (events : list Runner.event) :
  client_starts (before_start k events) = firstn k (client_starts events).
Proof.
  revert k. induction events as [|e rest IH]; intros k.
  - destruct k; reflexivity.
  - unfold client_starts in *. cbn [before_start List.filter].
    destruct (is_client_start e) eqn:E.
    + destruct k as [|k]; [reflexivity|].
      cbn [List.filter firstn]. rewrite E, IH. reflexivity.
    + cbn [List.filter]. rewrite E. apply IH.
Qed.

Lemma filter_before_start (f : Runner.event -> bool) (k : nat)
    (events : list Runner.event) :
  List.filter f events = [] -> List.filter f (before_start k events) = [].
Proof.
  revert k. induction events as [|e rest IH]; intros k H; [reflexivity|].
  cbn [List.filter] in H. cbn [before_start].
  destruct (f e) eqn:E; [discriminate|].
  destruct (is_client_start e).
  - destruct k as [|k]; [reflexivity|].
    cbn [List.filter]. rewrite E. apply IH, H.
  - cbn [List.filter]. rewrite E. apply IH, H.
Qed.



(** The client starts of a run whose server started are those of its
    supervised part. *)
Lemma client_starts_started_trace (w : Runner.World)
    (config : BenchmarkConfig.t) (keep_tmpdir : bool) :
  client_starts (started_trace w config keep_tmpdir)
  = client_starts (supervised_events w config).
Proof.
  unfold started_trace.
  set (head := [ Runner.Mkdtemp (Runner.mkdtemp w);
                 Runner.Server (RerunServer.KillProcessOnPort
                                  (BenchmarkConfig.backend_server_port config));
                 Runner.Server (RerunServer.Popen
                    [ "rerun"; "--serve-grpc"; "--port";
                      str_of_int (BenchmarkConfig.backend_server_port config);
                      "--save"; Runner.mkdtemp w +:+ "/benchmark.rrd" ]);
                 Runner.Server RerunServer.ThreadStart ]).
  assert (Hh : client_starts head = []) by reflexivity.
  rewrite !client_starts_app, Hh, client_starts_server, client_starts_cleanup,
    !app_nil_r. reflexivity.
Qed.

(** The clients a run launches, whatever its spawns do. *)
Lemma launched_count (w : Runner.World) (config : BenchmarkConfig.t)
    (keep_tmpdir : bool) :
  Forall (fun g => 0 <= BenchmarkConfig.count g) (BenchmarkConfig.clients config) ->
  RerunServer.poll_in_is_running (Runner.server_world w) = None ->
  Z.of_nat (length (client_starts (started_trace w config keep_tmpdir)))
  = match spawn_failure w config with
    | Some (k, _) => Z.of_nat k
    | None => supported_count Backends.RerunBackend (BenchmarkConfig.clients config)
    end /\
  match spawn_failure w config with
  | Some (k, _) =>
      Z.of_nat k < supported_count Backends.RerunBackend
                     (BenchmarkConfig.clients config)
  | None => True
  end.
Proof.
  intros Hc Ha.
  destruct (launch_counts (BenchmarkConfig.duration_sec config)
              (BenchmarkConfig.clients config) (server_addr_of config)
              (Runner.mkdtemp w) 0 Hc) as [Hn Hl].
  fold (procs_of w config) in Hl.
  rewrite client_starts_started_trace.
  unfold supervised_events, alive. rewrite Ha.
  unfold spawn_failure.
  destruct (first_failure (Runner.client_popen w) 0 (length (procs_of w config)))
    as [[k e]|] eqn:F.
  - destruct (first_failure_Some _ _ _ _ _ F) as (Hk & _).
    rewrite client_starts_before_start, length_firstn.
    split; lia.
  - rewrite client_starts_app, client_starts_waits, app_nil_r.
    split; [exact Hn|exact I].
Qed.



Lemma example_config_valid : BenchmarkConfig.valid example_config.
Proof.
  unfold BenchmarkConfig.valid, example_config. cbn.
  repeat split; try reflexivity; try lia; try discriminate; auto.
  repeat constructor; cbn; auto; lia.
Qed.


(** ** bench/runner.py: stopping the server *)

Lemma server_events_app (t1 t2 : list Runner.event) :
  server_events (t1 ++ t2) = server_events t1 ++ server_events t2.
Proof. apply List.filter_app. Qed.

Lemma server_events_server (evs : list RerunServer.event) :
  server_events (map Runner.Server evs) = map Runner.Server evs.
Proof.
  induction evs as [|e l IH]; [reflexivity|].
  cbn [map]. unfold server_events in *. cbn [List.filter is_server_event].
  f_equal. exact IH.
Qed.

Lemma server_events_launch (duration_sec : float)
    (groups : list BenchmarkConfig.client_group) (server_addr tmpdir : string)
    (idx : nat) :
  server_events (launch_events Backends.RerunBackend duration_sec groups
                   server_addr tmpdir idx) = [].
Proof.
  revert idx. induction groups as [|g rest IH]; intros idx; [reflexivity|].
  cbn [launch_events]. destruct (supported Backends.RerunBackend g).
  - rewrite server_events_app, IH, app_nil_r.
    unfold instance_starts. generalize (Z.to_nat (BenchmarkConfig.count g)).
    intros n. revert idx. induction n as [|n IHn]; intros idx; [reflexivity|].
    apply IHn.
  - apply IH.
Qed.

Lemma server_events_waits (client_procs : list Runner.client_proc) :
  server_events (waits client_procs) = [].
Proof. induction client_procs as [|p l IH]; [reflexivity|exact IH]. Qed.

Lemma server_events_supervised (w : Runner.World) (config : BenchmarkConfig.t) :
  server_events (supervised_events w config) = [].
Proof.
  unfold supervised_events. destruct (alive (Runner.server_world w));
    [|reflexivity].
  destruct (spawn_failure w config) as [[k e]|].
  - apply filter_before_start, server_events_launch.
  - rewrite server_events_app, server_events_launch, server_events_waits.
    reflexivity.
Qed.

(** C7, as stated, fails: the server is stopped while [stat] of the
    recording raises; [stop] raises that error, and the run ends with it
    instead of a result. *)
Lemma stop_error_escalates :
  stop_result (Runner.server_world stat_failing_world)
  = Raise (OSError "stat: benchmark.rrd") /\
  fst (Runner.run_benchmark stat_failing_world example_config false)
  = Raise (OSError "stat: benchmark.rrd") /\
  ~ (exists r,
       fst (Runner.run_benchmark stat_failing_world example_config false) = OK r).
Proof.
  destruct (run_benchmark_started stat_failing_world example_config false
              4242%nat eq_refl eq_refl eq_refl) as (stopped & Hrun & _).
  rewrite Hrun. cbn [fst].
  split; [reflexivity|]. split; [reflexivity|].
  intros [r Hr]. discriminate.
Qed.

(** C7, amended: once the server has started, [run_benchmark] stops it
    exactly once, after the supervised part of the run and before the
    clean-up of the temporary directory, which ends every run; a graceful
    termination that times out is followed by a kill inside [stop]; an
    error raised by [stop] is not caught: the run ends with that error
    and without a result; and when [stop] returns, the run ends as its
    supervised part and the collection of the metrics decide. *)
Theorem stop_in_finally (w : Runner.World) (config : BenchmarkConfig.t)
    (keep_tmpdir : bool) (pid : nat) :
  let sw := Runner.server_world w in
  let run := Runner.run_benchmark w config keep_tmpdir in
  BenchmarkConfig.backend_type config = "rerun" ->
  RerunServer.popen sw = OK pid ->
  RerunServer.poll_after_warmup sw = None ->
  server_events (Runner.trace (snd run))
  = map Runner.Server
      ([ RerunServer.KillProcessOnPort (BenchmarkConfig.backend_server_port config);
         RerunServer.Popen
           [ "rerun"; "--serve-grpc"; "--port";
             str_of_int (BenchmarkConfig.backend_server_port config);
             "--save"; Runner.mkdtemp w +:+ "/benchmark.rrd" ];
         RerunServer.ThreadStart;
         RerunServer.ThreadJoin;
         RerunServer.Terminate ]
       ++ match RerunServer.terminate sw with
          | OK _ => if RerunServer.wait_times_out sw then [RerunServer.Kill] else []
          | Raise _ => []
          end) /\
  (exists before,
     Runner.trace (snd run)
     = before ++ map Runner.Server (stop_events sw)
         ++ [cleanup keep_tmpdir (Runner.mkdtemp w)]) /\
  (forall e, stop_result sw = Raise e -> fst run = Raise e) /\
  (stop_result sw = OK tt ->
   exists server_metrics,
     ServerMetrics.end_time server_metrics = RerunServer.time_at_stop sw /\
     fst run
     = match supervised_result w config with
       | Raise e => Raise e
       | OK client_procs =>
           let* client_metrics :=
             Runner.collect (Runner.files w) client_procs [] in
           OK (BenchmarkResult.mk (BenchmarkConfig.name config)
                 (BenchmarkConfig.description config) "rerun"
                 (Runner.now_isoformat w) server_metrics client_metrics
                 (BenchmarkConfig.model_dump config))
       end).
Proof.
  intros sw run Hb Hp Hx.
  destruct (run_benchmark_started w config keep_tmpdir pid Hb Hp Hx)
    as (stopped & Hrun & Hend).
  fold sw in Hrun, Hend. fold run in Hrun. rewrite Hrun.
  cbn [fst snd Runner.trace]. repeat split.
  - unfold started_trace. fold sw.
    change ([ Runner.Mkdtemp (Runner.mkdtemp w);
              Runner.Server (RerunServer.KillProcessOnPort
                               (BenchmarkConfig.backend_server_port config));
              Runner.Server (RerunServer.Popen
                 [ "rerun"; "--serve-grpc"; "--port";
                   str_of_int (BenchmarkConfig.backend_server_port config);
                   "--save"; Runner.mkdtemp w +:+ "/benchmark.rrd" ]);
              Runner.Server RerunServer.ThreadStart ]
            ++ supervised_events w config
            ++ map Runner.Server (stop_events sw)
            ++ [cleanup keep_tmpdir (Runner.mkdtemp w)])
      with ([Runner.Mkdtemp (Runner.mkdtemp w)]
            ++ map Runner.Server
                 [ RerunServer.KillProcessOnPort
                     (BenchmarkConfig.backend_server_port config);
                   RerunServer.Popen
                     [ "rerun"; "--serve-grpc"; "--port";
                       str_of_int (BenchmarkConfig.backend_server_port config);
                       "--save"; Runner.mkdtemp w +:+ "/benchmark.rrd" ];
                   RerunServer.ThreadStart ]
            ++ supervised_events w config
            ++ map Runner.Server (stop_events sw)
            ++ [cleanup keep_tmpdir (Runner.mkdtemp w)]).
    rewrite !server_events_app, !server_events_server,
      server_events_supervised.
    unfold stop_events.
    replace (server_events [cleanup keep_tmpdir (Runner.mkdtemp w)])
      with (@nil Runner.event) by (destruct keep_tmpdir; reflexivity).
    cbn [server_events List.filter is_server_event app].
    rewrite app_nil_r, <- map_app. reflexivity.
  - unfold started_trace. fold sw.
    eexists ([_; _; _; _] ++ supervised_events w config).
    rewrite <- !app_assoc. reflexivity.
  - intros e He. rewrite He. reflexivity.
  - intros Hs. rewrite Hs. exists (RerunServer.get_metrics stopped).
    split; [exact Hend|reflexivity].
Qed.

Lemma stop_in_finally_witness :
  exists r,
    fst (Runner.run_benchmark example_world example_config true) = OK r /\
    BenchmarkResult.client_metrics r = [].
Proof.
  destruct (stop_in_finally example_world example_config true 4242%nat
              eq_refl eq_refl eq_refl) as (_ & _ & _ & H).
  destruct (H eq_refl) as (sm & _ & Hr).
  rewrite Hr. eexists. split; reflexivity.
Defined.

(** ** bench/backends/rerun/client_py.py: the exit paths of [main] *)

(** Once the size is parsed, every run of [main] that ends calls
    [save_client_metrics] exactly once, on the metrics file it was given,
    and returns normally. *)
Lemma main_saves_once (int_of_str : string -> result Z) (w : ClientPy.World float)
    (fuel : nat) (server data_type size : string) (frequency duration : float)
    (metrics_file client_id : string) (o : ClientPy.outcome) :
  ClientPy.main int_of_str w fuel server data_type size frequency duration
    metrics_file client_id = Some o ->
  (exists e, ClientPy.exit o = Raise e /\ ClientPy.saved o = []) \/
  (exists m, ClientPy.exit o = OK tt /\ ClientPy.saved o = [(metrics_file, m)]).
Proof.
  unfold ClientPy.main.
  destruct (if (String.eqb data_type "image" && ClientPy.has_x size)%bool
            then OK (SizeStr size)
            else let* n := int_of_str size in OK (SizeInt n)) as [ps|e].
  2:{ intros [= <-]. left. eexists. split; reflexivity. }
  destruct (ClientPy.connect w).
  2:{ intros [= <-]. right. eexists. split; reflexivity. }
  destruct (PyFloat.truediv (PyFloat.of_Z 1) frequency).
  2:{ intros [= <-]. right. eexists. split; reflexivity. }
  destruct (ClientPy.generate_data w 0).
  2:{ intros [= <-]. right. eexists. split; reflexivity. }
  destruct (ClientPy.publish_loop _ _ _ _ _ _ _) as [[[[]|e] s]|];
    intros [= <-]; right; eexists; split; reflexivity.
Qed.

(** On the exception path of the publish loop (the size having parsed),
    the saved metrics carry the error message and the end time, but the
    counter and the latencies of the publishes already made are not in
    them. *)
Lemma exception_path_metrics (int_of_str : string -> result Z)
    (w : ClientPy.World float) (fuel : nat) (server data_type size : string)
    (frequency duration : float) (metrics_file client_id : string)
    (o : ClientPy.outcome) (s : ClientPy.loop float) (interval : float) (e : exn) :
  ClientPy.main int_of_str w fuel server data_type size frequency duration
    metrics_file client_id = Some o ->
  ClientPy.exit o = OK tt ->
  ClientPy.connect w = OK tt ->
  PyFloat.truediv (PyFloat.of_Z 1) frequency = OK interval ->
  ClientPy.generate_data w 0 = OK tt ->
  ClientPy.publish_loop ClientPy.float_ops w (ClientPy.time_after_settle w)
    (PyFloat.add (ClientPy.time_after_settle w) duration) interval fuel
    (ClientPy.mk_loop (ClientPy.time_after_settle w) 0 [] [])
  = Some (Raise e, s) ->
  exists m, ClientPy.saved o = [(metrics_file, m)] /\
    ClientMetrics.errors m = [Py.str e] /\
    ClientMetrics.end_time m = ClientPy.now s /\
    ClientMetrics.start_time m = ClientPy.time_after_settle w /\
    ClientMetrics.log_count m = 0 /\
    ClientMetrics.latencies_ms m = [].
Proof.
  unfold ClientPy.main. intros Hm Hx Hc Hi Hg Hl.
  destruct (if (String.eqb data_type "image" && ClientPy.has_x size)%bool
            then OK (SizeStr size)
            else let* n := int_of_str size in OK (SizeInt n)) as [ps|e'].
  - rewrite Hc, Hi, Hg, Hl in Hm. injection Hm as <-.
    eexists. split; [reflexivity|]. repeat split; reflexivity.
  - injection Hm as <-. discriminate.
Qed.

(** C6, evaluated where it fails: a client publishes twice, then the
    third [rr.log] raises.  [main] returns normally and saves its metrics
    once, with the message and the times, but the saved [log_count] is 0
    and the saved latency series is empty, although the loop had counted
    two publishes and recorded two latencies. *)
Lemma exception_drops_partial_metrics :
  exists m s,
    ClientPy.main example_int_of_str third_publish_fails 100
      "rerun+http://127.0.0.1:9876/proxy" "text" "16"
      (PyFloat.of_Z 10) (PyFloat.of_Z 1)
      "/tmp/bench/client_0_metrics.json" "client_0"
    = Some (ClientPy.mk_outcome (OK tt)
              [("/tmp/bench/client_0_metrics.json", m)] (Some s)) /\
    ClientMetrics.errors m = ["connection lost"] /\
    ClientMetrics.start_time m = PyFloat.of_Z 1000 /\
    ClientPy.log_count s = 2 /\
    ClientPy.latencies s = [half; half] /\
    ClientMetrics.log_count m = 0 /\
    ClientMetrics.latencies_ms m = [].
Proof.
  eexists _, _. split; [vm_compute; reflexivity|].
  repeat split; reflexivity.
Qed.

(** ** bench/backends/rerun/client_py.py: the pacing of the publish loop *)

Section Schedule.
Context {T : Type} (ops : ClientPy.TimeOps T) (w : ClientPy.World T).
Context (start_time end_time interval : T).

Lemma in_step_next (s : ClientPy.loop T) (now' : T) (latency_ms : float)
    (t : ClientPy.tick T) :
  in_step s -> ClientPy.tick_count t = ClientPy.log_count s + 1 ->
  in_step (ClientPy.mk_loop now' (ClientPy.log_count s + 1)
             (ClientPy.latencies s ++ [latency_ms]) (ClientPy.ticks s ++ [t])).
Proof.
  intros (H0 & Ht & Hl) Hc. unfold in_step. cbn [ClientPy.log_count
    ClientPy.ticks ClientPy.latencies].
  replace (Z.to_nat (ClientPy.log_count s + 1))
    with (S (Z.to_nat (ClientPy.log_count s))) by lia.
  split; [lia|]. split.
  - rewrite map_app, Ht, seq_S, map_app. cbn [map]. rewrite Hc.
    do 2 f_equal. lia.
  - rewrite length_app, Hl. simpl. lia.
Qed.

(** Every tick the loop records is on the absolute schedule; a loop that
    ends normally ends because the clock is no longer before [end_time],
    with its record in step with its counter. *)
Lemma publish_loop_schedule (fuel : nat) (s s' : ClientPy.loop T)
    (r : result unit) :
  ClientPy.publish_loop ops w start_time end_time interval fuel s = Some (r, s') ->
  Forall (on_schedule ops start_time interval) (ClientPy.ticks s) ->
  Forall (on_schedule ops start_time interval) (ClientPy.ticks s') /\
  (r = OK tt -> ClientPy.t_ltb ops (ClientPy.now s') end_time = false) /\
  (r = OK tt -> in_step s -> in_step s').
Proof.
  revert s. induction fuel as [|fuel IH]; intros s; [discriminate|].
  cbn [ClientPy.publish_loop].
  destruct (ClientPy.t_ltb ops (ClientPy.now s) end_time) eqn:Hlt.
  2:{ intros [= <- <-] Hs. auto. }
  destruct (if (Z.eqb (ClientPy.log_count s mod ClientPy.regen_interval) 0
                && Z.ltb 0 (ClientPy.log_count s))%bool
            then ClientPy.generate_data w (ClientPy.log_count s) else OK tt).
  2:{ intros [= <- <-] Hs. split; [exact Hs|split; discriminate]. }
  destruct (ClientPy.rr_log w (Z.to_nat (ClientPy.log_count s)))
    as [elapsed latency_ms|elapsed e].
  2:{ intros [= <- <-] Hs. split; [exact Hs|split; discriminate]. }
  destruct (ClientPy.t_scale ops (ClientPy.log_count s + 1) interval)
    as [offset|e] eqn:Hscale.
  2:{ intros [= <- <-] Hs. split; [exact Hs|split; discriminate]. }
  destruct (ClientPy.t_pos ops _) eqn:Hpos; intros Hloop Hs;
    (apply IH in Hloop;
     [ destruct Hloop as (H1 & H2 & H3); split; [exact H1|];
       split; [exact H2|];
       intros Hr Hin; apply (H3 Hr); apply in_step_next; [exact Hin|reflexivity]
     | cbn [ClientPy.ticks]; apply Forall_app; split; [exact Hs|];
       constructor; [|constructor];
       exists offset; cbn [ClientPy.tick_count ClientPy.tick_target
                           ClientPy.tick_now ClientPy.tick_sleep];
       rewrite Hpos; auto ]).
Qed.

End Schedule.

(** *** Floats: clock readings and durations *)

(** Rounding to nearest keeps a mantissa between two integers between
    them. *)
Lemma rne_sandwich (M k lo hi : Z) :
  0 <= k -> lo * 2 ^ k <= M -> M <= hi * 2 ^ k -> lo <= rne M k <= hi.
Proof.
  intros Hk Hlo Hhi.
  assert (HP : 0 < 2 ^ k) by (apply Z.pow_pos_nonneg; lia).
  pose proof (Z.div_mod M (2 ^ k) ltac:(lia)) as Hdm.
  pose proof (Z.mod_pos_bound M (2 ^ k) HP) as Hr.
  unfold rne. set (q := M / 2 ^ k) in *. set (r := M mod 2 ^ k) in *.
  set (P := 2 ^ k) in *.
  assert (Hq1 : lo <= q) by nia.
  assert (Hq2 : q <= hi) by nia.
  destruct (Z.compare_spec (2 * r) P) as [E|E|E].
  - destruct (Z.even q); [lia|]. assert (q < hi) by nia. lia.
  - lia.
  - assert (q < hi) by nia. lia.
Qed.

Lemma shl_align_down (mx : positive) (ex ex' : Z) :
  ex' <= ex ->
  exists m' : positive,
    shl_align mx ex ex' = (m', ex') /\ Zpos m' = Zpos mx * 2 ^ (ex - ex').
Proof.
  intros H. unfold shl_align. destruct (ex' - ex) as [|p|p] eqn:E; try lia.
  - assert (ex' = ex) by lia. subst ex'. exists mx. split; [reflexivity|].
    rewrite Z.sub_diag. cbn. lia.
  - exists (Pos.iter xO mx p). split; [reflexivity|].
    rewrite iter_xO_spec. f_equal. f_equal. lia.
Qed.

Lemma shl_align_up (mx : positive) (ex ex' : Z) :
  ex <= ex' -> shl_align mx ex ex' = (mx, ex).
Proof.
  intros H. unfold shl_align. destruct (ex' - ex) as [|p|p] eqn:E; try lia;
    reflexivity.
Qed.

(** The float nearest to [M * 2^e], for a positive [M] of [D] binary
    digits, in the range of the normal numbers. *)
Lemma binary_normalize_round (M e D : Z) :
  2 ^ (D - 1) <= M < 2 ^ D -> 53 <= D ->
  -1074 <= D + e - 53 -> D + e - 52 <= 971 ->
  rne M (D - 53) < 2 ^ 53 ->
  binary_normalize 53 1024 M e false
  = S754_finite false (Z.to_pos (rne M (D - 53))) (e + (D - 53)).
Proof.
  intros Hb HD He1 He2 Hr.
  assert (HM : 0 < M).
  { assert (0 < 2 ^ (D - 1)) by (apply Z.pow_pos_nonneg; lia). lia. }
  destruct M as [|p|p]; try lia.
  cbn [binary_normalize]. unfold binary_round.
  rewrite (digits2_pos_unique p D Hb).
  rewrite shl_align_up by (unfold fexp, emin; lia).
  rewrite (binary_round_aux_spec (Zpos p) e D HM Hb HD He1 He2).
  destruct (Z.ltb_spec (rne (Zpos p) (D - 53)) (2 ^ 53)); [reflexivity|lia].
Qed.

Lemma binary_normalize_exact (M e D : Z) :
  2 ^ (D - 1) <= M < 2 ^ D -> 0 < D <= 53 ->
  -1074 <= D + e - 53 -> D + e - 52 <= 971 ->
  binary_normalize 53 1024 M e false
  = S754_finite false (Z.to_pos (M * 2 ^ (53 - D))) (e + D - 53).
Proof.
  intros Hb HD He1 He2.
  assert (HM : 0 < M).
  { assert (0 < 2 ^ (D - 1)) by (apply Z.pow_pos_nonneg; lia). lia. }
  destruct M as [|p|p]; try lia.
  cbn [binary_normalize]. unfold binary_round.
  rewrite (digits2_pos_unique p D Hb).
  destruct (shl_align_down p e (fexp 53 1024 (D + e))) as (m' & -> & Hm').
  { unfold fexp, emin. lia. }
  assert (Hf : fexp 53 1024 (D + e) = D + e - 53) by (unfold fexp, emin; lia).
  rewrite Hf in *.
  replace (e - (D + e - 53)) with (53 - D) in Hm' by lia.
  assert (Hpow : 0 < 2 ^ (53 - D)) by (apply Z.pow_pos_nonneg; lia).
  assert (Hm : 2 ^ (53 - 1) <= Zpos m' < 2 ^ 53).
  { rewrite Hm'.
    assert (Hlow : 2 ^ (53 - 1) = 2 ^ (D - 1) * 2 ^ (53 - D))
      by (rewrite <- Z.pow_add_r by lia; f_equal; lia).
    assert (Hhigh : 2 ^ 53 = 2 ^ D * 2 ^ (53 - D))
      by (rewrite <- Z.pow_add_r by lia; f_equal; lia).
    rewrite Hlow, Hhigh. split.
    - apply Z.mul_le_mono_nonneg_r; lia.
    - apply Z.mul_lt_mono_pos_r; lia. }
  rewrite (binary_round_aux_spec (Zpos m') (D + e - 53) 53); try lia.
  rewrite Z.sub_diag, rne_exact.
  destruct (Z.ltb_spec (Zpos m') (2 ^ 53)); [|lia].
  rewrite Z.add_0_r, <- Hm'. cbn [Z.to_pos]. f_equal. lia.
Qed.

(** The value of a positive finite float, counted in units of [2^-22]. *)
Lemma value_ticks (m : positive) (e lo hi : Z) :
  (inject_Z lo * (1 # 4194304) <= float_value (S754_finite false m e))%Q ->
  (float_value (S754_finite false m e) <= inject_Z hi * (1 # 4194304))%Q ->
  (-22 <= e -> lo <= Zpos m * 2 ^ (e + 22) <= hi) /\
  (e < -22 -> lo * 2 ^ (-22 - e) <= Zpos m <= hi * 2 ^ (-22 - e)).
Proof.
  cbn [float_value]. unfold Qle, Qmult, inject_Z. cbn [Qnum Qden].
  destruct e as [|p|p].
  - cbn. intros H1 H2. split; intros; lia.
  - cbn [Qnum Qden]. intros H1 H2. split; [intros _|lia].
    rewrite Z.pow_add_r by lia. change (2 ^ 22) with 4194304.
    change (Z.pos (1 * 4194304)) with 4194304 in *. lia.
  - cbn [Qnum Qden]. rewrite Pos2Z.inj_pow.
    change (Z.pos (1 * 4194304)) with 4194304.
    change (Zpos 2) with 2.
    assert (HP : 0 < 2 ^ Zpos p) by (apply Z.pow_pos_nonneg; lia).
    intros H1 H2. split; intros He.
    + assert (Hs : 2 ^ 22 = 2 ^ (Z.neg p + 22) * 2 ^ Zpos p)
        by (rewrite <- Z.pow_add_r by lia; f_equal; lia).
      change (2 ^ 22) with 4194304 in Hs.
      assert (0 < 2 ^ (Z.neg p + 22)) by (apply Z.pow_pos_nonneg; lia).
      nia.
    + assert (Hs : 2 ^ Zpos p = 2 ^ (-22 - Z.neg p) * 2 ^ 22)
        by (rewrite <- Z.pow_add_r by lia; f_equal; lia).
      change (2 ^ 22) with 4194304 in Hs.
      assert (0 < 2 ^ (-22 - Z.neg p)) by (apply Z.pow_pos_nonneg; lia).
      nia.
Qed.

Lemma value_negative (m : positive) (e : Z) :
  (float_value (S754_finite true m e) < 0)%Q.
Proof.
  cbn [float_value]. destruct e as [|p|p]; unfold Qlt, Qopp, inject_Z;
    cbn [Qnum Qden]; try lia.
  all: assert (0 < 2 ^ Zpos p) by (apply Z.pow_pos_nonneg; lia); nia.
Qed.

(** A clock reading in [2^30, 2^31) plus a duration that is not negative:
    the sum is rounded to a multiple of [2^-22], between the multiples
    that bound the duration. *)
Lemma add_time (mt : positive) (d : float) (lo hi : Z) :
  2 ^ 52 <= Zpos mt -> 0 <= lo -> Zpos mt + hi < 2 ^ 53 ->
  is_finite d = true ->
  (inject_Z lo * (1 # 4194304) <= float_value d)%Q ->
  (float_value d <= inject_Z hi * (1 # 4194304))%Q ->
  exists m' : positive,
    PyFloat.add (S754_finite false mt (-22)) d = S754_finite false m' (-22) /\
    Zpos mt + lo <= Zpos m' <= Zpos mt + hi.
Proof.
  intros Hmt Hlo Hhi Hfin H1 H2.
  destruct d as [s|s| |s md ed]; try discriminate.
  - exists mt. split; [reflexivity|].
    cbn [float_value] in H1, H2. unfold Qle, Qmult, inject_Z in H1, H2.
    cbn in H1, H2. lia.
  - destruct s.
    { exfalso. pose proof (value_negative md ed) as Hn.
      assert (H0 : (0 <= inject_Z lo * (1 # 4194304))%Q).
      { unfold Qle, Qmult, inject_Z. cbn. lia. }
      lra. }
    destruct (value_ticks md ed lo hi H1 H2) as [HA HB].
    unfold PyFloat.add, PyFloat.prec, PyFloat.emax, SFadd. cbn [cond_Zopp].
    destruct (Z.le_gt_cases (-22) ed) as [He|He].
    + specialize (HA He). clear HB.
      rewrite Z.min_l by lia.
      rewrite (shl_align_up mt (-22) (-22)) by lia.
      destruct (shl_align_down md ed (-22) He) as (m2 & -> & Hm2).
      cbn [fst]. replace (ed - -22) with (ed + 22) in Hm2 by lia.
      set (M := Zpos mt + Zpos m2).
      assert (HM : 2 ^ (53 - 1) <= M < 2 ^ 53) by (unfold M; cbn [Z.sub]; lia).
      rewrite (binary_normalize_round M (-22) 53 HM); try lia.
      * rewrite Z.sub_diag, rne_exact, Z.add_0_r.
        exists (Z.to_pos M). split; [reflexivity|].
        rewrite Z2Pos.id by lia. unfold M. lia.
      * rewrite Z.sub_diag, rne_exact. lia.
    + specialize (HB He). clear HA.
      rewrite Z.min_r by lia.
      destruct (shl_align_down mt (-22) ed ltac:(lia)) as (m1 & -> & Hm1).
      rewrite (shl_align_up md ed ed) by lia.
      cbn [fst]. set (k := -22 - ed) in *.
      assert (Hk : 0 < k) by (unfold k; lia).
      assert (HP : 0 < 2 ^ k) by (apply Z.pow_pos_nonneg; lia).
      set (M := Zpos m1 + Zpos md).
      assert (Hlo' : (Zpos mt + lo) * 2 ^ k <= M) by (unfold M; nia).
      assert (Hhi' : M <= (Zpos mt + hi) * 2 ^ k) by (unfold M; nia).
      assert (HM : 2 ^ (53 + k - 1) <= M < 2 ^ (53 + k)).
      { replace (53 + k - 1) with (52 + k) by lia.
        rewrite !Z.pow_add_r by lia. nia. }
      pose proof (rne_sandwich M k (Zpos mt + lo) (Zpos mt + hi)
                    ltac:(lia) Hlo' Hhi') as Hr.
      rewrite (binary_normalize_round M ed (53 + k) HM); try lia.
      * replace (53 + k - 53) with k by lia.
        replace (ed + k) with (-22) by (unfold k; lia).
        exists (Z.to_pos (rne M k)). split; [reflexivity|].
        rewrite Z2Pos.id by lia. exact Hr.
      * replace (53 + k - 53) with k by lia. lia.
Qed.

(** Two clock readings in [2^30, 2^31): their order, and their
    difference, which is exact. *)
Lemma ltb_time (m1 m2 : positive) :
  PyFloat.ltb (S754_finite false m1 (-22)) (S754_finite false m2 (-22))
  = Z.ltb (Zpos m1) (Zpos m2).
Proof.
  unfold PyFloat.ltb, SFltb, SFcompare, Z.ltb. cbn [Z.compare].
  change (Pos.compare_cont Eq m1 m2) with (Pos.compare m1 m2).
  reflexivity.
Qed.

Lemma binary_round_aux_not_above_zero (m e : Z) (l : location) :
  PyFloat.ltb PyFloat.zero (binary_round_aux 53 1024 true m e l) = false.
Proof.
  unfold binary_round_aux.
  destruct (shr_fexp 53 1024 m e l) as [mrs' e'].
  destruct (shr_fexp 53 1024 _ e' loc_Exact) as [mrs'' e''].
  destruct (shr_m mrs'') as [|p|p]; [reflexivity| |reflexivity].
  destruct (Z.leb e'' (1024 - 53)); reflexivity.
Qed.

Lemma sub_time (m1 m2 : positive) :
  2 ^ 52 <= Zpos m1 < 2 ^ 53 -> 2 ^ 52 <= Zpos m2 < 2 ^ 53 ->
  let delta :=
    PyFloat.sub (S754_finite false m1 (-22)) (S754_finite false m2 (-22)) in
  (Zpos m2 < Zpos m1 ->
   PyFloat.ltb PyFloat.zero delta = true /\
   is_finite delta = true /\
   (float_value delta == inject_Z (Zpos m1 - Zpos m2) * (1 # 4194304))%Q) /\
  (Zpos m1 <= Zpos m2 -> PyFloat.ltb PyFloat.zero delta = false).
Proof.
  intros H1 H2 delta. unfold delta, PyFloat.sub, PyFloat.prec, PyFloat.emax,
    SFsub. cbn [cond_Zopp].
  rewrite Z.min_id, !(shl_align_up _ (-22) (-22)) by lia. cbn [fst].
  split.
  - intros Hlt. set (M := Zpos m1 - Zpos m2).
    assert (HM : 0 < M < 2 ^ 52) by (unfold M; lia).
    pose proof (Z.log2_spec M ltac:(lia)) as Hb.
    assert (Hd : Z.log2 M < 52) by (apply Z.log2_lt_pow2; lia).
    pose proof (Z.log2_nonneg M) as Hd0.
    set (D := Z.succ (Z.log2 M)) in *.
    replace (Z.log2 M) with (D - 1) in Hb, Hd, Hd0 by (unfold D; lia).
    rewrite (binary_normalize_exact M (-22) D Hb); try lia.
    assert (Hpow : 0 < 2 ^ (53 - D)) by (apply Z.pow_pos_nonneg; lia).
    split; [reflexivity|]. split; [reflexivity|].
    cbn [float_value].
    destruct (-22 + D - 53) as [|p|p] eqn:E; try lia.
    unfold Qeq, Qmult, inject_Z. cbn [Qnum Qden].
    rewrite Pos2Z.inj_pow, Z2Pos.id by nia.
    change (Z.pos (1 * 4194304)) with (2 ^ 22). change (Zpos 2) with 2.
    assert (Hs : 2 ^ Zpos p = 2 ^ (53 - D) * 2 ^ 22)
      by (rewrite <- Z.pow_add_r by lia; f_equal; lia).
    rewrite Hs. ring.
  - intros Hle.
    destruct (Zpos m1 - Zpos m2) as [|p|p] eqn:E; try lia.
    + reflexivity.
    + cbn [binary_normalize]. unfold binary_round.
      destruct (shl_align p (-22) _) as [mz ez].
      apply binary_round_aux_not_above_zero.
Qed.

(** The offsets [k * interval] of the first ten ticks at 10 Hz, counted
    in units of [2^-22]; the tenth one is one second exactly. *)
Lemma offset_ticks (c : Z) :
  1 <= c <= 10 ->
  exists off,
    ClientPy.t_scale ClientPy.float_ops c tenth = OK off /\
    is_finite off = true /\
    (inject_Z (if Z.eqb c 10 then 4194304 else 0) * (1 # 4194304)
     <= float_value off)%Q /\
    (float_value off <= inject_Z (c * 419431) * (1 # 4194304))%Q.
Proof.
  intros Hc.
  assert (H : c = 1 \/ c = 2 \/ c = 3 \/ c = 4 \/ c = 5 \/ c = 6 \/ c = 7
              \/ c = 8 \/ c = 9 \/ c = 10) by lia.
  repeat (destruct H as [->|H]); [..|subst c];
    (eexists; split; [vm_compute; reflexivity|];
     split; [reflexivity|];
     split; apply Qle_bool_imp_le; vm_compute; reflexivity).
Qed.

Lemma end_time_ticks (ms : positive) :
  2 ^ 52 <= Zpos ms < 2 ^ 53 - 2 ^ 23 ->
  exists mE : positive,
    PyFloat.add (S754_finite false ms (-22)) (PyFloat.of_Z 1)
    = S754_finite false mE (-22) /\
    Zpos mE = Zpos ms + 4194304.
Proof.
  intros Hms.
  destruct (add_time ms (PyFloat.of_Z 1) 4194304 4194304) as (mE & HE & Hb);
    try lia; try reflexivity.
  - apply Qle_bool_imp_le. vm_compute. reflexivity.
  - apply Qle_bool_imp_le. vm_compute. reflexivity.
  - exists mE. split; [exact HE|lia].
Qed.

(** The publish loop at 10 Hz for one second, on floats: from a state
    that has published [10 - m] times and is not late by more than one
    interval and the lateness of one sleep, the loop ends normally, after
    9 or 10 publishes in all. *)
Lemma float_loop (w : ClientPy.World float) (ms : positive) :
  punctual w -> 2 ^ 52 <= Zpos ms < 2 ^ 53 - 2 ^ 23 ->
  forall (m fuel : nat) (s : ClientPy.loop float) (ma : positive),
    (m <= 10)%nat -> (m < fuel)%nat ->
    ClientPy.log_count s = 10 - Z.of_nat m ->
    ClientPy.now s = S754_finite false ma (-22) ->
    Zpos ms <= Zpos ma <= Zpos ms + (ClientPy.log_count s + 1) * 419431 ->
    (ClientPy.log_count s = 10 -> Zpos ms + 4194304 <= Zpos ma) ->
    length (ClientPy.latencies s) = Z.to_nat (ClientPy.log_count s) ->
    exists s',
      ClientPy.publish_loop ClientPy.float_ops w (S754_finite false ms (-22))
        (PyFloat.add (S754_finite false ms (-22)) (PyFloat.of_Z 1)) tenth
        fuel s
      = Some (OK tt, s') /\
      9 <= ClientPy.log_count s' <= 10 /\
      length (ClientPy.latencies s') = Z.to_nat (ClientPy.log_count s').
Proof.
  intros (Hlog & Hsleep) Hms.
  destruct (end_time_ticks ms Hms) as (mE & -> & HmE).
  induction m as [|m IH]; intros fuel s ma Hm Hf Hk Hnow Hinv Hlow Hlat;
    (destruct fuel as [|fuel]; [lia|]); cbn [ClientPy.publish_loop];
    cbn [ClientPy.t_ltb ClientPy.t_add ClientPy.t_sub ClientPy.t_pos
         ClientPy.float_ops];
    rewrite Hnow, ltb_time.
  - destruct (Z.ltb_spec (Zpos ma) (Zpos mE)) as [Hlt|Hge].
    + exfalso. specialize (Hlow ltac:(lia)). lia.
    + exists s. split; [reflexivity|]. split; [lia|exact Hlat].
  - set (c := ClientPy.log_count s) in *.
    destruct (Z.ltb_spec (Zpos ma) (Zpos mE)) as [Hlt|Hge].
    2:{ exists s. split; [reflexivity|]. fold c. split; [lia|exact Hlat]. }
    assert (Hregen : (Z.eqb (c mod ClientPy.regen_interval) 0 && Z.ltb 0 c)%bool
                     = false).
    { unfold ClientPy.regen_interval. apply andb_false_iff.
      destruct (Z.eq_dec c 0) as [->|]; [right; reflexivity|].
      left. apply Z.eqb_neq. rewrite Z.mod_small; lia. }
    rewrite Hregen.
    destruct (Hlog (Z.to_nat c)) as (elapsed & latency_ms & -> & Hef & He0 & He1).
    destruct (add_time ma elapsed 0 419431) as (m1 & -> & Hm1);
      try lia; try exact Hef.
    { change (inject_Z 0) with 0%Q. lra. }
    { change (inject_Z 419431) with 419431%Q. lra. }
    destruct (offset_ticks (c + 1) ltac:(lia)) as (off & -> & Hof & Ho0 & Ho1).
    destruct (add_time ms off (if Z.eqb (c + 1) 10 then 4194304 else 0)
                ((c + 1) * 419431)) as (mn & -> & Hmn);
      try lia; try assumption.
    { destruct (Z.eqb (c + 1) 10); lia. }
    assert (Hlo10 : c + 1 = 10 -> Zpos ms + 4194304 <= Zpos mn).
    { intros H10. rewrite H10 in Hmn. cbn in Hmn. lia. }
    assert (Hmn' : Zpos ms <= Zpos mn <= Zpos ms + (c + 1) * 419431).
    { destruct (Z.eqb (c + 1) 10); lia. }
    clear Hmn.
    destruct (sub_time mn m1 ltac:(lia) ltac:(lia)) as [Hpos Hnpos].
    destruct (Z.lt_ge_cases (Zpos m1) (Zpos mn)) as [Hsl|Hns].
    + destruct (Hpos Hsl) as (-> & Hdf & Hdv).
      set (delta := PyFloat.sub (S754_finite false mn (-22))
                      (S754_finite false m1 (-22))) in *.
      assert (Hd0 : (0 < inject_Z (Zpos mn - Zpos m1))%Q).
      { change 0%Q with (inject_Z 0). rewrite <- Zlt_Qlt. lia. }
      destruct (Hsleep (Z.to_nat c) delta Hdf) as (Hsf & Hs0 & Hs1).
      { rewrite Hdv. lra. }
      destruct (add_time m1 (ClientPy.sleep w (Z.to_nat c) delta)
                  (Zpos mn - Zpos m1) (Zpos mn - Zpos m1 + 419431))
        as (m' & -> & Hm'); try lia; try exact Hsf.
      { rewrite <- Hdv. exact Hs0. }
      { rewrite inject_Z_plus. change (inject_Z 419431) with 419431%Q.
        rewrite Hdv in Hs1. lra. }
      apply (IH fuel _ m'); cbn [ClientPy.log_count ClientPy.now
                                 ClientPy.latencies]; try lia; try reflexivity.
      rewrite length_app, Hlat. cbn [length]. lia.
    + rewrite (Hnpos Hns).
      apply (IH fuel _ m1); cbn [ClientPy.log_count ClientPy.now
                                 ClientPy.latencies]; try lia; try reflexivity.
      rewrite length_app, Hlat. cbn [length]. lia.
Qed.

(** C8, as stated, fails: the count does depend on the latency of the
    calls.  With frequency 10 and duration 1, a client whose every
    [rr.log] takes half a second publishes twice. *)
Lemma slow_publish_count :
  exists m s,
    ClientPy.main example_int_of_str slow_publish 100
      "rerun+http://127.0.0.1:9876/proxy" "text" "16"
      (PyFloat.of_Z 10) (PyFloat.of_Z 1)
      "/tmp/bench/client_0_metrics.json" "client_0"
    = Some (ClientPy.mk_outcome (OK tt)
              [("/tmp/bench/client_0_metrics.json", m)] (Some s)) /\
    ClientMetrics.errors m = [] /\
    ClientMetrics.log_count m = 2 /\
    ~ (9 <= ClientMetrics.log_count m <= 11).
Proof.
  eexists _, _. split; [vm_compute; reflexivity|].
  split; [reflexivity|]. split; [reflexivity|]. cbn. lia.
Qed.

(** Both counts of the band are reached: 10 publishes when the calls take
    no time and the sleeps last as long as asked, 9 when every sleep
    lasts just under a tenth of a second longer. *)
Lemma pacing_band_attained :
  (exists m s,
     ClientPy.main example_int_of_str steady_world 100
       "rerun+http://127.0.0.1:9876/proxy" "text" "16"
       (PyFloat.of_Z 10) (PyFloat.of_Z 1)
       "/tmp/bench/client_0_metrics.json" "client_0"
     = Some (ClientPy.mk_outcome (OK tt)
               [("/tmp/bench/client_0_metrics.json", m)] (Some s)) /\
     ClientMetrics.log_count m = 10) /\
  (exists m s,
     ClientPy.main example_int_of_str late_sleep_world 100
       "rerun+http://127.0.0.1:9876/proxy" "text" "16"
       (PyFloat.of_Z 10) (PyFloat.of_Z 1)
       "/tmp/bench/client_0_metrics.json" "client_0"
     = Some (ClientPy.mk_outcome (OK tt)
               [("/tmp/bench/client_0_metrics.json", m)] (Some s)) /\
     ClientMetrics.log_count m = 9).
Proof.
  split; eexists _, _; (split; [vm_compute; reflexivity|reflexivity]).
Qed.

(** C8, amended: every tick of the publish loop targets
    [start_time + k * interval] for its iteration number [k] and sleeps
    the remaining delta to that target, only when it is positive (no
    sleep duration is carried from one tick to the next), and a loop that
    ends normally ends because the clock has reached [end_time]; and with
    frequency 10 and duration 1, on the floats of the code, for a start
    time from [2^30] up to [2^31 - 2] seconds, when every publish returns
    within a tenth of a second and every sleep lasts at least as long as
    asked and at most a tenth of a second longer, [main] ends normally
    and saves a count of 9 or 10 publishes, with as many latencies. *)
Theorem absolute_schedule_pacing :
  (forall (w : ClientPy.World float) (start_time end_time interval : float)
          (fuel : nat) (r : result unit) (s : ClientPy.loop float),
     ClientPy.publish_loop ClientPy.float_ops w start_time end_time interval
       fuel (ClientPy.mk_loop start_time 0 [] []) = Some (r, s) ->
     Forall (on_schedule ClientPy.float_ops start_time interval)
            (ClientPy.ticks s) /\
     (r = OK tt ->
      in_step s /\
      ClientPy.t_ltb ClientPy.float_ops (ClientPy.now s) end_time = false)) /\
  (forall (int_of_str : string -> result Z) (w : ClientPy.World float)
          (fuel : nat) (server data_type size metrics_file client_id : string)
          (n : Z),
     int_of_str size = OK n ->
     ClientPy.connect w = OK tt ->
     ClientPy.generate_data w 0 = OK tt ->
     in_epoch (ClientPy.time_after_settle w) ->
     punctual w ->
     (10 < fuel)%nat ->
     exists m s,
       ClientPy.main int_of_str w fuel server data_type size
         (PyFloat.of_Z 10) (PyFloat.of_Z 1) metrics_file client_id
       = Some (ClientPy.mk_outcome (OK tt) [(metrics_file, m)] (Some s)) /\
       ClientMetrics.errors m = [] /\
       9 <= ClientMetrics.log_count m <= 10 /\
       length (ClientMetrics.latencies_ms m)
       = Z.to_nat (ClientMetrics.log_count m)).
Proof.
  split.
  - intros w st et iv fuel r s Hloop.
    destruct (publish_loop_schedule ClientPy.float_ops w st et iv fuel _ _ _ Hloop)
      as (H1 & H2 & H3); [constructor|].
    split; [exact H1|]. intros Hr. split; [|exact (H2 Hr)].
    apply (H3 Hr). repeat split; reflexivity.
  - intros int_of_str w fuel server data_type size metrics_file client_id n
      Hsize Hconnect Hgen (ms & Hstart & Hms) Hp Hf.
    destruct (float_loop w ms Hp Hms 10 fuel
                (@ClientPy.mk_loop PyFloat.float (S754_finite false ms (-22))
                   0 [] []) ms)
      as (s' & Hloop & Hc & Hl);
      cbn [ClientPy.log_count ClientPy.now ClientPy.latencies];
      try lia; try reflexivity.
    unfold ClientPy.main. rewrite Hsize, Hconnect, Hgen, Hstart.
    change (PyFloat.truediv (PyFloat.of_Z 1) (PyFloat.of_Z 10)) with (OK tenth).
    cbv zeta.
    destruct (String.eqb data_type "image" && ClientPy.has_x size)%bool;
      cbn [Py.bind]; eexists _, _;
      (split; [rewrite Hloop; reflexivity|]);
      cbn [ClientPy.on_completion ClientPy.with_times ClientMetrics.errors
           ClientMetrics.log_count ClientMetrics.latencies_ms];
      (split; [reflexivity|]); (split; [exact Hc|exact Hl]).
Qed.

Lemma steady_world_punctual : punctual steady_world.
Proof.
  split.
  - intros k. exists PyFloat.zero, half. split; [reflexivity|].
    split; [reflexivity|]. cbn [float_value PyFloat.zero]. split; lra.
  - intros k d Hfin Hd. cbn [ClientPy.sleep steady_world].
    split; [exact Hfin|]. split; lra.
Qed.

Lemma absolute_schedule_pacing_witness :
  exists m s,
    ClientPy.main example_int_of_str steady_world 11
      "rerun+http://127.0.0.1:9876/proxy" "text" "16"
      (PyFloat.of_Z 10) (PyFloat.of_Z 1)
      "/tmp/bench/client_0_metrics.json" "client_0"
    = Some (ClientPy.mk_outcome (OK tt)
              [("/tmp/bench/client_0_metrics.json", m)] (Some s)) /\
    9 <= ClientMetrics.log_count m <= 10.
Proof.
  destruct absolute_schedule_pacing as [_ H].
  destruct (H example_int_of_str steady_world 11%nat
              "rerun+http://127.0.0.1:9876/proxy" "text" "16"
              "/tmp/bench/client_0_metrics.json" "client_0" 16)
    as (m & s & Hmain & _ & Hc & _).
  - reflexivity.
  - reflexivity.
  - reflexivity.
  - exists 7391262906777600%positive. split; [reflexivity|lia].
  - exact steady_world_punctual.
  - lia.
  - exists m, s. split; [exact Hmain|exact Hc].
Defined.
(* ===================================================================== *)
(** * Further properties *)
(* ===================================================================== *)

(** ** bench/metrics.py: one metrics document per file *)

(** X1: when [save_client_metrics] has written a client's metrics,
    [load_client_metrics] of the same path gives the record back, and
    what any other path loads is unchanged. *)
Theorem client_metrics_file_roundtrip (statistics : Statistics)
    (m : ClientMetrics.t) (path : string) (fs fs' : gmap string Json.t) :
  save_client_metrics statistics m path fs = OK fs' ->
  load_client_metrics fs' path = OK m /\
  (forall other, other <> path ->
     load_client_metrics fs' other = load_client_metrics fs other).
Proof.
  unfold save_client_metrics.
  destruct (ClientMetrics.to_dict statistics m) as [doc|e] eqn:Hd;
    [|discriminate].
  cbn [Py.bind]. intros [= <-]. split.
  - unfold load_client_metrics. rewrite lookup_insert_eq.
    apply (client_metrics_roundtrip statistics m doc Hd).
  - intros other Hne. unfold load_client_metrics.
    rewrite lookup_insert_ne by congruence. reflexivity.
Qed.

Lemma client_metrics_file_roundtrip_witness :
  exists fs',
    save_client_metrics example_statistics ten_in_two_seconds
      "/tmp/bench/client_0_metrics.json" ∅ = OK fs' /\
    load_client_metrics fs' "/tmp/bench/client_0_metrics.json"
    = OK ten_in_two_seconds.
Proof.
  pose proof (client_metrics_file_roundtrip example_statistics
                ten_in_two_seconds "/tmp/bench/client_0_metrics.json" ∅) as H.
  unfold save_client_metrics in *.
  destruct (ClientMetrics.to_dict example_statistics ten_in_two_seconds)
    as [doc|e] eqn:E; [|vm_compute in E; discriminate].
  cbn [Py.bind] in *.
  eexists. split; [reflexivity|].
  destruct (H _ eq_refl) as [Hl _]. exact Hl.
Defined.

(** X2: [load_server_metrics] gives back what [save_server_metrics] wrote
    at that path; a second save at the same path replaces the first; and
    what any other path loads is unchanged. *)
Theorem server_metrics_file_roundtrip (statistics : Statistics)
    (sm sm' : ServerMetrics.t) (path : string) (fs : gmap string Json.t) :
  load_server_metrics (save_server_metrics statistics sm path fs) path = OK sm /\
  load_server_metrics
    (save_server_metrics statistics sm' path
       (save_server_metrics statistics sm path fs)) path = OK sm' /\
  (forall other, other <> path ->
     load_server_metrics (save_server_metrics statistics sm path fs) other
     = load_server_metrics fs other).
Proof.
  unfold load_server_metrics, save_server_metrics.
  rewrite !lookup_insert_eq.
  split; [apply server_metrics_roundtrip|].
  split; [apply server_metrics_roundtrip|].
  intros other Hne. rewrite lookup_insert_ne by congruence. reflexivity.
Qed.

Lemma server_metrics_file_roundtrip_witness :
  load_server_metrics
    (save_server_metrics example_statistics ServerMetrics.default
       "server_metrics.json" ∅) "client_0_metrics.json"
  = load_server_metrics ∅ "client_0_metrics.json".
Proof.
  destruct (server_metrics_file_roundtrip example_statistics
              ServerMetrics.default ServerMetrics.default
              "server_metrics.json" ∅) as (_ & _ & H).
  apply H. discriminate.
Defined.

(** ** bench/metrics.py: what [from_dict] and [load] read *)

Lemma get_skip (k key : string) (v : Json.t) (d1 d2 : list (string * Json.t)) :
  k <> key -> Json.get (d1 ++ (k, v) :: d2) key = Json.get (d1 ++ d2) key.
Proof.
  intros Hne. induction d1 as [|[k' v'] d1 IH]; simpl.
  - destruct (String.eqb_spec k key); [congruence|reflexivity].
  - rewrite IH. reflexivity.
Qed.

Lemma get_default_skip (k key : string) (v dflt : Json.t)
    (d1 d2 : list (string * Json.t)) :
  k <> key ->
  Json.get_default (d1 ++ (k, v) :: d2) key dflt
  = Json.get_default (d1 ++ d2) key dflt.
Proof.
  intros Hne. unfold Json.get_default. rewrite get_skip by exact Hne.
  reflexivity.
Qed.

(** X3: a key that is not a field of the record does not change what
    [from_dict] builds, wherever it stands in the document: the derived
    values that [to_dict] writes (peak, mean, p99, throughput, ...) are
    never read back. *)
Theorem from_dict_ignores_other_keys (k : string) (v : Json.t)
    (d1 d2 : list (string * Json.t)) :
  (~ In k client_fields ->
   ClientMetrics.from_dict (d1 ++ (k, v) :: d2)
   = ClientMetrics.from_dict (d1 ++ d2)) /\
  (~ In k server_fields ->
   ServerMetrics.from_dict (d1 ++ (k, v) :: d2)
   = ServerMetrics.from_dict (d1 ++ d2)).
Proof.
  split; intros Hk.
  - unfold ClientMetrics.from_dict.
    rewrite !get_default_skip
      by (intros ->; apply Hk; unfold client_fields; simpl; tauto).
    reflexivity.
  - unfold ServerMetrics.from_dict.
    rewrite !get_default_skip
      by (intros ->; apply Hk; unfold server_fields; simpl; tauto).
    reflexivity.
Qed.

Lemma from_dict_ignores_other_keys_witness :
  ClientMetrics.from_dict
    [("client_id", Json.Str "client_0"); ("throughput", Json.Float PyFloat.zero)]
  = ClientMetrics.from_dict [("client_id", Json.Str "client_0")].
Proof.
  destruct (from_dict_ignores_other_keys "throughput" (Json.Float PyFloat.zero)
              [("client_id", Json.Str "client_0")] []) as [H _].
  apply H. unfold client_fields. simpl.
  intros [H0|[H0|[H0|[H0|[H0|[H0|[H0|[H0|[H0|[]]]]]]]]]]; discriminate.
Defined.

(** X4: [BenchmarkResult.load] raises FileNotFoundError when the path
    holds no file and KeyError when the document has no ["name"]; a
    document that holds only the three required keys loads, every other
    field taking its default. *)
Theorem load_required_keys (fs : gmap string Json.t) (path : string) :
  (fs !! path = None ->
   BenchmarkResult.load fs path = Raise (FileNotFoundError path)) /\
  (forall data, fs !! path = Some (Json.Dict data) ->
     Json.get data "name" = None ->
     BenchmarkResult.load fs path = Raise (KeyError "name")) /\
  (forall nm bt ts,
     fs !! path
     = Some (Json.Dict [ ("name", Json.Str nm); ("backend_type", Json.Str bt);
                         ("timestamp", Json.Str ts) ]) ->
     BenchmarkResult.load fs path
     = OK (BenchmarkResult.mk nm "" bt ts ServerMetrics.default [] [])).
Proof.
  unfold BenchmarkResult.load. split; [|split].
  - intros ->. reflexivity.
  - intros data -> Hn. cbn [Json.as_dict Py.bind]. unfold Json.item.
    rewrite Hn. reflexivity.
  - intros nm bt ts ->. reflexivity.
Qed.

Lemma load_required_keys_witness :
  BenchmarkResult.load
    {[ "r.json" := Json.Dict [ ("name", Json.Str "run");
                               ("backend_type", Json.Str "rerun");
                               ("timestamp", Json.Str "2026-01-01T00:00:00") ] ]}
    "r.json"
  = OK (BenchmarkResult.mk "run" "" "rerun" "2026-01-01T00:00:00"
          ServerMetrics.default [] []).
Proof.
  destruct (load_required_keys
              {[ "r.json" := Json.Dict [ ("name", Json.Str "run");
                                         ("backend_type", Json.Str "rerun");
                                         ("timestamp", Json.Str "2026-01-01T00:00:00") ] ]}
              "r.json") as (_ & _ & H).
  apply H. apply lookup_singleton_eq.
Defined.

(** ** bench/metrics.py: the order statistics *)

Lemma le_refl (x : float) : not_nan x -> le x x.
Proof.
  unfold not_nan, le, PyFloat.leb, SFleb.
  destruct x as [s|s| |s m e]; simpl; try discriminate; intros _.
  - reflexivity.
  - destruct s; reflexivity.
  - change (Pos.compare_cont Eq m m) with (Pos.compare m m).
    destruct s; rewrite Z.compare_refl, Pos.compare_refl; reflexivity.
Qed.

Lemma le_trans (x y z : float) : le x y -> le y z -> le x z.
Proof.
  unfold le, PyFloat.leb, SFleb.
  destruct x as [sx|sx| |sx mx ex], y as [sy|sy| |sy my ey],
           z as [sz|sz| |sz mz ez];
    simpl; try discriminate; try reflexivity;
    repeat match goal with s : bool |- _ => destruct s end;
    simpl; try discriminate; try reflexivity; try (intros; assumption);
    repeat match goal with
           | |- context [Pos.compare_cont Eq ?a ?b] =>
               change (Pos.compare_cont Eq a b) with (Pos.compare a b)
           end;
    destruct (Z.compare_spec ex ey), (Z.compare_spec ey ez),
             (Z.compare_spec ex ez);
    subst; try lia; simpl; try discriminate; try reflexivity;
    try (intros; assumption);
    destruct (Pos.compare_spec mx my), (Pos.compare_spec my mz),
             (Pos.compare_spec mx mz);
    subst; try lia; simpl; try discriminate; try reflexivity.
Qed.

Lemma le_not_nan (x y : float) : le x y -> not_nan x /\ not_nan y.
Proof.
  unfold le, not_nan, PyFloat.leb, SFleb.
  destruct x, y; simpl; try discriminate; auto.
Qed.

(** [max] returns an item of its arguments, and one no item exceeds. *)
Lemma max_spec (l : list float) (x : float) :
  In (Builtins.max x l) (x :: l) /\
  (Forall not_nan (x :: l) ->
   forall y, In y (x :: l) -> le y (Builtins.max x l)).
Proof.
  revert x. induction l as [|y l IH]; intros x.
  - split; [left; reflexivity|].
    intros Hn z [<-|[]]. apply le_refl. inversion Hn; assumption.
  - change (Builtins.max x (y :: l))
      with (Builtins.max (if PyFloat.ltb x y then y else x) l).
    destruct (IH (if PyFloat.ltb x y then y else x)) as [Hin Hub].
    split.
    + destruct Hin as [Hin|Hin]; [|right; right; exact Hin].
      rewrite <- Hin. destruct (PyFloat.ltb x y); [right; left|left]; reflexivity.
    + intros Hn z Hz.
      inversion Hn as [|? ? Hx Hn']; subst.
      inversion Hn' as [|? ? Hy Hl]; subst.
      assert (Hn'' : Forall not_nan ((if PyFloat.ltb x y then y else x) :: l))
        by (constructor; [destruct (PyFloat.ltb x y); assumption|exact Hl]).
      specialize (Hub Hn'').
      assert (Hx' : le x (if PyFloat.ltb x y then y else x)).
      { destruct (PyFloat.ltb x y) eqn:E;
          [apply ltb_true_leb, E|apply le_refl, Hx]. }
      assert (Hy' : le y (if PyFloat.ltb x y then y else x)).
      { destruct (PyFloat.ltb x y) eqn:E;
          [apply le_refl, Hy|apply ltb_false_leb; assumption]. }
      destruct Hz as [<-|[<-|Hz]].
      * eapply le_trans; [exact Hx'|]. apply Hub. left. reflexivity.
      * eapply le_trans; [exact Hy'|]. apply Hub. left. reflexivity.
      * apply Hub. right. exact Hz.
Qed.

(** [min] returns an item of its arguments, and one that exceeds none. *)
Lemma min_spec (l : list float) (x : float) :
  In (Builtins.min x l) (x :: l) /\
  (Forall not_nan (x :: l) ->
   forall y, In y (x :: l) -> le (Builtins.min x l) y).
Proof.
  revert x. induction l as [|y l IH]; intros x.
  - split; [left; reflexivity|].
    intros Hn z [<-|[]]. apply le_refl. inversion Hn; assumption.
  - change (Builtins.min x (y :: l))
      with (Builtins.min (if PyFloat.ltb y x then y else x) l).
    destruct (IH (if PyFloat.ltb y x then y else x)) as [Hin Hlb].
    split.
    + destruct Hin as [Hin|Hin]; [|right; right; exact Hin].
      rewrite <- Hin. destruct (PyFloat.ltb y x); [right; left|left]; reflexivity.
    + intros Hn z Hz.
      inversion Hn as [|? ? Hx Hn']; subst.
      inversion Hn' as [|? ? Hy Hl]; subst.
      assert (Hn'' : Forall not_nan ((if PyFloat.ltb y x then y else x) :: l))
        by (constructor; [destruct (PyFloat.ltb y x); assumption|exact Hl]).
      specialize (Hlb Hn'').
      assert (Hx' : le (if PyFloat.ltb y x then y else x) x).
      { destruct (PyFloat.ltb y x) eqn:E;
          [apply ltb_true_leb, E|apply le_refl, Hx]. }
      assert (Hy' : le (if PyFloat.ltb y x then y else x) y).
      { destruct (PyFloat.ltb y x) eqn:E;
          [apply le_refl, Hy|apply ltb_false_leb; assumption]. }
      destruct Hz as [<-|[<-|Hz]].
      * eapply le_trans; [|exact Hx']. apply Hlb. left. reflexivity.
      * eapply le_trans; [|exact Hy']. apply Hlb. left. reflexivity.
      * apply Hlb. right. exact Hz.
Qed.

Lemma p99_of_In (l : list float) : l <> [] -> In (ClientMetrics.p99_of l) l.
Proof.
  intros Hne. unfold ClientMetrics.p99_of.
  eapply Permutation_in; [symmetry; apply sorted_Permutation|].
  apply nth_In. rewrite sorted_length.
  destruct l; [congruence|simpl; lia].
Qed.

(** X5: on a non-empty series, the maximum, the minimum and the p99 are
    items of the series; when the series holds no NaN, the minimum is
    below and the maximum above every item, so that
    min <= p99 <= max. *)
Theorem latency_order_statistics (m : ClientMetrics.t) :
  let l := ClientMetrics.latencies_ms m in
  l <> [] ->
  In (ClientMetrics.latency_min_ms m) l /\
  In (ClientMetrics.latency_p99_ms m) l /\
  In (ClientMetrics.latency_max_ms m) l /\
  (Forall not_nan l ->
   (forall x, In x l ->
      le (ClientMetrics.latency_min_ms m) x /\
      le x (ClientMetrics.latency_max_ms m)) /\
   le (ClientMetrics.latency_min_ms m) (ClientMetrics.latency_p99_ms m) /\
   le (ClientMetrics.latency_p99_ms m) (ClientMetrics.latency_max_ms m)).
Proof.
  intros l Hne.
  unfold ClientMetrics.latency_min_ms, ClientMetrics.latency_max_ms,
    ClientMetrics.latency_p99_ms. fold l.
  destruct l as [|x l'] eqn:El; [congruence|].
  destruct (min_spec l' x) as [Hmin Hlb].
  destruct (max_spec l' x) as [Hmax Hub].
  pose proof (p99_of_In (x :: l') Hne) as Hp.
  split; [exact Hmin|]. split; [exact Hp|]. split; [exact Hmax|].
  intros Hn. split; [|split].
  - intros y Hy. split; [apply Hlb|apply Hub]; assumption.
  - apply Hlb; assumption.
  - apply Hub; assumption.
Qed.

Lemma latency_order_statistics_witness :
  le (ClientMetrics.latency_min_ms
        (with_latencies [PyFloat.of_Z 3; PyFloat.of_Z 1; PyFloat.of_Z 2]))
     (ClientMetrics.latency_p99_ms
        (with_latencies [PyFloat.of_Z 3; PyFloat.of_Z 1; PyFloat.of_Z 2])) /\
  le (ClientMetrics.latency_p99_ms
        (with_latencies [PyFloat.of_Z 3; PyFloat.of_Z 1; PyFloat.of_Z 2]))
     (ClientMetrics.latency_max_ms
        (with_latencies [PyFloat.of_Z 3; PyFloat.of_Z 1; PyFloat.of_Z 2])).
Proof.
  destruct (latency_order_statistics
              (with_latencies [PyFloat.of_Z 3; PyFloat.of_Z 1; PyFloat.of_Z 2]))
    as (_ & _ & _ & H); [discriminate|].
  destruct H as (_ & H1 & H2); [repeat constructor|].
  split; assumption.
Defined.

(** X6: the peak memory is 0.0 without samples; otherwise it is the
    reading of one of the samples, and, the readings holding no NaN, no
    sample reads more. *)
Theorem memory_peak_is_maximum (sm : ServerMetrics.t) :
  (ServerMetrics.memory_samples sm = [] ->
   ServerMetrics.memory_peak_mb sm = PyFloat.zero) /\
  (ServerMetrics.memory_samples sm <> [] ->
   exists s, In s (ServerMetrics.memory_samples sm) /\
     MemorySample.memory_mb s = ServerMetrics.memory_peak_mb sm) /\
  (Forall (fun s => not_nan (MemorySample.memory_mb s))
          (ServerMetrics.memory_samples sm) ->
   forall s, In s (ServerMetrics.memory_samples sm) ->
     le (MemorySample.memory_mb s) (ServerMetrics.memory_peak_mb sm)).
Proof.
  unfold ServerMetrics.memory_peak_mb.
  destruct (ServerMetrics.memory_samples sm) as [|s0 rest] eqn:E.
  - split; [reflexivity|]. split; [congruence|]. intros _ s [].
  - cbn [map].
    destruct (max_spec (map MemorySample.memory_mb rest)
                (MemorySample.memory_mb s0)) as [Hin Hub].
    split; [discriminate|]. split.
    + intros _. change (In (Builtins.max (MemorySample.memory_mb s0)
                              (map MemorySample.memory_mb rest))
                           (map MemorySample.memory_mb (s0 :: rest))) in Hin.
      apply in_map_iff in Hin. destruct Hin as (s & Hs & Hin).
      exists s. split; assumption.
    + intros Hn s Hs. apply Hub.
      * change (Forall not_nan (map MemorySample.memory_mb (s0 :: rest))).
        apply Forall_map. exact Hn.
      * change (In (MemorySample.memory_mb s)
                   (map MemorySample.memory_mb (s0 :: rest))).
        apply in_map. exact Hs.
Qed.

Lemma memory_peak_is_maximum_witness :
  le (PyFloat.of_Z 1)
     (ServerMetrics.memory_peak_mb
        (ServerMetrics.mk
           [MemorySample.mk PyFloat.zero (PyFloat.of_Z 1);
            MemorySample.mk (PyFloat.of_Z 1) (PyFloat.of_Z 2)]
           PyFloat.zero PyFloat.zero PyFloat.zero)).
Proof.
  destruct (memory_peak_is_maximum
              (ServerMetrics.mk
                 [MemorySample.mk PyFloat.zero (PyFloat.of_Z 1);
                  MemorySample.mk (PyFloat.of_Z 1) (PyFloat.of_Z 2)]
                 PyFloat.zero PyFloat.zero PyFloat.zero)) as (_ & _ & H).
  apply (H ltac:(repeat constructor)
           (MemorySample.mk PyFloat.zero (PyFloat.of_Z 1))).
  left. reflexivity.
Defined.

(** ** bench/metrics.py: the aggregate *)

(** X7: the aggregate of a single client carries that client's own
    count and latency statistics, and its throughput added to 0.0. *)
Theorem aggregate_of_one_client (statistics : Statistics)
    (c : ClientMetrics.t) (a : AggregatedClientMetrics.t) :
  AggregatedClientMetrics.from_clients statistics [c] = OK a ->
  AggregatedClientMetrics.client_count a = 1 /\
  AggregatedClientMetrics.total_log_count a = ClientMetrics.log_count c /\
  (exists th, ClientMetrics.throughput c = OK th /\
     AggregatedClientMetrics.total_throughput a = PyFloat.add PyFloat.zero th) /\
  AggregatedClientMetrics.latency_mean_ms a
  = ClientMetrics.latency_mean_ms statistics c /\
  AggregatedClientMetrics.latency_p50_ms a
  = ClientMetrics.latency_p50_ms statistics c /\
  AggregatedClientMetrics.latency_p99_ms a = ClientMetrics.latency_p99_ms c /\
  AggregatedClientMetrics.latency_max_ms a = ClientMetrics.latency_max_ms c /\
  AggregatedClientMetrics.latency_min_ms a = ClientMetrics.latency_min_ms c.
Proof.
  unfold AggregatedClientMetrics.from_clients.
  cbn [AggregatedClientMetrics.accumulate
       AggregatedClientMetrics.all_latencies
       AggregatedClientMetrics.acc_log_count
       AggregatedClientMetrics.acc_throughput app].
  destruct (ClientMetrics.throughput c) as [th|e]; [|discriminate].
  cbn [Py.bind AggregatedClientMetrics.all_latencies
       AggregatedClientMetrics.acc_log_count
       AggregatedClientMetrics.acc_throughput
       AggregatedClientMetrics.total_log_count
       AggregatedClientMetrics.total_throughput
       AggregatedClientMetrics.client_count length].
  unfold ClientMetrics.latency_mean_ms, ClientMetrics.latency_p50_ms,
    ClientMetrics.latency_p99_ms, ClientMetrics.latency_max_ms,
    ClientMetrics.latency_min_ms.
  destruct (ClientMetrics.latencies_ms c) as [|x l]; intros [= <-];
    cbn [AggregatedClientMetrics.total_log_count
         AggregatedClientMetrics.total_throughput
         AggregatedClientMetrics.client_count
         AggregatedClientMetrics.latency_mean_ms
         AggregatedClientMetrics.latency_p50_ms
         AggregatedClientMetrics.latency_p99_ms
         AggregatedClientMetrics.latency_max_ms
         AggregatedClientMetrics.latency_min_ms];
    (split; [reflexivity|]); (split; [reflexivity|]);
    (split; [exists th; split; reflexivity|]);
    repeat split; reflexivity.
Qed.

Lemma aggregate_of_one_client_witness :
  exists a,
    AggregatedClientMetrics.from_clients example_statistics [ten_in_two_seconds]
    = OK a /\
    AggregatedClientMetrics.total_log_count a = 10 /\
    AggregatedClientMetrics.client_count a = 1.
Proof.
  destruct (AggregatedClientMetrics.from_clients example_statistics
              [ten_in_two_seconds]) as [a|e] eqn:E;
    [|vm_compute in E; discriminate].
  exists a. split; [reflexivity|].
  destruct (aggregate_of_one_client example_statistics ten_in_two_seconds a E)
    as (Hc & Hl & _).
  split; [exact Hl|exact Hc].
Defined.

Lemma mapM_OK_Forall {A B : Type} (f : A -> result B) (l : list A) :
  (exists bs, mapM f l = OK bs) <-> Forall (fun a => exists b, f a = OK b) l.
Proof.
  induction l as [|a l IH]; simpl.
  - split; [constructor|eexists; reflexivity].
  - split.
    + intros [bs H]. destruct (f a) as [b|e] eqn:Ha; [|discriminate].
      simpl in H. destruct (mapM f l) as [bs'|e] eqn:Hl; [|discriminate].
      constructor; [exists b; exact Ha|]. apply IH. eexists; reflexivity.
    + intros H. inversion H as [|? ? [b Hb] Hl]; subst.
      apply IH in Hl. destruct Hl as [bs ->]. rewrite Hb.
      eexists. reflexivity.
Qed.

Lemma sum_Permutation (l l' : list Z) :
  Permutation l l' -> fold_right Z.add 0 l = fold_right Z.add 0 l'.
Proof.
  induction 1; simpl; lia.
Qed.

(** The counts of an aggregate, and when it exists. *)
Lemma from_clients_counts (statistics : Statistics)
    (clients : list ClientMetrics.t) :
  (forall a, AggregatedClientMetrics.from_clients statistics clients = OK a ->
     AggregatedClientMetrics.total_log_count a
     = fold_right Z.add 0 (map ClientMetrics.log_count clients) /\
     AggregatedClientMetrics.client_count a = Z.of_nat (length clients)) /\
  ((exists a, AggregatedClientMetrics.from_clients statistics clients = OK a) <->
   Forall (fun c => exists th, ClientMetrics.throughput c = OK th) clients).
Proof.
  destruct clients as [|c cs].
  - split; [intros a [= <-]; split; reflexivity|].
    split; [constructor|eexists; reflexivity].
  - rewrite <- mapM_OK_Forall.
    unfold AggregatedClientMetrics.from_clients.
    rewrite accumulate_sums.
    destruct (mapM ClientMetrics.throughput (c :: cs)) as [ths|e].
    + cbn [Py.bind AggregatedClientMetrics.all_latencies
           AggregatedClientMetrics.acc_log_count
           AggregatedClientMetrics.acc_throughput app].
      split.
      * intros a.
        destruct (concat (map ClientMetrics.latencies_ms (c :: cs)));
          intros [= <-]; split; reflexivity.
      * split; [eexists; reflexivity|].
        intros _.
        destruct (concat (map ClientMetrics.latencies_ms (c :: cs)));
          eexists; reflexivity.
    + cbn [Py.bind]. split; [discriminate|].
      split; intros [x Hx]; discriminate.
Qed.

(** X8: the order of the clients does not change whether the aggregate
    exists, nor its [total_log_count] and [client_count]. *)
Theorem aggregate_counts_order (statistics : Statistics)
    (clients clients' : list ClientMetrics.t) (a : AggregatedClientMetrics.t) :
  Permutation clients clients' ->
  AggregatedClientMetrics.from_clients statistics clients = OK a ->
  exists a',
    AggregatedClientMetrics.from_clients statistics clients' = OK a' /\
    AggregatedClientMetrics.total_log_count a'
    = AggregatedClientMetrics.total_log_count a /\
    AggregatedClientMetrics.client_count a'
    = AggregatedClientMetrics.client_count a.
Proof.
  intros Hp Ha.
  destruct (from_clients_counts statistics clients) as [Hc He].
  destruct (from_clients_counts statistics clients') as [Hc' He'].
  assert (Hex : exists a', AggregatedClientMetrics.from_clients statistics clients'
                           = OK a').
  { apply He'. eapply Permutation_Forall; [exact Hp|].
    apply He. exists a. exact Ha. }
  destruct Hex as [a' Ha']. exists a'. split; [exact Ha'|].
  destruct (Hc a Ha) as [-> ->]. destruct (Hc' a' Ha') as [-> ->].
  split.
  - symmetry. apply sum_Permutation, Permutation_map, Hp.
  - f_equal. symmetry. apply Permutation_length, Hp.
Qed.

Lemma aggregate_counts_order_witness :
  exists a',
    AggregatedClientMetrics.from_clients example_statistics
      [with_latencies []; ten_in_two_seconds] = OK a' /\
    AggregatedClientMetrics.total_log_count a' = 10 /\
    AggregatedClientMetrics.client_count a' = 2.
Proof.
  destruct (AggregatedClientMetrics.from_clients example_statistics
              [ten_in_two_seconds; with_latencies []]) as [a|e] eqn:E;
    [|vm_compute in E; discriminate].
  assert (Ht : AggregatedClientMetrics.total_log_count a = 10
               /\ AggregatedClientMetrics.client_count a = 2).
  { vm_compute in E. injection E as <-. split; reflexivity. }
  destruct (aggregate_counts_order example_statistics
              [ten_in_two_seconds; with_latencies []]
              [with_latencies []; ten_in_two_seconds] a
              (perm_swap _ _ _) E) as (a' & Ha' & H1 & H2).
  exists a'. split; [exact Ha'|]. destruct Ht as [Ht1 Ht2].
  rewrite H1, H2. split; assumption.
Defined.

(** ** bench/metrics.py: the sign of [throughput] *)

Lemma binary_round_aux_signed (s : bool) (m e : Z) (l : location) :
  signed s (binary_round_aux PyFloat.prec PyFloat.emax s m e l).
Proof.
  unfold binary_round_aux.
  destruct (shr_fexp PyFloat.prec PyFloat.emax m e l) as [mrs e'].
  destruct (shr_fexp _ _ _ _ _) as [mrs' e''].
  destruct (shr_m mrs'); simpl; try reflexivity.
  destruct (Z.leb _ _); reflexivity.
Qed.

Lemma of_Z_signed (n : Z) : 0 <= n -> signed false (PyFloat.of_Z n).
Proof.
  intros Hn. unfold PyFloat.of_Z, binary_normalize.
  destruct n as [|p|p]; [reflexivity| |lia].
  unfold binary_round.
  destruct (shl_align _ _ _) as [mz ez].
  apply binary_round_aux_signed.
Qed.

Lemma SFdiv_signed (x y : float) :
  signed false x -> signed false y ->
  signed false (SFdiv PyFloat.prec PyFloat.emax x y).
Proof.
  destruct x as [sx|sx| |sx mx ex], y as [sy|sy| |sy my ey]; simpl;
    try (intros; exact I); try (intros -> ->; reflexivity).
  intros -> ->.
  destruct (SFdiv_core_binary _ _ _ _ _ _) as [[mz ez] lz].
  apply binary_round_aux_signed.
Qed.

Lemma positive_signed (d : float) :
  PyFloat.leb d PyFloat.zero = false -> signed false d.
Proof.
  destruct d as [s|s| |s m e]; simpl; try discriminate; auto;
    destruct s; simpl; try discriminate; reflexivity.
Qed.

Lemma signed_not_negative (f : float) : signed false f -> not_negative f.
Proof.
  unfold not_negative. destruct f as [s|s| |s m e]; simpl;
    try reflexivity; intros ->; reflexivity.
Qed.

Lemma of_int_OK (n : Z) (x : float) :
  PyFloat.of_int n = OK x -> x = PyFloat.of_Z n.
Proof.
  unfold PyFloat.of_int. destruct (PyFloat.of_Z n); congruence.
Qed.

(** X9: the throughput of a client whose [log_count] is not negative is
    never below zero, whatever its start and end times are. *)
Theorem throughput_not_negative (m : ClientMetrics.t) (f : float) :
  0 <= ClientMetrics.log_count m ->
  ClientMetrics.throughput m = OK f ->
  not_negative f.
Proof.
  intros Hc. unfold ClientMetrics.throughput, PyFloat.int_truediv.
  destruct (PyFloat.leb (ClientMetrics.duration_sec m) PyFloat.zero) eqn:Hle.
  - intros [= <-]. reflexivity.
  - destruct (PyFloat.of_int (ClientMetrics.log_count m)) as [x|e] eqn:Hx;
      cbn [Py.bind]; [|discriminate].
    apply of_int_OK in Hx. subst x.
    rewrite (leb_zero_false_nonzero _ Hle). intros [= <-].
    apply signed_not_negative, SFdiv_signed;
      [apply of_Z_signed, Hc|apply positive_signed, Hle].
Qed.

Lemma throughput_not_negative_witness :
  not_negative (PyFloat.of_Z 5).
Proof.
  apply (throughput_not_negative ten_in_two_seconds).
  - simpl. lia.
  - vm_compute. reflexivity.
Defined.

(** ** bench/backends/rerun/server.py: the server object *)

(** X10: a fresh server object has no address and no recording path
    (both raise "Server not started"); once [start] has been called,
    whether it returned or raised, both are known: the address carries
    the configured port and the recording lies in the directory given. *)
Theorem address_known_after_start (w : RerunServer.World)
    (config : ServerConfig.t) (temp_dir : string) (self : RerunServer.t) :
  RerunServer.get_address RerunServer.init
  = Raise (RuntimeError "Server not started") /\
  RerunServer.rrd_file RerunServer.init
  = Raise (RuntimeError "Server not started") /\
  RerunServer.get_address
    (snd (fst (RerunServer.start w config temp_dir self)))
  = OK ("rerun+http://127.0.0.1:" +:+ str_of_int (ServerConfig.port config)
          +:+ "/proxy") /\
  RerunServer.rrd_file (snd (fst (RerunServer.start w config temp_dir self)))
  = OK (temp_dir +:+ "/benchmark.rrd").
Proof.
  split; [reflexivity|]. split; [reflexivity|].
  unfold RerunServer.start.
  destruct (RerunServer.popen w) as [pid|e];
    [destruct (RerunServer.poll_after_warmup w) as [code|]|];
    split; reflexivity.
Qed.

(** X11: when [stop] returns, the object holds no process any more, so
    [is_running] is false whatever the process table says; the stop
    event is set and the end time is the time read in [stop]. *)
Theorem stop_releases_process (w w' : RerunServer.World)
    (self self' : RerunServer.t) (evs : list RerunServer.event) :
  RerunServer.stop w self = (OK tt, self', evs) ->
  RerunServer._proc self' = None /\
  RerunServer.is_running w' self' = false /\
  RerunServer._stop_event self' = true /\
  ServerMetrics.end_time (RerunServer.get_metrics self')
  = RerunServer.time_at_stop w.
Proof.
  unfold RerunServer.stop, RerunServer.rrd_file, RerunServer.is_running,
    RerunServer.get_metrics.
  destruct self as [proc cfg dir metrics thread ev].
  cbn [RerunServer._proc RerunServer._config RerunServer._temp_dir
       RerunServer._metrics RerunServer._monitor_thread
       RerunServer._stop_event].
  destruct thread, proc as [pid|], dir as [d|];
    cbn [RerunServer._proc RerunServer._config RerunServer._temp_dir
         RerunServer._metrics RerunServer._monitor_thread
         RerunServer._stop_event RerunServer.set_metrics
         RerunServer.set_proc];
    try destruct (RerunServer.terminate w) as [[]|e];
    try destruct (RerunServer.wait_times_out w);
    cbn [RerunServer._proc RerunServer._config RerunServer._temp_dir
         RerunServer._metrics RerunServer._monitor_thread
         RerunServer._stop_event RerunServer.set_metrics
         RerunServer.set_proc];
    try discriminate;
    destruct (RerunServer.rrd_file_stat w) as [[size|e']|];
    try discriminate;
    intros [= <- <-]; repeat split; reflexivity.
Qed.

Lemma stop_releases_process_witness :
  RerunServer.is_running example_server_world
    (snd (fst (RerunServer.stop example_server_world
                 (started example_server_world example_server_config
                    "/tmp/bench" 4242))))
  = false.
Proof.
  apply (stop_releases_process example_server_world example_server_world
           (started example_server_world example_server_config
              "/tmp/bench" 4242)
           (snd (fst (RerunServer.stop example_server_world
                        (started example_server_world example_server_config
                           "/tmp/bench" 4242))))
           (snd (RerunServer.stop example_server_world
                   (started example_server_world example_server_config
                      "/tmp/bench" 4242)))).
  reflexivity.
Defined.

(** X12: [stop] asks the process to terminate exactly when the object
    holds one, and kills it only when the termination was delivered and
    the wait that follows timed out. *)
Theorem kill_only_after_timeout (w : RerunServer.World) (self : RerunServer.t) :
  (In RerunServer.Terminate (snd (RerunServer.stop w self)) <->
   RerunServer._proc self <> None) /\
  (In RerunServer.Kill (snd (RerunServer.stop w self)) <->
   RerunServer._proc self <> None /\
   RerunServer.terminate w = OK tt /\
   RerunServer.wait_times_out w = true).
Proof.
  unfold RerunServer.stop, RerunServer.rrd_file.
  destruct self as [proc cfg dir metrics thread ev].
  cbn [RerunServer._proc RerunServer._config RerunServer._temp_dir
       RerunServer._metrics RerunServer._monitor_thread
       RerunServer._stop_event].
  destruct thread, proc as [pid|], dir as [d|];
    cbn [RerunServer._proc RerunServer._config RerunServer._temp_dir
         RerunServer._metrics RerunServer._monitor_thread
         RerunServer._stop_event RerunServer.set_metrics
         RerunServer.set_proc];
    try destruct (RerunServer.terminate w) as [[]|e];
    try destruct (RerunServer.wait_times_out w);
    cbn [RerunServer._proc RerunServer._config RerunServer._temp_dir
         RerunServer._metrics RerunServer._monitor_thread
         RerunServer._stop_event RerunServer.set_metrics
         RerunServer.set_proc];
    try destruct (RerunServer.rrd_file_stat w) as [[size|e']|];
    cbn [snd app In];
    (split; split;
     [ intros H; try discriminate;
       repeat (destruct H as [H|H]; try discriminate); try contradiction;
       congruence
     | intros H; try (exfalso; apply H; reflexivity); auto
     | intros H;
       repeat (destruct H as [H|H]; try discriminate); try contradiction;
       repeat split; try discriminate; try reflexivity
     | intros (H1 & H2 & H3); try discriminate;
       try (exfalso; apply H1; reflexivity); auto ]).
Qed.

(** X13: [stop] on an object that was never started (no process, no
    directory) raises "Server not started", from the look-up of the
    recording path. *)
Theorem stop_before_start_raises (w : RerunServer.World) (self : RerunServer.t) :
  RerunServer._proc self = None ->
  RerunServer._temp_dir self = None ->
  fst (fst (RerunServer.stop w self))
  = Raise (RuntimeError "Server not started") /\
  ~ In RerunServer.Terminate (snd (RerunServer.stop w self)).
Proof.
  unfold RerunServer.stop, RerunServer.rrd_file.
  destruct self as [proc cfg dir metrics thread ev].
  cbn [RerunServer._proc RerunServer._temp_dir]. intros -> ->.
  cbn [RerunServer._proc RerunServer._config RerunServer._temp_dir
       RerunServer._metrics RerunServer._monitor_thread
       RerunServer._stop_event].
  destruct thread;
    cbn [RerunServer._proc RerunServer._config RerunServer._temp_dir
         RerunServer._metrics RerunServer._monitor_thread
         RerunServer._stop_event RerunServer.set_metrics fst snd];
    (split; [reflexivity|]); intros H; simpl in H; intuition discriminate.
Qed.

Lemma stop_before_start_raises_witness :
  fst (fst (RerunServer.stop example_server_world RerunServer.init))
  = Raise (RuntimeError "Server not started").
Proof.
  destruct (stop_before_start_raises example_server_world RerunServer.init)
    as [H _]; [reflexivity|reflexivity|exact H].
Defined.

(** ** bench/backends/rerun/server.py: the sampling loop *)

Lemma monitor_loop_gone
    (before after : list RerunServer.poll) (samples : list MemorySample.t) :
  RerunServer.monitor_loop (before ++ RerunServer.NoSuchProcess :: after) samples
  = RerunServer.monitor_loop before samples /\
  RerunServer.monitor_loop (before ++ RerunServer.OtherException :: after) samples
  = RerunServer.monitor_loop (before ++ after) samples.
Proof.
  revert samples. induction before as [|t before IH]; intros samples.
  - split; reflexivity.
  - destruct t as [rss now| |]; cbn [app RerunServer.monitor_loop].
    + apply IH.
    + split; reflexivity.
    + apply IH.
Qed.

Lemma monitor_loop_appends (turns : list RerunServer.poll)
    (samples : list MemorySample.t) :
  exists new,
    RerunServer.monitor_loop turns samples = samples ++ new /\
    (length new <= length turns)%nat /\
    Forall (fun s => exists rss now,
              In (RerunServer.MemoryInfo rss now) turns /\
              s = MemorySample.mk now (RerunServer.memory_mb_of rss)) new.
Proof.
  revert samples. induction turns as [|t turns IH]; intros samples.
  - exists []. cbn. rewrite app_nil_r. repeat split; [lia|constructor].
  - destruct t as [rss now| |]; cbn [RerunServer.monitor_loop].
    + destruct (IH (samples ++ [MemorySample.mk now (RerunServer.memory_mb_of rss)]))
        as (new & Hl & Hn & Hf).
      exists (MemorySample.mk now (RerunServer.memory_mb_of rss) :: new).
      rewrite Hl, <- app_assoc. split; [reflexivity|].
      split; [simpl; lia|]. constructor.
      * exists rss, now. split; [left; reflexivity|reflexivity].
      * eapply List.Forall_impl; [|exact Hf].
        intros s (rss' & now' & Hin & Hs). exists rss', now'.
        split; [right; exact Hin|exact Hs].
    + exists []. rewrite app_nil_r. repeat split; [simpl; lia|constructor].
    + destruct (IH samples) as (new & Hl & Hn & Hf).
      exists new. split; [exact Hl|]. split; [simpl; lia|].
      eapply List.Forall_impl; [|exact Hf].
      intros s (rss' & now' & Hin & Hs). exists rss', now'.
      split; [right; exact Hin|exact Hs].
Qed.

(** X14: the sampling loop ends at the first turn that finds the process
    gone, whatever turns would follow; a turn that fails in any other way
    leaves no sample and the loop goes on.  The loop only appends: the
    samples it was given stay in front, unchanged; it adds at most one
    sample per turn, and every sample it adds holds the clock reading and
    the resident size, in MiB, of one of its turns. *)
Theorem sampler_appends_until_process_gone
    (before after turns : list RerunServer.poll)
    (samples : list MemorySample.t) :
  RerunServer.monitor_loop (before ++ RerunServer.NoSuchProcess :: after) samples
  = RerunServer.monitor_loop before samples /\
  RerunServer.monitor_loop (before ++ RerunServer.OtherException :: after) samples
  = RerunServer.monitor_loop (before ++ after) samples /\
  exists new,
    RerunServer.monitor_loop turns samples = samples ++ new /\
    (length new <= length turns)%nat /\
    Forall (fun s => exists rss now,
              In (RerunServer.MemoryInfo rss now) turns /\
              s = MemorySample.mk now (RerunServer.memory_mb_of rss)) new.
Proof.
  split; [apply monitor_loop_gone|].
  split; [apply monitor_loop_gone|].
  apply monitor_loop_appends.
Qed.

(** ** bench/runner.py: every way a run can go *)

Lemma get_backend_unknown (name : string) :
  name <> "rerun" ->
  Backends.get_backend name
  = Raise (ValueError ("Unknown backend: " +:+ name +:+ ". Available: rerun")).
Proof.
  intros Hne. unfold Backends.get_backend, Backends.BACKENDS.
  rewrite lookup_singleton_ne by congruence. reflexivity.
Qed.

(** X15: with a backend type that is not registered (the configuration
    schema admits "foxglove"), [run_benchmark] raises ValueError before it
    does anything: no temporary directory is made, no process is
    spawned. *)
Theorem unknown_backend_fails_fast (w : Runner.World)
    (config : BenchmarkConfig.t) (keep_tmpdir : bool) :
  BenchmarkConfig.backend_type config <> "rerun" ->
  Runner.run_benchmark w config keep_tmpdir
  = (Raise (ValueError ("Unknown backend: "
                        +:+ BenchmarkConfig.backend_type config
                        +:+ ". Available: rerun")),
     Runner.mk_state RerunServer.init []).
Proof.
  intros Hne. unfold Runner.run_benchmark.
  rewrite (get_backend_unknown _ Hne). reflexivity.
Qed.

Lemma unknown_backend_fails_fast_witness :
  In (BenchmarkConfig.backend_type foxglove_config) ["rerun"; "foxglove"] /\
  Runner.run_benchmark example_world foxglove_config false
  = (Raise (ValueError "Unknown backend: foxglove. Available: rerun"),
     Runner.mk_state RerunServer.init []).
Proof.
  split; [right; left; reflexivity|].
  apply (unknown_backend_fails_fast example_world foxglove_config false).
  discriminate.
Defined.

(** A run whose server does not start: the error of [start] leaves
    [run_benchmark], after the clean-up. *)
Lemma run_benchmark_start_raises (w : Runner.World) (config : BenchmarkConfig.t)
    (keep_tmpdir : bool) (e : exn) (self' : RerunServer.t)
    (evs : list RerunServer.event) :
  BenchmarkConfig.backend_type config = "rerun" ->
  RerunServer.start (Runner.server_world w) (Runner.server_config_of config)
    (Runner.mkdtemp w) RerunServer.init = (Raise e, self', evs) ->
  Runner.run_benchmark w config keep_tmpdir
  = (Raise e,
     Runner.mk_state self'
       (Runner.Mkdtemp (Runner.mkdtemp w) :: map Runner.Server evs
        ++ [cleanup keep_tmpdir (Runner.mkdtemp w)])).
Proof.
  intros Hb Hs. unfold Runner.run_benchmark. rewrite Hb, get_backend_rerun.
  unfold Runner.benchmark_body, Runner.try_finally, Runner.bind,
    Runner.call, Runner.emit. cbn [Runner.server Runner.trace app].
  rewrite Hs. unfold cleanup. destruct keep_tmpdir; reflexivity.
Qed.

(** The events of a [start] that raises: the port is reclaimed and, when
    the process could be spawned, it is spawned; no thread is started. *)
Lemma start_raises_events (sw : RerunServer.World) (config : ServerConfig.t)
    (temp_dir : string) (e : exn) (self' : RerunServer.t)
    (evs : list RerunServer.event) :
  RerunServer.start sw config temp_dir RerunServer.init = (Raise e, self', evs) ->
  (RerunServer.popen sw = Raise e \/
   exists pid code, RerunServer.popen sw = OK pid /\
     RerunServer.poll_after_warmup sw = Some code) /\
  Forall (fun ev => match ev with
                    | RerunServer.KillProcessOnPort _ | RerunServer.Popen _ => True
                    | _ => False
                    end) evs.
Proof.
  unfold RerunServer.start.
  destruct (RerunServer.popen sw) as [pid|e0].
  - destruct (RerunServer.poll_after_warmup sw) as [code|]; [|discriminate].
    intros [= <- <- <-]. split; [right; eauto|]. repeat constructor.
  - intros [= <- <- <-]. split; [left; reflexivity|]. repeat constructor.
Qed.

(** The three ways a run with the registered backend goes: the server
    cannot be spawned or exits during its warm-up, or it starts. *)
Lemma run_benchmark_cases (w : Runner.World) (config : BenchmarkConfig.t)
    (keep_tmpdir : bool) :
  let sw := Runner.server_world w in
  let run := Runner.run_benchmark w config keep_tmpdir in
  BenchmarkConfig.backend_type config = "rerun" ->
  (exists e evs,
     (RerunServer.popen sw = Raise e \/
      exists pid code, RerunServer.popen sw = OK pid /\
        RerunServer.poll_after_warmup sw = Some code) /\
     Forall (fun ev => match ev with
                       | RerunServer.KillProcessOnPort _
                       | RerunServer.Popen _ => True
                       | _ => False
                       end) evs /\
     fst run = Raise e /\
     Runner.trace (snd run)
     = Runner.Mkdtemp (Runner.mkdtemp w) :: map Runner.Server evs
       ++ [cleanup keep_tmpdir (Runner.mkdtemp w)]) \/
  (exists pid,
     RerunServer.popen sw = OK pid /\
     RerunServer.poll_after_warmup sw = None /\
     Runner.trace (snd run) = started_trace w config keep_tmpdir).
Proof.
  intros sw run Hb.
  destruct (RerunServer.start sw (Runner.server_config_of config)
              (Runner.mkdtemp w) RerunServer.init) as [[r self'] evs] eqn:Hs.
  destruct r as [[]|e].
  - right. unfold RerunServer.start in Hs.
    destruct (RerunServer.popen sw) as [pid|e0] eqn:Hp; [|discriminate].
    destruct (RerunServer.poll_after_warmup sw) as [code|] eqn:Hx;
      [discriminate|].
    exists pid. split; [reflexivity|]. split; [reflexivity|].
    destruct (run_benchmark_started w config keep_tmpdir pid Hb Hp Hx)
      as (stopped & Hrun & _).
    unfold run. rewrite Hrun. reflexivity.
  - left. exists e, evs.
    destruct (start_raises_events _ _ _ _ _ _ Hs) as [Hc Hf].
    split; [exact Hc|]. split; [exact Hf|].
    unfold run.
    rewrite (run_benchmark_start_raises w config keep_tmpdir e self' evs Hb Hs).
    split; reflexivity.
Qed.

(** *** The clean-up *)

Lemma rmtree_app (t1 t2 : list Runner.event) :
  List.filter is_rmtree (t1 ++ t2)
  = List.filter is_rmtree t1 ++ List.filter is_rmtree t2.
Proof. apply List.filter_app. Qed.

Lemma rmtree_server (evs : list RerunServer.event) :
  List.filter is_rmtree (map Runner.Server evs) = [].
Proof. induction evs as [|e l IH]; [reflexivity|exact IH]. Qed.

Lemma rmtree_waits (client_procs : list Runner.client_proc) :
  List.filter is_rmtree (waits client_procs) = [].
Proof. induction client_procs as [|p l IH]; [reflexivity|exact IH]. Qed.

Lemma rmtree_launch (duration_sec : float)
    (groups : list BenchmarkConfig.client_group) (server_addr tmpdir : string)
    (idx : nat) :
  List.filter is_rmtree
    (launch_events Backends.RerunBackend duration_sec groups server_addr
       tmpdir idx) = [].
Proof.
  revert idx. induction groups as [|g rest IH]; intros idx; [reflexivity|].
  cbn [launch_events]. destruct (supported Backends.RerunBackend g).
  - rewrite rmtree_app, IH, app_nil_r.
    unfold instance_starts. generalize (Z.to_nat (BenchmarkConfig.count g)).
    intros n. revert idx. induction n as [|n IHn]; intros idx; [reflexivity|].
    apply IHn.
  - apply IH.
Qed.

Lemma rmtree_supervised (w : Runner.World) (config : BenchmarkConfig.t) :
  List.filter is_rmtree (supervised_events w config) = [].
Proof.
  unfold supervised_events. destruct (alive (Runner.server_world w));
    [|reflexivity].
  destruct (spawn_failure w config) as [[k e]|].
  - apply filter_before_start, rmtree_launch.
  - rewrite rmtree_app, rmtree_launch, rmtree_waits. reflexivity.
Qed.

(** X16: once the backend is found, every run makes the temporary
    directory first and ends with the clean-up, whether it returns or
    raises; the directory is not removed before that, and with
    [keep_tmpdir] it is not removed at all. *)
Theorem cleanup_ends_every_run (w : Runner.World) (config : BenchmarkConfig.t)
    (keep_tmpdir : bool) :
  BenchmarkConfig.backend_type config = "rerun" ->
  exists middle,
    Runner.trace (snd (Runner.run_benchmark w config keep_tmpdir))
    = Runner.Mkdtemp (Runner.mkdtemp w) :: middle
      ++ [if keep_tmpdir then Runner.KeepTmpdir (Runner.mkdtemp w)
          else Runner.Rmtree (Runner.mkdtemp w)] /\
    List.filter is_rmtree middle = [] /\
    List.filter is_rmtree
      (Runner.trace (snd (Runner.run_benchmark w config keep_tmpdir)))
    = if keep_tmpdir then [] else [Runner.Rmtree (Runner.mkdtemp w)].
Proof.
  intros Hb.
  assert (Hmid : exists middle,
             Runner.trace (snd (Runner.run_benchmark w config keep_tmpdir))
             = Runner.Mkdtemp (Runner.mkdtemp w) :: middle
               ++ [cleanup keep_tmpdir (Runner.mkdtemp w)] /\
             List.filter is_rmtree middle = []).
  { destruct (run_benchmark_cases w config keep_tmpdir Hb)
      as [(e & evs & _ & _ & _ & Ht)|(pid & _ & _ & Ht)]; rewrite Ht.
    - exists (map Runner.Server evs). split; [reflexivity|apply rmtree_server].
    - unfold started_trace.
      eexists ([_; _; _] ++ supervised_events w config
               ++ map Runner.Server (stop_events (Runner.server_world w))).
      split; [cbn [app]; rewrite <- !app_assoc; reflexivity|].
      rewrite !rmtree_app, rmtree_supervised, rmtree_server. reflexivity. }
  destruct Hmid as (middle & Ht & Hm). exists middle.
  split; [exact Ht|]. split; [exact Hm|].
  rewrite Ht. change (Runner.Mkdtemp (Runner.mkdtemp w) :: middle
                      ++ [cleanup keep_tmpdir (Runner.mkdtemp w)])
    with ([Runner.Mkdtemp (Runner.mkdtemp w)] ++ middle
          ++ [cleanup keep_tmpdir (Runner.mkdtemp w)]).
  rewrite !rmtree_app, Hm. destruct keep_tmpdir; reflexivity.
Qed.

Lemma cleanup_ends_every_run_witness :
  List.filter is_rmtree
    (Runner.trace (snd (Runner.run_benchmark no_rerun_world example_config true)))
  = [] /\
  List.filter is_rmtree
    (Runner.trace (snd (Runner.run_benchmark example_world example_config false)))
  = [Runner.Rmtree "/tmp/bench"].
Proof.
  split.
  - destruct (cleanup_ends_every_run no_rerun_world example_config true eq_refl)
      as (middle & _ & _ & H). exact H.
  - destruct (cleanup_ends_every_run example_world example_config false eq_refl)
      as (middle & _ & _ & H). exact H.
Defined.

(** X17: [run_benchmark] stops the server exactly when [start] returned:
    the trace holds the join of the sampling thread and the termination
    of the process if and only if the process was spawned and was still
    there after the warm-up. *)
Theorem server_stopped_iff_started (w : Runner.World)
    (config : BenchmarkConfig.t) (keep_tmpdir : bool) :
  let sw := Runner.server_world w in
  let trace := Runner.trace (snd (Runner.run_benchmark w config keep_tmpdir)) in
  BenchmarkConfig.backend_type config = "rerun" ->
  (In (Runner.Server RerunServer.Terminate) trace <->
   (exists pid, RerunServer.popen sw = OK pid) /\
   RerunServer.poll_after_warmup sw = None) /\
  (In (Runner.Server RerunServer.ThreadJoin) trace <->
   In (Runner.Server RerunServer.Terminate) trace).
Proof.
  intros sw trace Hb.
  destruct (run_benchmark_cases w config keep_tmpdir Hb)
    as [(e & evs & Hc & Hf & _ & Ht)|(pid & Hp & Hx & Ht)];
    unfold trace; rewrite Ht.
  - fold sw in Hc.
    assert (Hno : forall ev,
               (ev = RerunServer.Terminate \/ ev = RerunServer.ThreadJoin) ->
               ~ In (Runner.Server ev)
                   (Runner.Mkdtemp (Runner.mkdtemp w) :: map Runner.Server evs
                    ++ [cleanup keep_tmpdir (Runner.mkdtemp w)])).
    { intros ev Hev [H|H]; [discriminate|].
      apply in_app_or in H. destruct H as [H|[H|[]]].
      - apply in_map_iff in H. destruct H as (ev' & [= ->] & Hin).
        rewrite List.Forall_forall in Hf. specialize (Hf _ Hin).
        destruct Hev as [-> | ->]; exact Hf.
      - destruct keep_tmpdir; discriminate. }
    split; split; intros H.
    + exfalso. apply (Hno RerunServer.Terminate); auto.
    + exfalso. destruct H as [[pid Hp] Hx].
      destruct Hc as [Hc|(pid' & code & Hp' & Hx')]; congruence.
    + exfalso. apply (Hno RerunServer.ThreadJoin); auto.
    + exfalso. apply (Hno RerunServer.Terminate); auto.
  - fold sw in Hp, Hx.
    assert (Hin : forall ev,
               (ev = RerunServer.Terminate \/ ev = RerunServer.ThreadJoin) ->
               In (Runner.Server ev) (started_trace w config keep_tmpdir)).
    { intros ev Hev. unfold started_trace.
      apply in_or_app. right. apply in_or_app. right.
      apply in_or_app. left. apply in_map. unfold stop_events.
      destruct Hev as [-> | ->]; simpl; auto. }
    split; split; intros H; auto.
    split; [exists pid; exact Hp|exact Hx].
Qed.

Lemma server_stopped_iff_started_witness :
  In (Runner.Server RerunServer.Terminate)
     (Runner.trace (snd (Runner.run_benchmark example_world example_config false)))
  /\ ~ In (Runner.Server RerunServer.Terminate)
       (Runner.trace (snd (Runner.run_benchmark crashing_world example_config false))).
Proof.
  split.
  - destruct (server_stopped_iff_started example_world example_config false
                eq_refl) as [[_ H] _].
    apply H. split; [exists 4242%nat; reflexivity|reflexivity].
  - destruct (server_stopped_iff_started crashing_world example_config false
                eq_refl) as [[H _] _].
    intros Hin. destruct (H Hin) as [_ Hx]. discriminate.
Defined.

(** *** The ids of the clients *)

Lemma choose_app {A B : Type} (f : A -> option B) (l1 l2 : list A) :
  choose f (l1 ++ l2) = choose f l1 ++ choose f l2.
Proof. apply flat_map_app. Qed.

Lemma started_ids_app (t1 t2 : list Runner.event) :
  started_ids (t1 ++ t2) = started_ids t1 ++ started_ids t2.
Proof. apply choose_app. Qed.

Lemma waited_ids_app (t1 t2 : list Runner.event) :
  waited_ids (t1 ++ t2) = waited_ids t1 ++ waited_ids t2.
Proof. apply choose_app. Qed.

Lemma started_ids_server (evs : list RerunServer.event) :
  started_ids (map Runner.Server evs) = [].
Proof. induction evs as [|e l IH]; [reflexivity|exact IH]. Qed.

Lemma waited_ids_server (evs : list RerunServer.event) :
  waited_ids (map Runner.Server evs) = [].
Proof. induction evs as [|e l IH]; [reflexivity|exact IH]. Qed.

Lemma started_ids_waits (client_procs : list Runner.client_proc) :
  started_ids (waits client_procs) = [].
Proof. induction client_procs as [|p l IH]; [reflexivity|exact IH]. Qed.

Lemma waited_ids_waits (client_procs : list Runner.client_proc) :
  waited_ids (waits client_procs) = map snd client_procs.
Proof.
  induction client_procs as [|p l IH]; [reflexivity|].
  cbn [waits map]. unfold waited_ids, choose in *. cbn [flat_map wait_id app].
  f_equal. exact IH.
Qed.

Lemma started_ids_instance_starts (c : ClientConfig.t)
    (server_addr tmpdir : string) (idx n : nat) :
  started_ids (instance_starts c server_addr tmpdir idx n)
  = map client_id_of (seq idx n) /\
  waited_ids (instance_starts c server_addr tmpdir idx n) = [].
Proof.
  unfold instance_starts. revert idx.
  induction n as [|n IH]; intros idx; [split; reflexivity|].
  destruct (IH (S idx)) as [IH1 IH2].
  cbn [seq map]. unfold started_ids, waited_ids, choose in *.
  cbn [flat_map start_id wait_id app]. split; [f_equal; exact IH1|exact IH2].
Qed.

Lemma instance_procs_ids (tmpdir : string) (idx n : nat) :
  map snd (instance_procs tmpdir idx n) = map client_id_of (seq idx n).
Proof.
  unfold instance_procs. rewrite map_map. reflexivity.
Qed.

Lemma ids_launch_events (duration_sec : float)
    (groups : list BenchmarkConfig.client_group) (server_addr tmpdir : string)
    (idx : nat) :
  started_ids (launch_events Backends.RerunBackend duration_sec groups
                 server_addr tmpdir idx)
  = map snd (launch_procs Backends.RerunBackend groups tmpdir idx) /\
  waited_ids (launch_events Backends.RerunBackend duration_sec groups
                server_addr tmpdir idx) = [].
Proof.
  revert idx. induction groups as [|g rest IH]; intros idx;
    [split; reflexivity|].
  cbn [launch_events launch_procs].
  destruct (supported Backends.RerunBackend g).
  - destruct (IH (idx + Z.to_nat (BenchmarkConfig.count g))%nat) as [IH1 IH2].
    destruct (started_ids_instance_starts
                (Runner.client_config_of g duration_sec) server_addr tmpdir
                idx (Z.to_nat (BenchmarkConfig.count g))) as [H1 H2].
    unfold started_ids, waited_ids in *.
    rewrite !choose_app, map_app, IH1, IH2, H1, H2, instance_procs_ids.
    split; [reflexivity|reflexivity].
  - destruct (IH idx) as [IH1 IH2]. split; [exact IH1|exact IH2].
Qed.

(** The processes of the launch loop are numbered from its first index,
    without a gap. *)
Lemma launch_procs_seq (groups : list BenchmarkConfig.client_group)
    (tmpdir : string) (idx : nat) :
  launch_procs Backends.RerunBackend groups tmpdir idx
  = instance_procs tmpdir idx
      (length (launch_procs Backends.RerunBackend groups tmpdir idx)).
Proof.
  revert idx. induction groups as [|g rest IH]; intros idx; [reflexivity|].
  cbn [launch_procs]. destruct (supported Backends.RerunBackend g).
  - assert (Hn : forall i n, length (instance_procs tmpdir i n) = n)
      by (intros i n; unfold instance_procs; rewrite length_map; apply length_seq).
    rewrite length_app, Hn.
    rewrite (IH (idx + Z.to_nat (BenchmarkConfig.count g))%nat) at 1.
    unfold instance_procs. rewrite seq_app, map_app. reflexivity.
  - apply IH.
Qed.

Lemma str_of_int_inj (a b : Z) : str_of_int a = str_of_int b -> a = b.
Proof.
  unfold str_of_int. intros H. apply DecimalZ.to_int_inj.
  assert (Hnn : forall n, Z.to_int n <> Decimal.Pos Decimal.Nil
                          /\ Z.to_int n <> Decimal.Neg Decimal.Nil).
  { intros [|p|p]; simpl; split; try discriminate;
      intros [= Hp]; exact (Unsigned.to_uint_nonnil p Hp). }
  destruct (Hnn a) as [Ha1 Ha2]. destruct (Hnn b) as [Hb1 Hb2].
  pose proof (NilZero.isi _ Ha1 Ha2) as Ia.
  pose proof (NilZero.isi _ Hb1 Hb2) as Ib.
  rewrite H in Ia. congruence.
Qed.

Lemma length_append (s t : string) :
  String.length (s +:+ t) = (String.length s + String.length t)%nat.
Proof.
  induction s as [|c s IH]; [reflexivity|].
  change (S (String.length (s +:+ t)) = S (String.length s + String.length t)).
  f_equal. exact IH.
Qed.

Lemma append_inv_head (s a b : string) : s +:+ a = s +:+ b -> a = b.
Proof.
  induction s as [|c s IH]; [auto|].
  change (String c (s +:+ a) = String c (s +:+ b) -> a = b).
  intros [= H]. apply IH, H.
Qed.

Lemma append_inv_tail (a b t : string) : a +:+ t = b +:+ t -> a = b.
Proof.
  revert b. induction a as [|c a IH]; intros [|c' b] H.
  - reflexivity.
  - exfalso. apply (f_equal String.length) in H.
    change (String.length (EmptyString +:+ t)) with (String.length t) in H.
    change (String.length (String c' b +:+ t))
      with (S (String.length (b +:+ t))) in H.
    rewrite length_append in H. lia.
  - exfalso. apply (f_equal String.length) in H.
    change (String.length (EmptyString +:+ t)) with (String.length t) in H.
    change (String.length (String c a +:+ t))
      with (S (String.length (a +:+ t))) in H.
    rewrite length_append in H. lia.
  - change (String c (a +:+ t) = String c' (b +:+ t)) in H.
    injection H as -> H. f_equal. apply IH, H.
Qed.

Lemma client_id_of_inj (i j : nat) : client_id_of i = client_id_of j -> i = j.
Proof.
  unfold client_id_of. intros H. apply append_inv_head in H.
  apply str_of_int_inj in H. lia.
Qed.

Lemma metrics_file_of_inj (tmpdir : string) (i j : nat) :
  metrics_file_of tmpdir i = metrics_file_of tmpdir j -> i = j.
Proof.
  unfold metrics_file_of. intros H.
  apply append_inv_head in H. apply (append_inv_head "/") in H.
  apply append_inv_tail in H. apply client_id_of_inj, H.
Qed.

Lemma NoDup_map_injective {A B : Type} (f : A -> B) (l : list A) :
  (forall x y, f x = f y -> x = y) -> List.NoDup l -> List.NoDup (map f l).
Proof.
  intros Hf Hl. induction Hl as [|x l Hx Hl IH]; [constructor|].
  cbn [map]. constructor; [|exact IH].
  intros Hin. apply in_map_iff in Hin. destruct Hin as (y & Hy & Hin).
  apply Hf in Hy. subst y. exact (Hx Hin).
Qed.

Lemma choose_before_start {B : Type} (f : Runner.event -> option B) (k : nat)
    (events : list Runner.event) :
  (forall e, is_client_start e = true <-> f e <> None) ->
  choose f (before_start k events) = firstn k (choose f events).
Proof.
  intros Hf. revert k. induction events as [|e rest IH]; intros k.
  - destruct k; reflexivity.
  - unfold choose in *. cbn [before_start flat_map].
    destruct (is_client_start e) eqn:E.
    + destruct (f e) as [b|] eqn:E'.
      2:{ exfalso. apply (proj1 (Hf e) E). exact E'. }
      destruct k as [|k]; [reflexivity|].
      cbn [flat_map]. rewrite E'. cbn [app firstn]. rewrite IH. reflexivity.
    + assert (Hs : f e = None).
      { destruct (f e) eqn:E'; [|reflexivity].
        assert (is_client_start e = true) by (apply Hf; congruence).
        congruence. }
      cbn [flat_map]. rewrite Hs. cbn [app]. apply IH.
Qed.

Lemma started_ids_before_start (k : nat) (events : list Runner.event) :
  started_ids (before_start k events) = firstn k (started_ids events).
Proof.
  apply choose_before_start. intros [ | | | | | | ]; cbn;
    split; intros H; congruence.
Qed.

Lemma waited_ids_before_start (k : nat) (events : list Runner.event) :
  waited_ids events = [] -> waited_ids (before_start k events) = [].
Proof.
  unfold waited_ids, choose. revert k.
  induction events as [|e rest IH]; intros k H; [reflexivity|].
  cbn [flat_map] in H. apply app_eq_nil in H. destruct H as [He Hr].
  cbn [before_start]. destruct (is_client_start e).
  - destruct k as [|k]; [reflexivity|].
    cbn [flat_map]. rewrite He. apply IH, Hr.
  - cbn [flat_map]. rewrite He. apply IH, Hr.
Qed.

(** X18: the launch loop numbers the clients it starts 0, 1, 2, ... in
    the order of the starts, across the groups and without a gap where a
    group was skipped; no two clients share an id, and no two share a
    metrics file.  When the loop returns, [client_procs] holds these
    clients; when it raises, it is the spawn of the next number that
    failed. *)
Theorem client_ids_sequential (popen : nat -> result unit)
    (duration_sec : float)
    (groups : list BenchmarkConfig.client_group) (server_addr tmpdir : string)
    (s : Runner.state) :
  let out :=
    Runner.launch popen Backends.RerunBackend duration_sec groups server_addr
      tmpdir [] 0 s in
  exists n,
    started_ids (Runner.trace (snd out))
    = started_ids (Runner.trace s) ++ map client_id_of (seq 0 n) /\
    (forall r, fst out = OK r ->
       fst r = map (fun i => (i, metrics_file_of tmpdir i, client_id_of i))
                   (seq 0 n)) /\
    (forall e, fst out = Raise e ->
       popen n = Raise e /\ forall j, (j < n)%nat -> popen j = OK tt) /\
    List.NoDup (map client_id_of (seq 0 n)) /\
    List.NoDup (map (metrics_file_of tmpdir) (seq 0 n)).
Proof.
  intros out. unfold out. rewrite launch_spec.
  destruct (ids_launch_events duration_sec groups server_addr tmpdir 0)
    as [Hids _].
  rewrite launch_procs_seq, instance_procs_ids in Hids.
  set (N := length (launch_procs Backends.RerunBackend groups tmpdir 0)) in *.
  destruct (first_failure popen 0 N) as [[k e]|] eqn:F.
  - destruct (first_failure_Some _ _ _ _ _ F) as (Hk & He & Hj).
    exists k. cbn [fst snd Runner.trace]. split; [|split; [|split; [|split]]].
    + rewrite started_ids_app, Nat.sub_0_r, started_ids_before_start, Hids.
      rewrite firstn_map, take_seq.
      replace (Nat.min k N) with k by lia. reflexivity.
    + intros r Hr. discriminate.
    + intros e' [= <-]. split; [exact He|]. intros j Hjk. apply Hj. lia.
    + apply NoDup_map_injective; [apply client_id_of_inj|apply seq_NoDup].
    + apply NoDup_map_injective; [apply metrics_file_of_inj|apply seq_NoDup].
  - exists N. cbn [fst snd Runner.trace]. split; [|split; [|split; [|split]]].
    + rewrite started_ids_app, Hids. reflexivity.
    + intros r [= <-]. cbn [fst app]. rewrite launch_procs_seq at 1.
      reflexivity.
    + intros e He. discriminate.
    + apply NoDup_map_injective; [apply client_id_of_inj|apply seq_NoDup].
    + apply NoDup_map_injective; [apply metrics_file_of_inj|apply seq_NoDup].
Qed.

Lemma ids_cleanup (keep_tmpdir : bool) (tmpdir : string) :
  started_ids [cleanup keep_tmpdir tmpdir] = [] /\
  waited_ids [cleanup keep_tmpdir tmpdir] = [].
Proof. destruct keep_tmpdir; split; reflexivity. Qed.

(** The events of a run whose server started, split at the last start:
    the waits that follow are those of the clients started, or none when
    a spawn failed. *)
Lemma started_trace_split (w : Runner.World) (config : BenchmarkConfig.t)
    (keep_tmpdir : bool) :
  exists starts rest,
    started_trace w config keep_tmpdir = starts ++ rest /\
    waited_ids starts = [] /\ started_ids rest = [] /\
    waited_ids rest
    = match supervised_result w config with
      | OK _ => started_ids starts
      | Raise _ => []
      end /\
    (spawn_failure w config = None -> waited_ids rest = started_ids starts).
Proof.
  destruct (ids_cleanup keep_tmpdir (Runner.mkdtemp w)) as [Hc1 Hc2].
  unfold started_trace, supervised_events, supervised_result.
  set (head := [ Runner.Mkdtemp (Runner.mkdtemp w);
                 Runner.Server (RerunServer.KillProcessOnPort
                                  (BenchmarkConfig.backend_server_port config));
                 Runner.Server (RerunServer.Popen
                    [ "rerun"; "--serve-grpc"; "--port";
                      str_of_int (BenchmarkConfig.backend_server_port config);
                      "--save"; Runner.mkdtemp w +:+ "/benchmark.rrd" ]);
                 Runner.Server RerunServer.ThreadStart ]).
  assert (Hh1 : started_ids head = []) by reflexivity.
  assert (Hh2 : waited_ids head = []) by reflexivity.
  set (stops := map Runner.Server (stop_events (Runner.server_world w))).
  assert (Hs1 : started_ids stops = []) by apply started_ids_server.
  assert (Hs2 : waited_ids stops = []) by apply waited_ids_server.
  destruct (alive (Runner.server_world w)).
  - destruct (ids_launch_events (BenchmarkConfig.duration_sec config)
                (BenchmarkConfig.clients config) (server_addr_of config)
                (Runner.mkdtemp w) 0) as [Hl1 Hl2].
    fold (procs_of w config) in Hl1.
    set (launches := launch_events Backends.RerunBackend
                       (BenchmarkConfig.duration_sec config)
                       (BenchmarkConfig.clients config)
                       (server_addr_of config) (Runner.mkdtemp w) 0) in *.
    destruct (spawn_failure w config) as [[k e]|].
    + exists (head ++ before_start k launches),
        (stops ++ [cleanup keep_tmpdir (Runner.mkdtemp w)]).
      split; [rewrite <- !app_assoc; reflexivity|].
      rewrite !started_ids_app, !waited_ids_app.
      rewrite Hh1, Hh2, Hs1, Hs2, Hc1, Hc2.
      rewrite (waited_ids_before_start k launches Hl2).
      repeat split; try reflexivity. discriminate.
    + exists (head ++ launches),
        (waits (procs_of w config) ++ stops
         ++ [cleanup keep_tmpdir (Runner.mkdtemp w)]).
      split; [rewrite <- !app_assoc; reflexivity|].
      rewrite !started_ids_app, !waited_ids_app.
      rewrite Hh1, Hh2, Hl1, Hl2, Hs1, Hs2, Hc1, Hc2.
      rewrite started_ids_waits, waited_ids_waits, !app_nil_r.
      split; [reflexivity|]. split; [reflexivity|].
      split; [|reflexivity].
      destruct (procs_of w config) as [|p ps]; reflexivity.
  - exists [], (head ++ [] ++ stops ++ [cleanup keep_tmpdir (Runner.mkdtemp w)]).
    split; [reflexivity|]. split; [reflexivity|].
    rewrite !started_ids_app, !waited_ids_app.
    rewrite Hh1, Hh2, Hs1, Hs2, Hc1, Hc2. repeat split; reflexivity.
Qed.

(** X19: in every run, no wait comes before the last start.  The waits
    follow the launch loop only when that loop returns: a run that
    returns a result, and every run none of whose spawns fails, has
    waited for the clients it started, in the order of their start; a
    run whose launch loop raises waits for none of the clients it
    started. *)
Theorem clients_waited_for_after_launch (w : Runner.World)
    (config : BenchmarkConfig.t) (keep_tmpdir : bool) :
  let run := Runner.run_benchmark w config keep_tmpdir in
  let trace := Runner.trace (snd run) in
  (exists starts rest,
     trace = starts ++ rest /\
     waited_ids starts = [] /\ started_ids rest = []) /\
  (waited_ids trace = started_ids trace \/ waited_ids trace = []) /\
  (forall r, fst run = OK r -> waited_ids trace = started_ids trace) /\
  ((forall k, Runner.client_popen w k = OK tt) ->
   waited_ids trace = started_ids trace) /\
  (forall k e pid,
     BenchmarkConfig.backend_type config = "rerun" ->
     RerunServer.popen (Runner.server_world w) = OK pid ->
     RerunServer.poll_after_warmup (Runner.server_world w) = None ->
     RerunServer.poll_in_is_running (Runner.server_world w) = None ->
     (k < length (procs_of w config))%nat ->
     Runner.client_popen w k = Raise e ->
     (forall j, (j < k)%nat -> Runner.client_popen w j = OK tt) ->
     started_ids trace = map client_id_of (seq 0 k) /\ waited_ids trace = []).
Proof.
  intros run trace.
  assert (Hnone : forall t : list Runner.event,
             started_ids t = [] -> waited_ids t = [] ->
             (exists starts rest,
                t = starts ++ rest /\
                waited_ids starts = [] /\ started_ids rest = []) /\
             waited_ids t = started_ids t).
  { intros t H1 H2. split; [|congruence].
    exists [], t. repeat split; try reflexivity. exact H1. }
  destruct (String.eqb_spec (BenchmarkConfig.backend_type config) "rerun")
    as [Hb|Hb].
  2:{ assert (Ht : trace = []).
      { unfold trace, run, Runner.run_benchmark.
        rewrite (get_backend_unknown _ Hb). reflexivity. }
      assert (Hr : exists e, fst run = Raise e).
      { unfold run, Runner.run_benchmark.
        rewrite (get_backend_unknown _ Hb). eexists. reflexivity. }
      destruct Hr as [e0 Hr].
      rewrite Ht.
      split; [exists [], []; repeat split; reflexivity|].
      split; [left; reflexivity|].
      split; [intros r Hr'; congruence|].
      split; [reflexivity|].
      intros k e pid Hb'. congruence. }
  destruct (RerunServer.start (Runner.server_world w)
              (Runner.server_config_of config) (Runner.mkdtemp w)
              RerunServer.init) as [[r0 self'] evs] eqn:Hs.
  destruct r0 as [[]|e0].
  - unfold RerunServer.start in Hs.
    destruct (RerunServer.popen (Runner.server_world w)) as [pid|e1] eqn:Hp;
      [|discriminate].
    destruct (RerunServer.poll_after_warmup (Runner.server_world w))
      as [code|] eqn:Hx; [discriminate|].
    destruct (run_benchmark_started w config keep_tmpdir pid Hb Hp Hx)
      as (stopped & Hrun & _).
    fold run in Hrun.
    assert (Ht : trace = started_trace w config keep_tmpdir)
      by (unfold trace; rewrite Hrun; reflexivity).
    destruct (started_trace_split w config keep_tmpdir)
      as (starts & rest & Hsplit & Hw & Hst & Hwr & Hok).
    assert (Hwt : waited_ids trace = waited_ids rest)
      by (rewrite Ht, Hsplit, waited_ids_app, Hw; reflexivity).
    assert (Hstt : started_ids trace = started_ids starts)
      by (rewrite Ht, Hsplit, started_ids_app, Hst, app_nil_r; reflexivity).
    split; [exists starts, rest; rewrite Ht; auto|].
    rewrite Hwt, Hstt.
    split; [rewrite Hwr; destruct (supervised_result w config); auto|].
    split.
    { intros r Hr. rewrite Hrun in Hr. cbn [fst] in Hr. rewrite Hwr.
      destruct (stop_result (Runner.server_world w)) as [[]|e1];
        [|discriminate].
      destruct (supervised_result w config); [reflexivity|discriminate]. }
    split.
    { intros Hall. apply Hok. apply first_failure_None.
      intros j _. apply Hall. }
    intros k e pid' _ _ _ Ha Hk He Hj.
    assert (F : spawn_failure w config = Some (k, e)).
    { apply first_failure_at; [lia|exact He|]. intros j Hjk. apply Hj. lia. }
    rewrite <- Hwt, <- Hstt, Ht. unfold started_trace.
    set (head := [ Runner.Mkdtemp (Runner.mkdtemp w);
                   Runner.Server (RerunServer.KillProcessOnPort
                                    (BenchmarkConfig.backend_server_port config));
                   Runner.Server (RerunServer.Popen
                      [ "rerun"; "--serve-grpc"; "--port";
                        str_of_int (BenchmarkConfig.backend_server_port config);
                        "--save"; Runner.mkdtemp w +:+ "/benchmark.rrd" ]);
                   Runner.Server RerunServer.ThreadStart ]).
    assert (Hh1 : started_ids head = []) by reflexivity.
    assert (Hh2 : waited_ids head = []) by reflexivity.
    rewrite !started_ids_app, !waited_ids_app, Hh1, Hh2.
    rewrite started_ids_server, waited_ids_server.
    destruct (ids_cleanup keep_tmpdir (Runner.mkdtemp w)) as [-> ->].
    unfold supervised_events, alive. rewrite Ha, F.
    destruct (ids_launch_events (BenchmarkConfig.duration_sec config)
                (BenchmarkConfig.clients config) (server_addr_of config)
                (Runner.mkdtemp w) 0) as [Hl1 Hl2].
    rewrite (waited_ids_before_start k _ Hl2), started_ids_before_start, Hl1.
    rewrite launch_procs_seq, instance_procs_ids, firstn_map, take_seq.
    fold (procs_of w config).
    replace (Nat.min k (length (procs_of w config))) with k by lia.
    rewrite !app_nil_r. split; reflexivity.
  - assert (Ht : trace
                 = [Runner.Mkdtemp (Runner.mkdtemp w)] ++ map Runner.Server evs
                   ++ [cleanup keep_tmpdir (Runner.mkdtemp w)]).
    { unfold trace, run.
      rewrite (run_benchmark_start_raises w config keep_tmpdir e0 self' evs Hb Hs).
      reflexivity. }
    assert (Hr : fst run = Raise e0).
    { unfold run.
      rewrite (run_benchmark_start_raises w config keep_tmpdir e0 self' evs Hb Hs).
      reflexivity. }
    destruct (ids_cleanup keep_tmpdir (Runner.mkdtemp w)) as [Hc1 Hc2].
    assert (H1 : started_ids trace = []).
    { rewrite Ht, !started_ids_app, started_ids_server, Hc1. reflexivity. }
    assert (H2 : waited_ids trace = []).
    { rewrite Ht, !waited_ids_app, waited_ids_server, Hc2. reflexivity. }
    destruct (Hnone trace H1 H2) as [Hsp Heq].
    split; [exact Hsp|]. split; [left; exact Heq|].
    split; [intros r Hr'; congruence|]. split; [intros _; exact Heq|].
    intros k e pid _ Hp Hx. exfalso.
    unfold RerunServer.start in Hs. rewrite Hp, Hx in Hs. discriminate.
Qed.

Lemma clients_waited_for_after_launch_witness :
  started_ids
    (Runner.trace
       (snd (Runner.run_benchmark spawn_failing_world example_config false)))
  = ["client_0"] /\
  waited_ids
    (Runner.trace
       (snd (Runner.run_benchmark spawn_failing_world example_config false)))
  = [].
Proof.
  destruct (clients_waited_for_after_launch spawn_failing_world example_config
              false) as (_ & _ & _ & _ & H).
  apply (H 1%nat (OSError "[Errno 24] Too many open files") 4242%nat);
    try reflexivity.
  - vm_compute. lia.
  - intros j Hj. assert (j = 0%nat) as -> by lia. reflexivity.
Defined.

(** ** bench/runner.py: the collection of the client metrics *)

(** X20: the collection loads the metrics files that exist, in the order
    of the client starts, and appends what they hold; a client whose file
    is missing is passed over without an error. *)
Theorem collect_loads_present_files (fs : gmap string Json.t)
    (client_procs : list Runner.client_proc)
    (client_metrics : list ClientMetrics.t) :
  Runner.collect fs client_procs client_metrics
  = (let* loaded :=
       mapM (fun p : Runner.client_proc => load_client_metrics fs (snd (fst p)))
            (List.filter (present fs) client_procs) in
     OK (client_metrics ++ loaded)) /\
  (Forall (fun p : Runner.client_proc => fs !! snd (fst p) = None) client_procs ->
   Runner.collect fs client_procs client_metrics = OK client_metrics).
Proof.
  assert (Heq : forall acc,
             Runner.collect fs client_procs acc
             = (let* loaded :=
                  mapM (fun p : Runner.client_proc =>
                          load_client_metrics fs (snd (fst p)))
                       (List.filter (present fs) client_procs) in
                OK (acc ++ loaded))).
  { induction client_procs as [|[[proc file] id] rest IH]; intros acc.
    - cbn. rewrite app_nil_r. reflexivity.
    - cbn [Runner.collect List.filter]. unfold present at 1. cbn [fst snd].
      destruct (fs !! file) as [doc|] eqn:Hf; [|apply IH].
      cbn [mapM fst snd].
      destruct (load_client_metrics fs file) as [m|e]; cbn [Py.bind];
        [|reflexivity].
      rewrite IH.
      destruct (mapM _ (List.filter (present fs) rest)) as [ms|e];
        cbn [Py.bind]; [|reflexivity].
      rewrite <- app_assoc. reflexivity. }
  split; [apply Heq|].
  intros Hnone. rewrite Heq.
  assert (Hfilter : List.filter (present fs) client_procs = []).
  { clear Heq. induction Hnone as [|p rest Hp _ IH]; [reflexivity|].
    cbn [List.filter]. unfold present at 1. rewrite Hp. exact IH. }
  rewrite Hfilter. cbn. rewrite app_nil_r. reflexivity.
Qed.

Lemma collect_loads_present_files_witness :
  Runner.collect ∅ (instance_procs "/tmp/bench" 0 2) [] = OK [].
Proof.
  destruct (collect_loads_present_files ∅ (instance_procs "/tmp/bench" 0 2) [])
    as [_ H].
  apply H. repeat constructor.
Defined.

(** ** bench/runner.py and bench/config.py: how many clients run *)

Lemma supported_count_le (groups : list BenchmarkConfig.client_group) :
  Forall (fun g => 0 <= BenchmarkConfig.count g) groups ->
  supported_count Backends.RerunBackend groups
  <= fold_right Z.add 0 (map BenchmarkConfig.count groups) /\
  (Forall (fun g => BenchmarkConfig.language g = "python") groups ->
   supported_count Backends.RerunBackend groups
   = fold_right Z.add 0 (map BenchmarkConfig.count groups)).
Proof.
  induction 1 as [|g rest Hg _ [IH1 IH2]]; [split; [reflexivity|reflexivity]|].
  cbn [supported_count map fold_right]. split.
  - destruct (supported Backends.RerunBackend g); lia.
  - intros Hall. inversion Hall as [|? ? Hl Hrest]; subst.
    unfold supported. rewrite Hl. cbn [Backends.supported_languages
      Backends.RerunBackend existsb]. rewrite String.eqb_refl. cbn [orb].
    rewrite (IH2 Hrest). reflexivity.
Qed.

(** X21: in a run on a valid configuration whose server starts, the
    number of clients launched is never above
    [get_total_client_count()]; it is that count when every group asks
    for python clients, the server is alive at the check and no spawn
    fails; and it is zero when the server is gone at the check. *)
Theorem launched_at_most_total (w : Runner.World) (config : BenchmarkConfig.t)
    (keep_tmpdir : bool) (pid : nat) :
  let sw := Runner.server_world w in
  let launched :=
    Z.of_nat (length (client_starts
                        (Runner.trace
                           (snd (Runner.run_benchmark w config keep_tmpdir))))) in
  BenchmarkConfig.valid config ->
  BenchmarkConfig.backend_type config = "rerun" ->
  RerunServer.popen sw = OK pid ->
  RerunServer.poll_after_warmup sw = None ->
  launched <= BenchmarkConfig.get_total_client_count config /\
  (RerunServer.poll_in_is_running sw = None ->
   Forall (fun g => BenchmarkConfig.language g = "python")
          (BenchmarkConfig.clients config) ->
   (forall k, Runner.client_popen w k = OK tt) ->
   launched = BenchmarkConfig.get_total_client_count config) /\
  (forall code, RerunServer.poll_in_is_running sw = Some code -> launched = 0).
Proof.
  intros sw launched Hv Hb Hp Hx.
  destruct (run_benchmark_started w config keep_tmpdir pid Hb Hp Hx)
    as (stopped & Hrun & _).
  unfold launched. rewrite Hrun. cbn [snd Runner.trace].
  pose proof (valid_counts config Hv) as Hc.
  destruct (supported_count_le _ Hc) as [Hle Heq].
  unfold BenchmarkConfig.get_total_client_count.
  assert (H0 : 0 <= fold_right Z.add 0
                      (map BenchmarkConfig.count (BenchmarkConfig.clients config))).
  { clear -Hc. induction Hc as [|g rest Hg _ IH]; cbn; lia. }
  destruct (RerunServer.poll_in_is_running sw) as [code|] eqn:Ha.
  - rewrite client_starts_started_trace. unfold supervised_events, alive.
    fold sw. rewrite Ha. cbn [client_starts List.filter length].
    split; [exact H0|]. split; [discriminate|reflexivity].
  - destruct (launched_count w config keep_tmpdir Hc Ha) as [Hn Hb'].
    rewrite Hn. split; [|split; [|discriminate]].
    + destruct (spawn_failure w config) as [[k e]|]; lia.
    + intros _ Hall Hok.
      assert (F : spawn_failure w config = None).
      { apply first_failure_None. intros j _. apply Hok. }
      rewrite F. apply Heq, Hall.
Qed.

Lemma launched_at_most_total_witness :
  Z.of_nat
    (length (client_starts
               (Runner.trace
                  (snd (Runner.run_benchmark example_world example_config false)))))
  <= 3.
Proof.
  destruct (launched_at_most_total example_world example_config false 4242%nat
              example_config_valid eq_refl eq_refl eq_refl) as (H & _).
  exact H.
Defined.

(** X22: when the server process is gone at the liveness check of
    [run_benchmark], no client is launched; the server object is still
    stopped, and the run ends with "Server failed to start" unless the
    stop raises another error. *)
Theorem dead_server_launches_nothing (w : Runner.World)
    (config : BenchmarkConfig.t) (keep_tmpdir : bool) (pid : nat) (code : Z) :
  let sw := Runner.server_world w in
  let run := Runner.run_benchmark w config keep_tmpdir in
  BenchmarkConfig.backend_type config = "rerun" ->
  RerunServer.popen sw = OK pid ->
  RerunServer.poll_after_warmup sw = None ->
  RerunServer.poll_in_is_running sw = Some code ->
  client_starts (Runner.trace (snd run)) = [] /\
  In (Runner.Server RerunServer.Terminate) (Runner.trace (snd run)) /\
  (exists e, fst run = Raise e) /\
  (stop_result sw = OK tt ->
   fst run = Raise (RuntimeError "Server failed to start")).
Proof.
  intros sw run Hb Hp Hx Hdead.
  destruct (run_benchmark_started w config keep_tmpdir pid Hb Hp Hx)
    as (stopped & Hrun & _).
  unfold run. rewrite Hrun. cbn [fst snd Runner.trace].
  assert (Hres : supervised_result w config
                 = Raise (RuntimeError "Server failed to start")).
  { unfold supervised_result, alive. fold sw. rewrite Hdead. reflexivity. }
  rewrite Hres, client_starts_started_trace.
  unfold supervised_events, alive. fold sw. rewrite Hdead.
  split; [reflexivity|]. split.
  - unfold started_trace. apply in_or_app. right. apply in_or_app. right.
    apply in_or_app. left. apply in_map. unfold stop_events. simpl. auto.
  - split.
    + destruct (stop_result sw) as [[]|e]; eexists; reflexivity.
    + fold sw. intros ->. reflexivity.
Qed.

Lemma dead_server_launches_nothing_witness :
  client_starts
    (Runner.trace (snd (Runner.run_benchmark dying_world example_config false)))
  = [] /\
  fst (Runner.run_benchmark dying_world example_config false)
  = Raise (RuntimeError "Server failed to start").
Proof.
  destruct (dead_server_launches_nothing dying_world example_config false
              4242%nat 1 eq_refl eq_refl eq_refl eq_refl) as (H1 & _ & _ & H2).
  split; [exact H1|]. apply H2. reflexivity.
Defined.

(** ** bench/backends/__init__.py: the registry *)

Lemma lookup_register_eq (reg : Registry.t) (name : string)
    (b : Backends.Backend) :
  Registry.lookup (Registry.register_backend name b reg) name = Some b.
Proof.
  induction reg as [|[k v] rest IH]; cbn [Registry.register_backend].
  - cbn [Registry.lookup]. rewrite String.eqb_refl. reflexivity.
  - destruct (String.eqb k name) eqn:E; cbn [Registry.lookup]; rewrite E;
      [reflexivity|exact IH].
Qed.

Lemma lookup_register_ne (reg : Registry.t) (name other : string)
    (b : Backends.Backend) :
  other <> name ->
  Registry.lookup (Registry.register_backend name b reg) other
  = Registry.lookup reg other.
Proof.
  intros Hne. induction reg as [|[k v] rest IH]; cbn [Registry.register_backend].
  - cbn [Registry.lookup]. destruct (String.eqb_spec name other);
      [congruence|reflexivity].
  - destruct (String.eqb_spec k name) as [->|Hk]; cbn [Registry.lookup].
    + destruct (String.eqb_spec name other); [congruence|reflexivity].
    + rewrite IH. reflexivity.
Qed.

Lemma list_backends_register (reg : Registry.t) (name : string)
    (b : Backends.Backend) :
  (In name (Registry.list_backends reg) ->
   Registry.list_backends (Registry.register_backend name b reg)
   = Registry.list_backends reg) /\
  (~ In name (Registry.list_backends reg) ->
   Registry.list_backends (Registry.register_backend name b reg)
   = Registry.list_backends reg ++ [name]).
Proof.
  unfold Registry.list_backends.
  induction reg as [|[k v] rest [IH1 IH2]]; cbn [Registry.register_backend map fst].
  - split; [intros []|reflexivity].
  - destruct (String.eqb_spec k name) as [->|Hk]; cbn [map fst app In].
    + split; [reflexivity|]. intros H. exfalso. apply H. left. reflexivity.
    + split.
      * intros [H|H]; [congruence|]. rewrite (IH1 H). reflexivity.
      * intros H. rewrite IH2; [reflexivity|]. intros Hin. apply H.
        right. exact Hin.
Qed.

(** X23: after [register_backend(name, b)], [get_backend(name)] gives
    [b] and the other names resolve as before; a name already known keeps
    its place among [list_backends()], a new one comes last; the registry
    the package builds on import resolves "rerun" and no other name, and
    an empty registry reports "Available: none". *)
Theorem registry_register_then_get (reg : Registry.t) (name : string)
    (b : Backends.Backend) :
  Registry.get_backend (Registry.register_backend name b reg) name = OK b /\
  (forall other b', other <> name ->
     (Registry.get_backend (Registry.register_backend name b reg) other = OK b'
      <-> Registry.get_backend reg other = OK b')) /\
  (In name (Registry.list_backends reg) ->
   Registry.list_backends (Registry.register_backend name b reg)
   = Registry.list_backends reg) /\
  (~ In name (Registry.list_backends reg) ->
   Registry.list_backends (Registry.register_backend name b reg)
   = Registry.list_backends reg ++ [name]) /\
  Registry.get_backend Registry.after_import name = Backends.get_backend name /\
  Registry.get_backend [] name
  = Raise (ValueError ("Unknown backend: " +:+ name +:+ ". Available: none")).
Proof.
  split; [|split; [|split; [|split; [|split]]]].
  - unfold Registry.get_backend. rewrite lookup_register_eq. reflexivity.
  - intros other b' Hne. unfold Registry.get_backend.
    rewrite (lookup_register_ne reg name other b Hne).
    destruct (Registry.lookup reg other); [reflexivity|].
    split; discriminate.
  - apply list_backends_register.
  - apply list_backends_register.
  - unfold Registry.after_import, Registry.get_backend.
    cbn [Registry.register_backend Registry.lookup Registry.list_backends
         map fst Registry.join].
    destruct (String.eqb_spec "rerun" name) as [<-|Hne].
    + rewrite get_backend_rerun. reflexivity.
    + rewrite get_backend_unknown by congruence. reflexivity.
  - reflexivity.
Qed.

Lemma registry_register_then_get_witness :
  Registry.get_backend
    (Registry.register_backend "foxglove" Backends.RerunBackend
       Registry.after_import) "rerun"
  = OK Backends.RerunBackend /\
  Registry.list_backends
    (Registry.register_backend "foxglove" Backends.RerunBackend
       Registry.after_import)
  = ["rerun"; "foxglove"].
Proof.
  destruct (registry_register_then_get Registry.after_import "foxglove"
              Backends.RerunBackend) as (_ & Hother & _ & Hnew & _).
  split.
  - apply Hother; [discriminate|reflexivity].
  - apply Hnew. intros [H|[]]. discriminate.
Defined.

(** ** bench/backends/rerun/__init__.py: the client factory *)

(** X24: [create_client] returns a client exactly for the languages that
    [supported_languages()] lists, which is what the check of the launch
    loop tests; for every other language it raises ValueError with the
    language in the message. *)
Theorem create_client_supported_languages (language : string) :
  ((exists c, Backends.create_client Backends.RerunBackend language = OK c) <->
   In language (Backends.supported_languages Backends.RerunBackend)) /\
  (existsb (String.eqb language)
     (Backends.supported_languages Backends.RerunBackend) = true <->
   In language (Backends.supported_languages Backends.RerunBackend)) /\
  (~ In language (Backends.supported_languages Backends.RerunBackend) ->
   Backends.create_client Backends.RerunBackend language
   = Raise (ValueError ("Unsupported language for Rerun: " +:+ language
                        +:+ ". Supported: ['python']"))).
Proof.
  cbn [Backends.create_client Backends.supported_languages
       Backends.RerunBackend existsb In].
  destruct (String.eqb_spec language "python") as [->|Hne].
  - split; [|split].
    + split; [auto|]. intros _. eexists. reflexivity.
    + split; auto.
    + intros H. exfalso. apply H. left. reflexivity.
  - split; [|split].
    + split; [intros [c Hc]; discriminate|].
      intros [H|[]]. congruence.
    + split; [discriminate|]. intros [H|[]]. congruence.
    + reflexivity.
Qed.

Lemma create_client_supported_languages_witness :
  Backends.create_client Backends.RerunBackend "rust"
  = Raise (ValueError
             "Unsupported language for Rerun: rust. Supported: ['python']").
Proof.
  destruct (create_client_supported_languages "rust") as (_ & _ & H).
  apply H. intros [H0|[]]. discriminate.
Defined.

(** ** bench/backends/rerun/client_py.py: what [main] leaves behind *)



(** X26: with a frequency of zero, the division [1.0 / frequency] raises
    inside the [try]: [main] publishes nothing, records the message of
    the ZeroDivisionError as its only error and saves the metrics, with
    no count, no latency and no start time. *)
Theorem zero_frequency_is_recorded (int_of_str : string -> result Z)
    (w : ClientPy.World float) (fuel : nat) (server data_type size : string)
    (sign : bool) (duration : float) (metrics_file client_id : string)
    (parsed : DataSize) :
  (if (String.eqb data_type "image" && ClientPy.has_x size)%bool
   then OK (SizeStr size)
   else let* n := int_of_str size in OK (SizeInt n)) = OK parsed ->
  ClientPy.connect w = OK tt ->
  ClientPy.main int_of_str w fuel server data_type size (S754_zero sign)
    duration metrics_file client_id
  = Some (ClientPy.mk_outcome (OK tt)
            [(metrics_file,
              ClientMetrics.mk client_id data_type parsed (S754_zero sign) 0 []
                PyFloat.zero (ClientPy.time_after_settle w)
                [Py.str ZeroDivisionError])]
            None).
Proof.
  intros Hparse Hc. unfold ClientPy.main. rewrite Hparse, Hc. reflexivity.
Qed.

Lemma zero_frequency_is_recorded_witness :
  ClientPy.main example_int_of_str slow_publish 0
    "rerun+http://127.0.0.1:9876/proxy" "text" "16" PyFloat.zero
    (PyFloat.of_Z 1) "/tmp/bench/client_0_metrics.json" "client_0"
  = Some (ClientPy.mk_outcome (OK tt)
            [("/tmp/bench/client_0_metrics.json",
              ClientMetrics.mk "client_0" "text" (SizeInt 16) PyFloat.zero 0 []
                PyFloat.zero (PyFloat.of_Z 1000) ["float division by zero"])]
            None).
Proof.
  apply (zero_frequency_is_recorded example_int_of_str slow_publish 0
           "rerun+http://127.0.0.1:9876/proxy" "text" "16" false
           (PyFloat.of_Z 1) "/tmp/bench/client_0_metrics.json" "client_0"
           (SizeInt 16)); reflexivity.
Defined.

(** X27: in every record [main] saves, [log_count] is the length of
    [latencies_ms]: the loop appends one latency per counted publish, and
    the exception paths save neither. *)
Theorem saved_count_matches_latencies (int_of_str : string -> result Z)
    (w : ClientPy.World float) (fuel : nat) (server data_type size : string)
    (frequency duration : float) (metrics_file client_id : string)
    (o : ClientPy.outcome) :
  ClientPy.main int_of_str w fuel server data_type size frequency duration
    metrics_file client_id = Some o ->
  Forall (fun fm : string * ClientMetrics.t =>
            ClientMetrics.log_count (snd fm)
            = Z.of_nat (length (ClientMetrics.latencies_ms (snd fm))))
         (ClientPy.saved o).
Proof.
  unfold ClientPy.main.
  destruct (if (String.eqb data_type "image" && ClientPy.has_x size)%bool
            then OK (SizeStr size)
            else let* n := int_of_str size in OK (SizeInt n)) as [ps|e].
  2:{ intros [= <-]. constructor. }
  destruct (ClientPy.connect w).
  2:{ intros [= <-]. repeat constructor. }
  destruct (PyFloat.truediv (PyFloat.of_Z 1) frequency) as [interval|e].
  2:{ intros [= <-]. repeat constructor. }
  destruct (ClientPy.generate_data w 0).
  2:{ intros [= <-]. repeat constructor. }
  destruct (ClientPy.publish_loop _ _ _ _ _ _ _) as [[[[]|e] s]|] eqn:Hloop;
    [| |discriminate]; intros [= <-]; [|repeat constructor].
  destruct (publish_loop_schedule _ _ _ _ _ _ _ _ _ Hloop) as (_ & _ & Hstep);
    [constructor|].
  destruct (Hstep eq_refl) as (H0 & _ & Hlen); [repeat split; reflexivity|].
  constructor; [|constructor].
  cbn [snd ClientPy.on_completion ClientMetrics.log_count
       ClientMetrics.latencies_ms].
  rewrite Hlen. lia.
Qed.

Lemma saved_count_matches_latencies_witness :
  exists m s,
    ClientPy.main example_int_of_str slow_publish 100
      "rerun+http://127.0.0.1:9876/proxy" "text" "16"
      (PyFloat.of_Z 10) (PyFloat.of_Z 1)
      "/tmp/bench/client_0_metrics.json" "client_0"
    = Some (ClientPy.mk_outcome (OK tt)
              [("/tmp/bench/client_0_metrics.json", m)] (Some s)) /\
    ClientMetrics.log_count m
    = Z.of_nat (length (ClientMetrics.latencies_ms m)).
Proof.
  eexists _, _. split; [vm_compute; reflexivity|].
  pose proof (saved_count_matches_latencies example_int_of_str slow_publish 100
                "rerun+http://127.0.0.1:9876/proxy" "text" "16"
                (PyFloat.of_Z 10) (PyFloat.of_Z 1)
                "/tmp/bench/client_0_metrics.json" "client_0" _ eq_refl) as H.
  inversion H as [|? ? Hm _]; subst. exact Hm.
Defined.

(** ** bench/config.py and bench/data_generators.py: the size of the data *)

(** X29: a size that [validate_size] accepts is returned as it came.  For
    a string it is a width and a height, both positive, and these are
    the numbers that [get_image_dimensions] returns and that
    [generate_data] hands to the image generator.  An integer is accepted
    exactly when it is positive; for an integer [get_image_dimensions]
    raises while [generate_data] asks for a square image.  The message
    "Width and height must be positive" never leaves [validate_size]: the
    handler of the [try] replaces it. *)
Theorem validated_size_has_dimensions (int_of_str : string -> result Z)
    (type : string) :
  (forall s v,
     DataConfig.validate_size int_of_str (SizeStr s) = OK v ->
     v = SizeStr s /\
     exists w h,
       0 < w /\ 0 < h /\
       DataConfig.get_image_dimensions int_of_str
         (BenchmarkConfig.mk_data type (SizeStr s)) = OK (w, h) /\
       DataGenerators.generate_data int_of_str "image" (SizeStr s)
       = OK (DataGenerators.Image w h)) /\
  (forall n,
     (DataConfig.validate_size int_of_str (SizeInt n) = OK (SizeInt n)
      <-> 0 < n) /\
     DataConfig.get_image_dimensions int_of_str
       (BenchmarkConfig.mk_data type (SizeInt n))
     = Raise (ValueError "Image size must be a string in format 'WxH'") /\
     DataGenerators.generate_data int_of_str "image" (SizeInt n)
     = OK (DataGenerators.Image n n)) /\
  (forall v,
     DataConfig.validate_size int_of_str v
     <> Raise (ValueError "Width and height must be positive")).
Proof.
  split; [|split].
  - intros s v H. unfold DataConfig.validate_size in H.
    destruct (negb (DataConfig.contains "x" (DataConfig.lower s)));
      [discriminate|].
    unfold DataConfig.get_image_dimensions, DataGenerators.generate_data.
    cbn [BenchmarkConfig.size String.eqb Ascii.eqb Bool.eqb].
    destruct (DataConfig.split "x" (DataConfig.lower s))
      as [|p0 [|p1 [|p2 rest]]]; try discriminate.
    cbn [nth nth_error].
    destruct (int_of_str p0) as [w|e] eqn:Hw; cbn [bind] in H |- *.
    + destruct (int_of_str p1) as [h|e] eqn:Hh; cbn [bind] in H |- *.
      * destruct (Z.leb w 0) eqn:Ew; cbn [orb] in H; [discriminate|].
        destruct (Z.leb h 0) eqn:Eh; [discriminate|].
        split; [congruence|]. exists w, h.
        apply Z.leb_gt in Ew. apply Z.leb_gt in Eh.
        repeat split; assumption.
      * destruct e; discriminate.
    + destruct e; discriminate.
  - intros n. split; [|split; reflexivity].
    cbn [DataConfig.validate_size].
    destruct (Z.leb n 0) eqn:E.
    + apply Z.leb_le in E. split; [discriminate|lia].
    + apply Z.leb_gt in E. split; [intros _; exact E|reflexivity].
  - intros [n|s]; cbn [DataConfig.validate_size].
    + destruct (Z.leb n 0); discriminate.
    + destruct (negb (DataConfig.contains "x" (DataConfig.lower s)));
        [discriminate|].
      destruct (DataConfig.split "x" (DataConfig.lower s))
        as [|p0 [|p1 [|p2 rest]]]; try discriminate.
      destruct (int_of_str p0) as [w|e]; cbn [bind].
      * destruct (int_of_str p1) as [h|e]; cbn [bind].
        -- destruct (Z.leb w 0 || Z.leb h 0)%bool; discriminate.
        -- destruct e; discriminate.
      * destruct e; discriminate.
Qed.

Lemma validated_size_has_dimensions_witness :
  SizeStr "640X480" = SizeStr "640X480" /\
  exists w h,
    0 < w /\ 0 < h /\
    DataConfig.get_image_dimensions example_int_of_str
      (BenchmarkConfig.mk_data "image" (SizeStr "640X480")) = OK (w, h) /\
    DataGenerators.generate_data example_int_of_str "image" (SizeStr "640X480")
    = OK (DataGenerators.Image w h).
Proof.
  destruct (validated_size_has_dimensions example_int_of_str "image")
    as (H & _ & _).
  apply H. reflexivity.
Defined.

(** ** bench/data_generators.py: the mesh *)

Lemma reshape3_triples (l : list Z) :
  DataGenerators.reshape3 (flat_map (fun i => [i; i + 1; i + 2]) l)
  = map (fun i => (i, i + 1, i + 2)) l.
Proof.
  induction l as [|i l IH]; [reflexivity|].
  cbn [flat_map app DataGenerators.reshape3 map]. rewrite IH. reflexivity.
Qed.

Lemma nth_error_seq_lt (m k : nat) :
  (k < m)%nat -> nth_error (seq 0 m) k = Some k.
Proof.
  intros H.
  rewrite (nth_error_nth' (seq 0 m) 0%nat) by (rewrite length_seq; exact H).
  rewrite seq_nth by exact H. reflexivity.
Qed.

(** X30: [generate_mesh] draws at least three vertices and builds a
    strip of triangles, two fewer than the vertices: the i-th triangle is
    (i, i+1, i+2).  Every index names one of the vertices and every
    vertex belongs to a triangle. *)
Theorem mesh_is_a_triangle_strip (num_vertices : Z) :
  let n := fst (DataGenerators.generate_mesh num_vertices) in
  let triangles := snd (DataGenerators.generate_mesh num_vertices) in
  n = Z.max 3 num_vertices /\
  Z.of_nat (length triangles) = n - 2 /\
  (forall i, 0 <= i < n - 2 ->
     nth_error triangles (Z.to_nat i) = Some (i, i + 1, i + 2)) /\
  Forall (fun t => 0 <= fst (fst t) /\ snd t < n) triangles /\
  (forall k, 0 <= k < n ->
     exists t, In t triangles /\
               (fst (fst t) = k \/ snd (fst t) = k \/ snd t = k)).
Proof.
  unfold DataGenerators.generate_mesh, DataGenerators.mesh_indices.
  cbn [fst snd]. rewrite reshape3_triples.
  set (n := if Z.ltb num_vertices 3 then 3 else num_vertices).
  assert (Hn : n = Z.max 3 num_vertices).
  { subst n. destruct (Z.ltb_spec num_vertices 3); lia. }
  assert (Hm : Z.max 1 (n - 2) = n - 2) by lia.
  rewrite Hm. clear Hm.
  split; [exact Hn|]. split; [|split; [|split]].
  - rewrite !length_map, length_seq. lia.
  - intros i Hi.
    assert (Hlt : (Z.to_nat i < Z.to_nat (n - 2))%nat) by lia.
    rewrite (map_nth_error _ _ _
               (map_nth_error Z.of_nat _ _
                  (nth_error_seq_lt (Z.to_nat (n - 2)) (Z.to_nat i) Hlt))).
    rewrite Z2Nat.id by lia. reflexivity.
  - apply List.Forall_forall. intros t Ht.
    apply in_map_iff in Ht. destruct Ht as (i & <- & Hi).
    apply in_map_iff in Hi. destruct Hi as (j & <- & Hj).
    apply in_seq in Hj. cbn [fst snd]. lia.
  - intros k Hk.
    assert (Hin : forall i, 0 <= i < n - 2 ->
              In (i, i + 1, i + 2)
                 (map (fun i => (i, i + 1, i + 2))
                    (map Z.of_nat (seq 0 (Z.to_nat (n - 2)))))).
    { intros i Hi. apply in_map_iff. exists i. split; [reflexivity|].
      apply in_map_iff. exists (Z.to_nat i). split; [lia|].
      apply in_seq. lia. }
    destruct (Z.ltb_spec k (n - 2)) as [Hlt|Hge].
    + exists (k, k + 1, k + 2). split; [apply Hin; lia|].
      left. reflexivity.
    + exists (n - 3, n - 3 + 1, n - 3 + 2). split; [apply Hin; lia|].
      cbn [fst snd]. lia.
Qed.

